(** * Cannabis-market dashboard: county names, filters, validation, quality metrics

    A shallow embedding of the table-processing core of the dashboard
    ([app/utils/data_utils.py], [app/utils/filters.py],
    [app/utils/data_validation.py], [app/utils/cached_calculations.py]) and the
    properties its specification states about it, followed by the region
    lookup ([app/config/regions.py]), the GeoJSON loader
    ([app/utils/load_geojson.py]) and further properties of all of these.

    Modelling conventions.
    - A Python [str] is a [string]; the string primitives the code calls
      ([strip], [lower], [endswith], slicing) are defined on the character
      list.  A character is a code point below 256; whitespace and letter
      case are those of Python on that range.
    - A pandas cell is a [cell]: missing ([None]/[NaN]/[pd.NA]), a number, or a
      string.  Numbers are exact rationals ([Qc]); binary64 rounding is not
      modelled, so comparisons are exact also where numpy would compare an
      integer beyond 2^53 with a float bound.
    - A [DataFrame] is an ordered list of column names and a list of rows, each
      row a finite map from column name to cell.
    - Frames live in a store indexed by object identity, so that in-place
      column assignment and [copy] can be told apart.  Objects are never
      collected: a temporary frame stays in the store. *)

From Stdlib Require Import Ascii String QArith Qcanon.
From stdpp Require Import base option list gmap strings numbers pretty fin_maps.

Close Scope Q_scope.
Close Scope Qc_scope.

(** ** Python string primitives *)

Module PyStr.

Definition chars (s : string) : list ascii := list_ascii_of_string s.
Definition str (l : list ascii) : string := string_of_list_ascii l.

(** The characters [str.strip] removes: TAB, LF, VT, FF, CR, the four
    separators FS..US, the space, NEL (U+0085) and the no-break space
    (U+00A0). *)
Definition is_space (c : ascii) : bool :=
  let n := nat_of_ascii c in
  (((9 <=? n) && (n <=? 13)) || ((28 <=? n) && (n <=? 32))
   || (n =? 133) || (n =? 160))%nat.

(** [str.lower] on one character: [A]..[Z] and the capital letters of the
    Latin-1 block (U+00C0..U+00DE without the multiplication sign U+00D7)
    go to the letter 32 places on. *)
Definition lower_char (c : ascii) : ascii :=
  let n := nat_of_ascii c in
  if (((65 <=? n) && (n <=? 90))
      || ((192 <=? n) && (n <=? 222) && negb (n =? 215)))%nat
  then ascii_of_nat (n + 32) else c.

Fixpoint lstrip_l (l : list ascii) : list ascii :=
  match l with
  | c :: l' => if is_space c then lstrip_l l' else l
  | [] => []
  end.

Definition rstrip_l (l : list ascii) : list ascii := rev (lstrip_l (rev l)).
Definition strip_l (l : list ascii) : list ascii := rstrip_l (lstrip_l l).

(** [s.strip()] *)
Definition strip (s : string) : string := str (strip_l (chars s)).
(** [s.lower()] *)
Definition lower (s : string) : string := str (map lower_char (chars s)).
(** [s.endswith(suf)] *)
Definition endswith (s suf : string) : bool :=
  bool_decide (chars suf `suffix_of` chars s).
(** [s[:-n]] for a positive [n]: everything but the last [n] characters,
    the empty string when [s] is shorter than [n]. *)
Definition drop_last (n : nat) (s : string) : string :=
  str (take (length (chars s) - n) (chars s)).
(** [not s] on a string *)
Definition is_empty (s : string) : bool := bool_decide (s = "").

End PyStr.

(** ** Cells and the two pandas services the code relies on *)

Inductive cell :=
  | CNull
  | CNum (q : Qc)
  | CStr (s : string).

Global Instance cell_eq_dec : EqDecision cell.
Proof. solve_decision. Defined.

(** What the code takes from Python and pandas without defining it:
    the text of a number ([str(x)], f-string interpolation) and the numeric
    reading of a string by [pd.to_numeric(..., errors='coerce')], which is
    [None] for a string that is not a number. *)
Class Pandas := {
  str_of_num : Qc → string;
  to_numeric_str : string → option Qc
}.

(** [Optional[str]] results flow back into cells. *)
Definition cell_of_opt (o : option string) : cell :=
  match o with Some s => CStr s | None => CNull end.

(** ** County names ([app/utils/data_utils.py]) *)

Section county_names.
Context `{Pandas}.

Definition county_token : string := " county".

(** The body of [normalize_county_name] from [str(name).strip()] on. *)
Definition normalize_text (s : string) : option string :=
  let normalized := PyStr.strip s in
  if PyStr.is_empty normalized then None
  else if PyStr.endswith (PyStr.lower normalized) county_token
       then Some (PyStr.strip (PyStr.drop_last 7 normalized))
       else Some normalized.

(** The body of [add_county_suffix] from [str(name).strip()] on. *)
Definition suffix_text (s : string) : option string :=
  let formatted := PyStr.strip s in
  if PyStr.is_empty formatted then None
  else if negb (PyStr.endswith (PyStr.lower formatted) county_token)
       then Some (formatted +:+ " County")
       else Some formatted.

(** [pd.isna(name)], then [not name], then [str(name)]. *)
Definition normalize_county_name (name : cell) : option string :=
  match name with
  | CNull => None
  | CNum q => if bool_decide (q = 0%Qc) then None
              else normalize_text (str_of_num q)
  | CStr s => if PyStr.is_empty s then None else normalize_text s
  end.

Definition add_county_suffix (name : cell) : option string :=
  match name with
  | CNull => None
  | CNum q => if bool_decide (q = 0%Qc) then None
              else suffix_text (str_of_num q)
  | CStr s => if PyStr.is_empty s then None else suffix_text s
  end.

End county_names.

(** ** Tables *)

Record DataFrame := {
  columns : list string;
  rows : list (gmap string cell)
}.

(** A cell a row does not record is missing. *)
Definition row_cell (c : string) (r : gmap string cell) : cell :=
  default CNull (r !! c).

(** [c in df.columns] *)
Definition has_column (df : DataFrame) (c : string) : bool :=
  bool_decide (c ∈ columns df).

(** [df[c]] as the list of its values, row by row. *)
Definition series (df : DataFrame) (c : string) : list cell :=
  row_cell c <$> rows df.

(** [df[mask]] for a boolean series [mask]. *)
Definition select (df : DataFrame) (mask : list bool) : DataFrame :=
  {| columns := columns df;
     rows := (List.filter snd (zip (rows df) mask)).*1 |}.

(** [df[c] = values]: replaces column [c] or appends it as the last one. *)
Definition set_column (df : DataFrame) (c : string) (values : list cell)
  : DataFrame :=
  {| columns := if has_column df c then columns df else columns df ++ [c];
     rows := zip_with (λ r v, <[c := v]> r) (rows df) values |}.

(** [df.drop(columns=[c])] on a frame that has the column. *)
Definition drop_column (df : DataFrame) (c : string) : DataFrame :=
  {| columns := List.filter (λ c', negb (bool_decide (c' = c))) (columns df);
     rows := delete c <$> rows df |}.

(** [len(df)] *)
Definition nrows (df : DataFrame) : nat := length (rows df).

(** [pd.isna] on one cell *)
Definition isna (c : cell) : bool :=
  match c with CNull => true | _ => false end.

(** [series.isin(values)]: missing matches missing, as pandas' object
    hash table does. *)
Definition isin (values : list cell) (c : cell) : bool :=
  bool_decide (c ∈ values).

(** [series >= x] and [series <= x] for a number [x]: a missing value
    compares false, a string raises [TypeError] ([None]). *)
Definition cell_cmp (p : Qc → bool) (c : cell) : option bool :=
  match c with
  | CNull => Some false
  | CNum q => Some (p q)
  | CStr _ => None
  end.

Definition series_ge (s : list cell) (x : Qc) : option (list bool) :=
  mapM (cell_cmp (λ q, bool_decide (x ≤ q)%Qc)) s.
Definition series_le (s : list cell) (x : Qc) : option (list bool) :=
  mapM (cell_cmp (λ q, bool_decide (q ≤ x)%Qc)) s.

(** [a & b], [a | b] and [mask.sum()] on boolean series. *)
Definition mask_and (a b : list bool) : list bool := zip_with andb a b.
Definition mask_or (a b : list bool) : list bool := zip_with orb a b.
Definition mask_sum (m : list bool) : nat := length (List.filter id m).

(** ** Frames as objects: the store *)

Definition loc := positive.

(** A computation over the store of live frames that may raise; the store
    survives the exception. *)
Definition M (A : Type) : Type := gmap loc DataFrame → option A * gmap loc DataFrame.

Global Instance M_ret : MRet M := λ A x s, (Some x, s).
Global Instance M_bind : MBind M := λ A B f m s,
  match m s with
  | (Some x, s') => f x s'
  | (None, s') => (None, s')
  end.

Definition raise {A} : M A := λ s, (None, s).
Definition lift {A} (o : option A) : M A := λ s, (o, s).

(** Dereference. *)
Definition frame (l : loc) : M DataFrame := λ s, (s !! l, s).

(** A new object. *)
Definition new_frame (df : DataFrame) : M loc := λ s,
  let l := fresh (dom s) in (Some l, <[l := df]> s).

(** Overwrite an object's content. *)
Definition store_frame (l : loc) (df : DataFrame) : M unit := λ s,
  (Some (), <[l := df]> s).

(** [df.copy()] *)
Definition df_copy (l : loc) : M loc := d ← frame l; new_frame d.

(** [df[mask]]: a new frame *)
Definition df_select (l : loc) (mask : list bool) : M loc :=
  d ← frame l; new_frame (select d mask).

(** [df[c] = values]: in place *)
Definition df_setitem (l : loc) (c : string) (values : list cell) : M unit :=
  d ← frame l; store_frame l (set_column d c values).

(** [df.drop(columns=[c])]: a new frame; [KeyError] without the column *)
Definition df_drop (l : loc) (c : string) : M loc :=
  d ← frame l;
  if has_column d c then new_frame (drop_column d c) else raise.

(** [df.columns], [len(df)] and [df[c]] (a [KeyError] without the column)
    read the frame. *)
Definition df_columns (l : loc) : M (list string) :=
  d ← frame l; mret (columns d).

Definition df_len (l : loc) : M nat :=
  d ← frame l; mret (nrows d).

Definition df_getitem (l : loc) (c : string) : M (list cell) :=
  d ← frame l;
  if has_column d c then mret (series d c) else raise.

(** The frame a computation returns, read from the final store. *)
Definition result_frame (m : M loc) (s : gmap loc DataFrame) : option DataFrame :=
  match m s with
  | (Some l, s') => s' !! l
  | (None, _) => None
  end.

(** ** Sidebar filters ([app/utils/filters.py]) *)

(** The filter dictionary at the keys the code reads.  A field is [None]
    when the key is absent; [years] holds a 2-tuple, the two list fields
    hold possibly empty lists of labels, [county] a label. *)
Record Filters := {
  years : option (Z * Z);
  license_types : option (list string);
  counties : option (list string);
  county : option string
}.

Definition all_counties : string := "All Counties".

(** The resolution of [counties_to_filter] that [apply_dispensary_filters]
    and [apply_sentiment_filters] both spell out: the non-empty list field
    first, the scalar field only when the list is absent or empty.  [None]
    is Python's [None]; a returned list is never empty. *)
Definition counties_to_filter (filters : Filters) : option (list string) :=
  match counties filters with
  | Some ((_ :: _) as cs) =>
      if bool_decide (all_counties ∉ cs) then Some cs else None
  | _ =>
      match county filters with
      | Some c => if bool_decide (c ≠ all_counties) then Some [c] else None
      | None => None
      end
  end.

Section filters.
Context `{Pandas}.

(** "Apply year filter": the same text in the three appliers. *)
Definition year_step (filtered_df : loc) (filters : Filters) : M loc :=
  match years filters with
  | Some (start_year, end_year) =>
      d ← frame filtered_df;
      if has_column d "Year" then
        ge ← lift (series_ge (series d "Year") (Qc_of_Z start_year));
        le ← lift (series_le (series d "Year") (Qc_of_Z end_year));
        df_select filtered_df (mask_and ge le)
      else mret filtered_df
  | None => mret filtered_df
  end.

(** "Apply license type filter" *)
Definition license_step (filtered_df : loc) (filters : Filters) : M loc :=
  match license_types filters with
  | Some ((_ :: _) as types) =>
      d ← frame filtered_df;
      if has_column d "License Designation" then
        df_select filtered_df
          (isin (CStr <$> types) <$> series d "License Designation")
      else mret filtered_df
  | _ => mret filtered_df
  end.

(** "Apply county filter (supports both "county" and "counties" keys)":
    the same text in [apply_dispensary_filters] and
    [apply_sentiment_filters]. *)
Definition county_step (filtered_df : loc) (filters : Filters) : M loc :=
  match counties_to_filter filters with
  | Some cs =>
      d ← frame filtered_df;
      if has_column d "County" then
        let normalized_filter_counties :=
          (λ c, cell_of_opt (normalize_county_name (CStr c))) <$> cs in
        df_setitem filtered_df "_normalized_county"
          ((λ c, cell_of_opt (normalize_county_name c)) <$> series d "County");;
        d' ← frame filtered_df;
        kept ← df_select filtered_df
          (isin normalized_filter_counties <$> series d' "_normalized_county");
        df_drop kept "_normalized_county"
      else mret filtered_df
  | None => mret filtered_df
  end.

(** [series == x] for an [Optional[str]] [x]: a missing value on either
    side compares false. *)
Definition series_eq_opt (s : list cell) (x : option string) : list bool :=
  (λ c, match x with
        | Some t => bool_decide (c = CStr t)
        | None => false
        end) <$> s.

(** "Apply county filter" of [apply_density_filters]: reads the scalar
    field only. *)
Definition density_county_step (filtered_df : loc) (filters : Filters)
  : M loc :=
  match county filters with
  | Some c =>
      if bool_decide (c ≠ all_counties) then
        d ← frame filtered_df;
        if has_column d "County" then
          let filter_county := normalize_county_name (CStr c) in
          df_setitem filtered_df "_normalized_county"
            ((λ c, cell_of_opt (normalize_county_name c)) <$> series d "County");;
          d' ← frame filtered_df;
          kept ← df_select filtered_df
            (series_eq_opt (series d' "_normalized_county") filter_county);
          df_drop kept "_normalized_county"
        else mret filtered_df
      else mret filtered_df
  | None => mret filtered_df
  end.

Definition apply_dispensary_filters (dispensaries : loc) (filters : Filters)
  : M loc :=
  filtered_df ← df_copy dispensaries;
  filtered_df ← year_step filtered_df filters;
  filtered_df ← license_step filtered_df filters;
  county_step filtered_df filters.

Definition apply_sentiment_filters (sentiment : loc) (filters : Filters)
  : M loc :=
  filtered_df ← df_copy sentiment;
  filtered_df ← year_step filtered_df filters;
  county_step filtered_df filters.

Definition apply_density_filters (density : loc) (filters : Filters)
  : M loc :=
  filtered_df ← df_copy density;
  filtered_df ← year_step filtered_df filters;
  density_county_step filtered_df filters.

End filters.

(** [has_active_filters] *)
Definition has_active_filters (filters : Filters) : bool :=
  if match years filters with
     | Some (start_year, end_year) =>
         bool_decide (start_year ≠ 2018%Z) || bool_decide (end_year ≠ 2024%Z)
     | None => false
     end
  then true
  else if match counties filters with
          | Some ((_ :: _) as cs) => bool_decide (all_counties ∉ cs)
          | _ => match county filters with
                 | Some c => bool_decide (c ≠ all_counties)
                 | None => false
                 end
          end
  then true
  else match license_types filters with
       | Some ((_ :: _) as types) => bool_decide (length types < 3)
       | _ => false
       end.

(** ** Validation ([app/utils/data_validation.py]) *)

Record ValidationResult := {
  is_valid : bool;
  column : string;
  message : string;
  invalid_count : nat;
  invalid_values : list cell
}.

(** [a or b] on an optional display name: [None] and the empty string are
    falsy. *)
Definition name_or (a : option string) (b : string) : string :=
  match a with
  | Some s => if PyStr.is_empty s then b else s
  | None => b
  end.

(** [sep.join(parts)] *)
Fixpoint join (sep : string) (parts : list string) : string :=
  match parts with
  | [] => ""
  | [p] => p
  | p :: ps => p +:+ sep +:+ join sep ps
  end.

Section validation.
Context `{Pandas}.

(** [pd.to_numeric(series, errors='coerce')] on one cell: [None] is NaN. *)
Definition to_numeric (c : cell) : option Qc :=
  match c with
  | CNull => None
  | CNum q => Some q
  | CStr s => to_numeric_str s
  end.

(** [numeric_values < x], [<= x], [> x]: NaN compares false. *)
Definition num_lt (x : Qc) (v : option Qc) : bool :=
  match v with Some q => bool_decide (q < x)%Qc | None => false end.
Definition num_le (x : Qc) (v : option Qc) : bool :=
  match v with Some q => bool_decide (q ≤ x)%Qc | None => false end.
Definition num_gt (x : Qc) (v : option Qc) : bool :=
  match v with Some q => bool_decide (x < q)%Qc | None => false end.

Definition validate_positive_numeric (df : DataFrame) (column : string)
    (allow_zero : bool) (column_display_name : option string)
  : ValidationResult :=
  let display_name := name_or column_display_name column in
  if negb (has_column df column) then
    {| is_valid := false; column := column;
       message := "Column '" +:+ display_name +:+ "' not found in dataset";
       invalid_count := 0; invalid_values := [] |}
  else
    let numeric_values := to_numeric <$> series df column in
    let '(invalid_mask, threshold_text) :=
      if allow_zero
      then (num_lt 0%Qc <$> numeric_values, "non-negative (≥ 0)")
      else (num_le 0%Qc <$> numeric_values, "positive (> 0)") in
    let invalid_count := mask_sum invalid_mask in
    if bool_decide (0 < invalid_count) then
      let invalid_samples := take 5 (series (select df invalid_mask) column) in
      {| is_valid := false; column := column;
         message := pretty invalid_count +:+ " values in '" +:+ display_name
                    +:+ "' are not " +:+ threshold_text;
         invalid_count := invalid_count;
         invalid_values := invalid_samples |}
    else
      {| is_valid := true; column := column;
         message := "All values in '" +:+ display_name +:+ "' are "
                    +:+ threshold_text;
         invalid_count := 0; invalid_values := [] |}.

Definition validate_range (df : DataFrame) (column : string)
    (min_value max_value : option Qc) (column_display_name : option string)
  : ValidationResult :=
  let display_name := name_or column_display_name column in
  if negb (has_column df column) then
    {| is_valid := false; column := column;
       message := "Column '" +:+ display_name +:+ "' not found in dataset";
       invalid_count := 0; invalid_values := [] |}
  else
    let numeric_values := to_numeric <$> series df column in
    let invalid_mask := replicate (nrows df) false in
    let range_text_parts : list string := [] in
    let '(invalid_mask, range_text_parts) :=
      match min_value with
      | Some m => (mask_or invalid_mask (num_lt m <$> numeric_values),
                   range_text_parts ++ ["≥ " +:+ str_of_num m])
      | None => (invalid_mask, range_text_parts)
      end in
    let '(invalid_mask, range_text_parts) :=
      match max_value with
      | Some m => (mask_or invalid_mask (num_gt m <$> numeric_values),
                   range_text_parts ++ ["≤ " +:+ str_of_num m])
      | None => (invalid_mask, range_text_parts)
      end in
    let range_text :=
      match range_text_parts with
      | [] => "any value"
      | _ => join " and " range_text_parts
      end in
    let invalid_count := mask_sum invalid_mask in
    if bool_decide (0 < invalid_count) then
      let invalid_samples := take 5 (series (select df invalid_mask) column) in
      {| is_valid := false; column := column;
         message := pretty invalid_count +:+ " values in '" +:+ display_name
                    +:+ "' outside range (" +:+ range_text +:+ ")";
         invalid_count := invalid_count;
         invalid_values := invalid_samples |}
    else
      {| is_valid := true; column := column;
         message := "All values in '" +:+ display_name +:+ "' within range ("
                    +:+ range_text +:+ ")";
         invalid_count := 0; invalid_values := [] |}.

(** [validate_year_column]; [current_year] is [datetime.now().year]. *)
Definition validate_year_column (current_year : Z) (df : DataFrame)
    (column : string) (min_year : Z) (max_year : option Z)
  : ValidationResult :=
  let max_year := match max_year with
                  | Some y => y
                  | None => (current_year + 1)%Z
                  end in
  validate_range df column (Some (Qc_of_Z min_year)) (Some (Qc_of_Z max_year))
    (Some "Year").

Definition validate_sentiment_score (df : DataFrame) (column : string)
    (min_score max_score : Qc) : ValidationResult :=
  validate_range df column (Some min_score) (Some max_score)
    (Some "Sentiment Score").

Definition validate_percentage (df : DataFrame) (column : string)
    (column_display_name : option string) : ValidationResult :=
  validate_range df column (Some 0%Qc) (Some (Qc_of_Z 100))
    (Some (name_or column_display_name (column +:+ " (percentage)"))).

(** The validators as they are called: on a frame object of the store.
    Each line of the body that touches the frame is a store operation:
    [df.columns], [df[column]] and [len(df)] read it, [df[invalid_mask]]
    makes a new frame.  Series and masks are values. *)
Definition validate_positive_numeric_at (df : loc) (column : string)
    (allow_zero : bool) (column_display_name : option string)
  : M ValidationResult :=
  let display_name := name_or column_display_name column in
  cols ← df_columns df;
  if negb (bool_decide (column ∈ cols)) then
    mret {| is_valid := false; column := column;
            message := "Column '" +:+ display_name +:+ "' not found in dataset";
            invalid_count := 0; invalid_values := [] |}
  else
    df_column ← df_getitem df column;
    let numeric_values := to_numeric <$> df_column in
    let '(invalid_mask, threshold_text) :=
      if allow_zero
      then (num_lt 0%Qc <$> numeric_values, "non-negative (≥ 0)")
      else (num_le 0%Qc <$> numeric_values, "positive (> 0)") in
    let invalid_count := mask_sum invalid_mask in
    if bool_decide (0 < invalid_count) then
      invalid_rows ← df_select df invalid_mask;
      invalid_column ← df_getitem invalid_rows column;
      let invalid_samples := take 5 invalid_column in
      mret {| is_valid := false; column := column;
              message := pretty invalid_count +:+ " values in '"
                         +:+ display_name +:+ "' are not " +:+ threshold_text;
              invalid_count := invalid_count;
              invalid_values := invalid_samples |}
    else
      mret {| is_valid := true; column := column;
              message := "All values in '" +:+ display_name +:+ "' are "
                         +:+ threshold_text;
              invalid_count := 0; invalid_values := [] |}.

Definition validate_range_at (df : loc) (column : string)
    (min_value max_value : option Qc) (column_display_name : option string)
  : M ValidationResult :=
  let display_name := name_or column_display_name column in
  cols ← df_columns df;
  if negb (bool_decide (column ∈ cols)) then
    mret {| is_valid := false; column := column;
            message := "Column '" +:+ display_name +:+ "' not found in dataset";
            invalid_count := 0; invalid_values := [] |}
  else
    df_column ← df_getitem df column;
    let numeric_values := to_numeric <$> df_column in
    len_df ← df_len df;
    let invalid_mask := replicate len_df false in
    let range_text_parts : list string := [] in
    let '(invalid_mask, range_text_parts) :=
      match min_value with
      | Some m => (mask_or invalid_mask (num_lt m <$> numeric_values),
                   range_text_parts ++ ["≥ " +:+ str_of_num m])
      | None => (invalid_mask, range_text_parts)
      end in
    let '(invalid_mask, range_text_parts) :=
      match max_value with
      | Some m => (mask_or invalid_mask (num_gt m <$> numeric_values),
                   range_text_parts ++ ["≤ " +:+ str_of_num m])
      | None => (invalid_mask, range_text_parts)
      end in
    let range_text :=
      match range_text_parts with
      | [] => "any value"
      | _ => join " and " range_text_parts
      end in
    let invalid_count := mask_sum invalid_mask in
    if bool_decide (0 < invalid_count) then
      invalid_rows ← df_select df invalid_mask;
      invalid_column ← df_getitem invalid_rows column;
      let invalid_samples := take 5 invalid_column in
      mret {| is_valid := false; column := column;
              message := pretty invalid_count +:+ " values in '"
                         +:+ display_name +:+ "' outside range ("
                         +:+ range_text +:+ ")";
              invalid_count := invalid_count;
              invalid_values := invalid_samples |}
    else
      mret {| is_valid := true; column := column;
              message := "All values in '" +:+ display_name
                         +:+ "' within range (" +:+ range_text +:+ ")";
              invalid_count := 0; invalid_values := [] |}.

Definition validate_year_column_at (current_year : Z) (df : loc)
    (column : string) (min_year : Z) (max_year : option Z)
  : M ValidationResult :=
  let max_year := match max_year with
                  | Some y => y
                  | None => (current_year + 1)%Z
                  end in
  validate_range_at df column (Some (Qc_of_Z min_year))
    (Some (Qc_of_Z max_year)) (Some "Year").

Definition validate_sentiment_score_at (df : loc) (column : string)
    (min_score max_score : Qc) : M ValidationResult :=
  validate_range_at df column (Some min_score) (Some max_score)
    (Some "Sentiment Score").

Definition validate_percentage_at (df : loc) (column : string)
    (column_display_name : option string) : M ValidationResult :=
  validate_range_at df column (Some 0%Qc) (Some (Qc_of_Z 100))
    (Some (name_or column_display_name (column +:+ " (percentage)"))).

End validation.

(** ** Cached calculations ([app/utils/cached_calculations.py]) *)

Definition Qc_of_nat (n : nat) : Qc := Qc_of_Z (Z.of_nat n).

Definition Qc_min (a b : Qc) : Qc := if bool_decide (a ≤ b)%Qc then a else b.
Definition Qc_max (a b : Qc) : Qc := if bool_decide (a ≤ b)%Qc then b else a.

(** [int(x)]: truncation towards zero. *)
Definition Qc_trunc (q : Qc) : Z := (Qnum q ÷ Zpos (Qden q))%Z.

(** The numbers of a series without its missing values; [None] when a
    string is among them (an object column is outside what the aggregation
    code is written for: pandas raises or concatenates text). *)
Definition numbers (s : list cell) : option (list Qc) :=
  mapM (λ c, match c with CNum q => Some q | _ => None end)
       (List.filter (λ c, negb (isna c)) s).

(** [series.mean()]: missing values are skipped; the mean of nothing is NaN
    (the inner [None]).  The mean is the exact one: pandas rounds the sum
    and the quotient to binary64, so nothing is stated below about the
    value of a mean of actual numbers. *)
Definition mean (s : list cell) : option (option Qc) :=
  ns ← numbers s;
  Some (match ns with
        | [] => None
        | _ => Some (foldr Qcplus 0%Qc ns / Qc_of_nat (length ns))%Qc
        end).

(** *** Data quality *)

Record metrics := {
  total_records : nat;
  completeness : Qc;
  null_cells : nat;
  unique_counties : option nat;
  year_range : option string
}.

(** [df.empty]: some axis has length 0. *)
Definition df_empty (df : DataFrame) : bool :=
  bool_decide (nrows df = 0) || bool_decide (length (columns df) = 0).

(** [df.size] *)
Definition df_size (df : DataFrame) : nat := nrows df * length (columns df).

(** [df.isna().sum().sum()]: per column, then over the columns. *)
Definition df_null_cells (df : DataFrame) : nat :=
  sum_list ((λ c, mask_sum (isna <$> series df c)) <$> columns df).

(** [(1 - null_cells / total_cells) * 100 if total_cells > 0 else 0] *)
Definition completeness_of (null_cells total_cells : nat) : Qc :=
  if bool_decide (0 < total_cells)
  then ((1 - Qc_of_nat null_cells / Qc_of_nat total_cells) * Qc_of_Z 100)%Qc
  else 0%Qc.

(** The strings of a series without its missing values; [None] when a
    number is among them. *)
Definition texts (s : list cell) : option (list string) :=
  mapM (λ c, match c with CStr t => Some t | _ => None end)
       (List.filter (λ c, negb (isna c)) s).

(** [a < b] on strings: by code points, a proper prefix first. *)
Fixpoint chars_ltb (a b : list ascii) : bool :=
  match a, b with
  | _, [] => false
  | [], _ :: _ => true
  | x :: a', y :: b' =>
      (nat_of_ascii x <? nat_of_ascii y)%nat
      || ((nat_of_ascii x =? nat_of_ascii y)%nat && chars_ltb a' b')
  end.

Definition str_min (a b : string) : string :=
  if chars_ltb (PyStr.chars b) (PyStr.chars a) then b else a.
Definition str_max (a b : string) : string :=
  if chars_ltb (PyStr.chars a) (PyStr.chars b) then b else a.

(** [int(s)] on a string: surrounding whitespace (TAB..CR, the space, NEL
    and the no-break space; the separators FS..US are not skipped here), a
    sign, then decimal digits, single underscores allowed between two
    digits; [None] is a [ValueError]. *)
Definition is_int_space (c : ascii) : bool :=
  let n := nat_of_ascii c in
  (((9 <=? n) && (n <=? 13)) || (n =? 32) || (n =? 133) || (n =? 160))%nat.

Fixpoint skip_int_space (l : list ascii) : list ascii :=
  match l with
  | c :: l' => if is_int_space c then skip_int_space l' else l
  | [] => []
  end.

Definition digit_of (c : ascii) : option Z :=
  let n := nat_of_ascii c in
  if ((48 <=? n) && (n <=? 57))%nat then Some (Z.of_nat (n - 48)) else None.

Fixpoint int_digits (acc : Z) (l : list ascii) : option Z :=
  match l with
  | [] => Some acc
  | c :: l' =>
      if bool_decide (c = "_"%char) then
        match l' with
        | d :: l'' => v ← digit_of d; int_digits (10 * acc + v) l''
        | [] => None
        end
      else v ← digit_of c; int_digits (10 * acc + v) l'
  end.

Definition int_of_str (s : string) : option Z :=
  let l := rev (skip_int_space (rev (skip_int_space (PyStr.chars s)))) in
  let '(negative, l) :=
    match l with
    | c :: l' =>
        if bool_decide (c = "-"%char) then (true, l')
        else if bool_decide (c = "+"%char) then (false, l')
        else (false, l)
    | [] => (false, l)
    end in
  match l with
  | d :: l' =>
      v ← digit_of d;
      n ← int_digits v l';
      Some (if negative then (- n)%Z else n)
  | [] => None
  end.

(** [f"{int(years.min())}-{int(years.max())}"] for the values of the Year
    column that are not missing.  Numbers are truncated; strings are
    compared as strings and then read by [int]; numbers and strings in one
    column do not compare ([TypeError], [None]). *)
Definition year_range_of (years : list cell) : option (option string) :=
  match numbers years with
  | Some [] => Some None
  | Some (y :: ys') =>
      Some (Some (pretty (Qc_trunc (foldr Qc_min y ys')) +:+ "-"
                  +:+ pretty (Qc_trunc (foldr Qc_max y ys'))))
  | None =>
      match texts years with
      | Some (t :: ts) =>
          lo ← int_of_str (foldr str_min t ts);
          hi ← int_of_str (foldr str_max t ts);
          Some (Some (pretty lo +:+ "-" +:+ pretty hi))
      | _ => None
      end
  end.

(** The body of the loop of [get_data_quality_metrics] for one non-empty
    frame; [None] when the year range raises. *)
Definition table_metrics (df : DataFrame) : option metrics :=
  let total_records := nrows df in
  let total_cells := df_size df in
  let null_cells := df_null_cells df in
  let completeness := completeness_of null_cells total_cells in
  let unique_counties :=
    if has_column df "County"
    then Some (length (remove_dups
                 (List.filter (λ c, negb (isna c)) (series df "County"))))
    else None in
  year_range ←
    (if has_column df "Year" then year_range_of (series df "Year")
     else Some None);
  Some {| total_records := total_records;
          completeness := completeness;
          null_cells := null_cells;
          unique_counties := unique_counties;
          year_range := year_range |}.

(** The frames the loop does not skip: not [None] and not empty. *)
Definition measured (df : option DataFrame) : option DataFrame :=
  d ← df; if df_empty d then None else Some d.

Definition get_data_quality_metrics (data_dict : gmap string (option DataFrame))
  : option (gmap string metrics) :=
  let live := omap measured data_dict in
  if bool_decide (map_Forall (λ _ d, is_Some (table_metrics d)) live)
  then Some (omap table_metrics live)
  else None.

(** *** Regional density *)

(** "Ensure counties have " County" suffix": the comprehension that builds
    [counties_formatted]; the test is case-sensitive here. *)
Definition counties_formatted_of (counties : list string) : list string :=
  (λ c, if negb (PyStr.endswith c " County") then c +:+ " County" else c)
    <$> counties.

(** One pass of the loop of [calculate_regional_density]: the dictionary it
    appends.  [None] is a [KeyError] for a missing column, or a metric
    column holding a string. *)
Definition regional_row (density_df : DataFrame)
    (entry : string * list string) : option (gmap string cell) :=
  let '(region, counties) := entry in
  let counties_formatted := counties_formatted_of counties in
  if negb (has_column density_df "County") then None
  else
    let matching :=
      select density_df
        (isin (CStr <$> counties_formatted) <$> series density_df "County") in
    if negb (has_column matching "Dispensary_PerCapita") then None
    else
      avg_density ← mean (series matching "Dispensary_PerCapita");
      Some ({[ "Region" := CStr region;
               "Average_Density" := match avg_density with
                                    | Some q => CNum q
                                    | None => CNum 0%Qc
                                    end ]} : gmap string cell).

(** [pd.DataFrame(list_of_dicts)]: the columns are the keys of the
    dictionaries, none when the list is empty. *)
Definition frame_of_records (cols : list string) (rs : list (gmap string cell))
  : DataFrame :=
  {| columns := match rs with [] => [] | _ => cols end; rows := rs |}.

(** The loop of [calculate_regional_density] and the frame built from the
    list it fills; [items] is [region_mapping.items()], the entries of the
    dictionary in insertion order, their keys distinct. *)
Definition regional_density_of_items (density_df : DataFrame)
    (items : list (string * list string)) : option DataFrame :=
  regional_density ← mapM (regional_row density_df) items;
  Some (frame_of_records ["Region"; "Average_Density"] regional_density).

(** [calculate_regional_density] on a region mapping given as a finite map,
    which has no insertion order: its entries are visited once each, in the
    order [map_to_list] gives them.  This form serves the statements that
    do not depend on the order of the regions; for a dictionary with the
    items [items] it gives the rows of [regional_density_of_items] in some
    order. *)
Definition calculate_regional_density (density_df : DataFrame)
    (region_mapping : gmap string (list string)) : option DataFrame :=
  regional_density_of_items density_df (map_to_list region_mapping).

(** ** Reference data *)

(** A plain instance of the two pandas services: numbers print as their
    integer part, and a string reads as a number when it is a run of decimal
    digits. *)
Fixpoint digits_value (acc : Z) (l : list ascii) : option Z :=
  match l with
  | [] => Some acc
  | c :: l' =>
      let n := nat_of_ascii c in
      if ((48 <=? n) && (n <=? 57))%nat
      then digits_value (10 * acc + Z.of_nat (n - 48)) l'
      else None
  end.

Definition decimal_pandas : Pandas :=
  {| str_of_num := λ q, pretty (Qc_trunc q);
     to_numeric_str := λ s,
       match PyStr.chars s with
       | [] => None
       | l => Qc_of_Z <$> digits_value 0 l
       end |}.

(** A decimal with one fractional digit, given in tenths. *)
Definition tenths (n : Z) : Qc := (Qc_of_Z n / Qc_of_Z 10)%Qc.

Definition density_row (cty : string) (year : Z) (per_capita_tenths : Z)
    (population : Z) : gmap string cell :=
  {[ "County" := CStr cty; "Year" := CNum (Qc_of_Z year);
     "Dispensary_PerCapita" := CNum (tenths per_capita_tenths);
     "Population" := CNum (Qc_of_Z population) ]}.

(** The density fixture of the test suite ([tests/conftest.py]). *)
Definition sample_density_data : DataFrame :=
  {| columns := ["County"; "Year"; "Dispensary_PerCapita"; "Population"];
     rows := [ density_row "Los Angeles County" 2020 52 10000000;
               density_row "San Francisco County" 2020 81 875000;
               density_row "San Diego County" 2020 43 1400000;
               density_row "Los Angeles County" 2021 55 10100000;
               density_row "Orange County" 2021 32 3200000;
               density_row "San Diego County" 2022 47 1450000 ] |}.

(** A frame with the single column [c] holding the integers [zs]. *)
Definition int_column (c : string) (zs : list Z) : DataFrame :=
  {| columns := [c];
     rows := (λ z, {[ c := CNum (Qc_of_Z z) ]} : gmap string cell) <$> zs |}.

Definition no_filters : Filters :=
  {| years := None; license_types := None; counties := None; county := None |}.

(** ** Notions used to state the properties *)

(** The trimmed text without its last " county" token, when it has one. *)
Definition county_core (s : string) : string :=
  let t := PyStr.strip s in
  if PyStr.endswith (PyStr.lower t) county_token then PyStr.drop_last 7 t else t.

(** A Hoare triple for store computations: [Q] on normal return, [E] when
    the computation raises. *)
Definition triple {A} (P : gmap loc DataFrame → Prop) (m : M A)
    (Q : A → gmap loc DataFrame → Prop) (E : gmap loc DataFrame → Prop) : Prop :=
  ∀ s, P s → match m s with
             | (Some x, s') => Q x s'
             | (None, s') => E s'
             end.

(** The working frame [cur], holding [d], is an object the caller's store
    [pre] does not know; everything [pre] knows is still as it was. *)
Definition working (pre : gmap loc DataFrame) (cur : loc) (d : DataFrame)
    (s : gmap loc DataFrame) : Prop :=
  pre ⊆ s ∧ pre !! cur = None ∧ s !! cur = Some d.

Definition temp_column : string := "_normalized_county".

(** What every step of an applier guarantees: the caller's frames are
    untouched, and the frame handed on is again a working frame, with the
    columns of [d] unless [d] already had the temporary column. *)
Definition step_post (pre : gmap loc DataFrame) (d : DataFrame) (l : loc)
    (s : gmap loc DataFrame) : Prop :=
  ∃ d', working pre l d' s
        ∧ (temp_column ∉ columns d → columns d' = columns d).

(** The frame contract of an applier, for a caller store [pre]. *)
Definition applier_spec (apply : loc → Filters → M loc) : Prop :=
  ∀ pre l filters,
    triple (λ s, s = pre) (apply l filters)
      (λ l' s, pre ⊆ s ∧ pre !! l' = None
               ∧ ∃ d d', pre !! l = Some d ∧ s !! l' = Some d'
                  ∧ (temp_column ∉ columns d → columns d' = columns d))
      (λ s, pre ⊆ s).

(** The three defaults as the specification words them. *)
Definition spec_years_default (filters : Filters) : Prop :=
  years filters = Some (2018, 2024)%Z.
Definition spec_county_default (filters : Filters) : Prop :=
  county filters = Some all_counties
  ∨ ∃ cs, counties filters = Some cs ∧ all_counties ∈ cs.
Definition spec_license_default (filters : Filters) : Prop :=
  ∃ types, license_types filters = Some types ∧ length types = 3.
Definition spec_all_default (filters : Filters) : Prop :=
  spec_years_default filters ∧ spec_county_default filters
  ∧ spec_license_default filters.

(** What the code takes for "not restricting": a dimension that is unset
    counts like one at its default. *)
Definition years_unrestricted (filters : Filters) : Prop :=
  years filters = None ∨ years filters = Some (2018, 2024)%Z.
Definition license_unrestricted (filters : Filters) : Prop :=
  license_types filters = None ∨ license_types filters = Some []
  ∨ ∃ types, license_types filters = Some types ∧ 3 ≤ length types.

(** The sidebar at its defaults, with every license type deselected. *)
Definition no_license_selected : Filters :=
  {| years := Some (2018, 2024)%Z; license_types := Some [];
     counties := Some ["All Counties"]; county := None |}.

(** Both county shapes at once, naming different counties. *)
Definition both_shapes : Filters :=
  {| years := None; license_types := None;
     counties := Some ["Los Angeles County"];
     county := Some "San Diego County" |}.

(** The list shape says "no restriction", the scalar names a county. *)
Definition sentinel_list_and_scalar : Filters :=
  {| years := None; license_types := None;
     counties := Some ["All Counties"];
     county := Some "Los Angeles County" |}.

(** A session that has loaded the density table as its object 1. *)
Definition density_session : gmap loc DataFrame :=
  {[ 1%positive := sample_density_data ]}.

(** The frame contract of one call on the frame [l] from the store [s]:
    every frame of [s] is unchanged afterwards, and a returned frame is a
    new object with the columns of the input. *)
Definition keeps_inputs (m : M loc) (l : loc) (s : gmap loc DataFrame) : Prop :=
  s ⊆ (m s).2
  ∧ ∀ l', (m s).1 = Some l' →
      s !! l' = None
      ∧ ∃ d d', s !! l = Some d ∧ (m s).2 !! l' = Some d'
         ∧ (temp_column ∉ columns d → columns d' = columns d).

(** The contract of a call that only reports on the frame [l]: every frame
    of [s] is unchanged afterwards, and the value returned is [report] of
    the content of [l]. *)
Definition only_reports {A} (m : M A) (l : loc) (s : gmap loc DataFrame)
    (report : DataFrame → A) : Prop :=
  s ⊆ (m s).2
  ∧ ∀ d, s !! l = Some d → (m s).1 = Some (report d).

(** The frame without its [i]-th row. *)
Definition without_row (i : nat) (df : DataFrame) : DataFrame :=
  {| columns := columns df; rows := delete i (rows df) |}.

(** What the validators answer for a column the frame does not have. *)
Definition not_found (column : string) (display_name : string)
  : ValidationResult :=
  {| is_valid := false; column := column;
     message := "Column '" +:+ display_name +:+ "' not found in dataset";
     invalid_count := 0; invalid_values := [] |}.

(** A population column with a value that is not a number. *)
Definition population_with_text : DataFrame :=
  {| columns := ["County"; "Population"];
     rows := [ {[ "County" := CStr "Napa"; "Population" := CNum (Qc_of_Z 138000) ]};
               {[ "County" := CStr "Yolo"; "Population" := CStr "n/a" ]};
               {[ "County" := CStr "Lake"; "Population" := CNum (Qc_of_Z (-5)) ]} ] |}.

(** The row-wise reading of the two invalid masks: whether a row is
    flagged by [validate_positive_numeric], by [validate_range]. *)
Definition positive_violation `{Pandas} (column : string) (allow_zero : bool)
    (r : gmap string cell) : bool :=
  if allow_zero then num_lt 0%Qc (to_numeric (row_cell column r))
  else num_le 0%Qc (to_numeric (row_cell column r)).

Definition range_violation `{Pandas} (column : string)
    (min_value max_value : option Qc) (r : gmap string cell) : bool :=
  match min_value with
  | Some m => num_lt m (to_numeric (row_cell column r))
  | None => false
  end
  || match max_value with
     | Some m => num_gt m (to_numeric (row_cell column r))
     | None => false
     end.

(** Every cell of the frame, row after row. *)
Definition all_cells (df : DataFrame) : list cell :=
  r ← rows df; (λ c, row_cell c r) <$> columns df.

Definition is_text (c : cell) : bool :=
  match c with CStr _ => true | _ => false end.

(** A column of numbers and missing values, as a numeric dtype holds. *)
Definition numeric_column (df : DataFrame) (c : string) : Prop :=
  Forall (λ v, is_text v = false) (series df c).

(** The rows of the density table that [isin(counties_formatted)] keeps. *)
Definition region_rows (density_df : DataFrame) (counties : list string)
  : list (gmap string cell) :=
  List.filter
    (λ r, isin (CStr <$> counties_formatted_of counties) (row_cell "County" r))
    (rows density_df).

(** The average the loop records for a region. *)
Definition region_average (density_df : DataFrame) (counties : list string) : Qc :=
  match mean (row_cell "Dispensary_PerCapita" <$> region_rows density_df counties) with
  | Some (Some q) => q
  | _ => 0%Qc
  end.

Definition region_record (density_df : DataFrame) (entry : string * list string)
  : gmap string cell :=
  {[ "Region" := CStr entry.1;
     "Average_Density" := CNum (region_average density_df entry.2) ]}.

(** Two regions, one of them with no county in the density fixture. *)
Definition two_regions : gmap string (list string) :=
  {[ "Southern" := ["Los Angeles"; "San Diego"];
     "Wine Country" := ["Napa"; "Sonoma"] ]}.

(** ** The appliers read as functions of the frame *)

(** The frame with the rows a row test keeps. *)
Definition filter_rows (p : gmap string cell → bool) (d : DataFrame) : DataFrame :=
  {| columns := columns d; rows := List.filter p (rows d) |}.

(** A frame that has no column [c], neither in its column list nor in a
    row. *)
Definition lacks_column (d : DataFrame) (c : string) : Prop :=
(c ∉ columns d) ∧ Forall (λ r : gmap string cell, r !! c = None) (rows d).

(** The year test of a row: a number within the two bounds. *)
Definition year_keeps (start_year end_year : Z) (r : gmap string cell) : bool :=
  match row_cell "Year" r with
  | CNum q => bool_decide (Qc_of_Z start_year ≤ q)%Qc
              && bool_decide (q ≤ Qc_of_Z end_year)%Qc
  | _ => false
  end.

Section views.
Context `{Pandas}.

(** What [year_step] computes on a frame; [None] when the comparison
    raises. *)
Definition year_view (filters : Filters) (d : DataFrame) : option DataFrame :=
  match years filters with
  | Some (start_year, end_year) =>
      if has_column d "Year" then
        ge ← series_ge (series d "Year") (Qc_of_Z start_year);
        le ← series_le (series d "Year") (Qc_of_Z end_year);
        Some (select d (mask_and ge le))
      else Some d
  | None => Some d
  end.

(** What [license_step] computes. *)
Definition license_view (filters : Filters) (d : DataFrame) : DataFrame :=
  match license_types filters with
  | Some ((_ :: _) as types) =>
      if has_column d "License Designation" then
        select d (isin (CStr <$> types) <$> series d "License Designation")
      else d
  | _ => d
  end.

(** The column the county steps add, and the frame they hand on for a
    row mask computed from that column. *)
Definition normalized_county_values (d : DataFrame) : list cell :=
  (λ c, cell_of_opt (normalize_county_name c)) <$> series d "County".

Definition filter_by_normalized (d : DataFrame) (mask : list cell → list bool)
  : DataFrame :=
  let d' := set_column d "_normalized_county" (normalized_county_values d) in
  drop_column (select d' (mask (series d' "_normalized_county")))
    "_normalized_county".

(** What [county_step] computes. *)
Definition county_view (filters : Filters) (d : DataFrame) : DataFrame :=
  match counties_to_filter filters with
  | Some cs =>
      if has_column d "County" then
        filter_by_normalized d
          (fmap (isin ((λ c, cell_of_opt (normalize_county_name (CStr c))) <$> cs)))
      else d
  | None => d
  end.

(** What [density_county_step] computes. *)
Definition density_county_view (filters : Filters) (d : DataFrame) : DataFrame :=
  match county filters with
  | Some c =>
      if bool_decide (c ≠ all_counties) then
        if has_column d "County" then
          filter_by_normalized d
            (λ s, series_eq_opt s (normalize_county_name (CStr c)))
        else d
      else d
  | None => d
  end.

(** The row tests behind the three steps, each [true] when its step does
    not apply to the frame. *)
Definition year_test (filters : Filters) (d : DataFrame)
    (r : gmap string cell) : bool :=
  match years filters with
  | Some (start_year, end_year) =>
      if has_column d "Year" then year_keeps start_year end_year r else true
  | None => true
  end.

Definition license_test (filters : Filters) (d : DataFrame)
    (r : gmap string cell) : bool :=
  match license_types filters with
  | Some ((_ :: _) as types) =>
      if has_column d "License Designation"
      then isin (CStr <$> types) (row_cell "License Designation" r)
      else true
  | _ => true
  end.

Definition county_test (filters : Filters) (d : DataFrame)
    (r : gmap string cell) : bool :=
  match counties_to_filter filters with
  | Some cs =>
      if has_column d "County"
      then isin ((λ c, cell_of_opt (normalize_county_name (CStr c))) <$> cs)
                (cell_of_opt (normalize_county_name (row_cell "County" r)))
      else true
  | None => true
  end.

Definition density_county_test (filters : Filters) (d : DataFrame)
    (r : gmap string cell) : bool :=
  match county filters with
  | Some c =>
      if bool_decide (c ≠ all_counties) then
        if has_column d "County" then
          match normalize_county_name (CStr c) with
          | Some t => bool_decide (normalize_county_name (row_cell "County" r) = Some t)
          | None => false
          end
        else true
      else true
  | None => true
  end.

(** What the three appliers compute on the content of their argument. *)
Definition dispensary_view (filters : Filters) (d : DataFrame) : option DataFrame :=
  d1 ← year_view filters d;
  Some (county_view filters (license_view filters d1)).

Definition sentiment_view (filters : Filters) (d : DataFrame) : option DataFrame :=
  d1 ← year_view filters d; Some (county_view filters d1).

Definition density_view (filters : Filters) (d : DataFrame) : option DataFrame :=
  d1 ← year_view filters d; Some (density_county_view filters d1).

End views.

(** The sidebar's default county selection alone. *)
Definition sentinel_only : Filters :=
  {| years := None; license_types := None;
     counties := Some ["All Counties"]; county := None |}.

(** The single year 2020. *)
Definition only_2020 : Filters :=
  {| years := Some (2020, 2020)%Z; license_types := None;
     counties := None; county := None |}.

(** A frame that already carries a "_normalized_county" column. *)
Definition with_normalized_column : DataFrame :=
  {| columns := ["County"; "_normalized_county"; "Year"];
     rows := [ {[ "County" := CStr "Napa County";
                  "_normalized_county" := CStr "kept?";
                  "Year" := CNum (Qc_of_Z 2021) ]} ] |}.

Definition napa_only : Filters :=
  {| years := None; license_types := None; counties := Some ["Napa"];
     county := None |}.

(** A step computes a view when, run on any working frame, it hands on a
    working frame holding the view of the content, and raises exactly when
    the view is undefined; frames of the caller stay as they were. *)
Definition step_computes (step : loc → M loc)
    (view : DataFrame → option DataFrame) : Prop :=
  ∀ pre cur d,
    triple (working pre cur d) (step cur)
      (λ l s, ∃ d', view d = Some d' ∧ working pre l d' s)
      (λ s, view d = None ∧ pre ⊆ s).

(** ** The filter summary ([get_filter_summary]) *)

(** [sep.join(parts)] on a list that may hold [None]: a [TypeError]
    ([None]) when it does. *)
Definition join_parts (sep : string) (parts : list (option string))
  : option string :=
  join sep <$> mapM id parts.

Section summary.
Context `{Pandas}.

(** The entries [get_filter_summary] appends to [parts], dimension by
    dimension.  The county entry is what [normalize_county_name] returns,
    [None] included. *)
Definition summary_years (filters : Filters) : list (option string) :=
  match years filters with
  | Some (start_year, end_year) =>
      if bool_decide (start_year = end_year)
      then [Some ("year " +:+ pretty start_year)]
      else [Some (pretty start_year +:+ "-" +:+ pretty end_year)]
  | None => []
  end.

Definition summary_counties (filters : Filters) : list (option string) :=
  match counties filters with
  | Some ((_ :: _) as cs) =>
      if bool_decide (all_counties ∈ cs) then [Some "all counties"]
      else
        let normalized_counties :=
          (λ c, normalize_county_name (CStr c)) <$> cs in
        match normalized_counties with
        | [n] => [n]
        | _ => [Some (pretty (length normalized_counties) +:+ " counties")]
        end
  | _ =>
      match county filters with
      | Some c =>
          if bool_decide (c = all_counties) then [Some "all counties"]
          else [normalize_county_name (CStr c)]
      | None => []
      end
  end.

Definition summary_license_types (filters : Filters) : list (option string) :=
  match license_types filters with
  | Some ((_ :: _) as types) =>
      if bool_decide (length types = 3) then [Some "all license types"]
      else match types with
           | [t] => [Some t]
           | _ => [Some (pretty (length types) +:+ " license types")]
           end
  | _ => []
  end.

Definition get_filter_summary (filters : Filters) : option string :=
  let parts :=
    summary_years filters ++ summary_counties filters
    ++ summary_license_types filters in
  match parts with
  | [] => Some "No filters applied"
  | _ => s ← join_parts ", " parts; Some ("Showing data for " +:+ s)
  end.

End summary.

(** The one county the summary would print, when it prints one. *)
Definition shown_county (filters : Filters) : option string :=
  match counties filters with
  | Some ((_ :: _) as cs) =>
      if bool_decide (all_counties ∈ cs) then None
      else match cs with [c] => Some c | _ => None end
  | _ =>
      match county filters with
      | Some c => if bool_decide (c = all_counties) then None else Some c
      | None => None
      end
  end.

(** No dimension of the filters holds anything. *)
Definition nothing_selected (filters : Filters) : Prop :=
  years filters = None
  ∧ (counties filters = None ∨ counties filters = Some [])
  ∧ county filters = None
  ∧ (license_types filters = None ∨ license_types filters = Some []).

(** A county name that normalizes to nothing. *)
Definition blank_county : Filters :=
  {| years := Some (2020, 2023)%Z; license_types := None; counties := None;
     county := Some "   " |}.

(** ** Batch validation ([validate_dataset], [validate_all_datasets]) *)

(** A validation configuration at the keys [validate_dataset] reads; a field
    is [None] when the dictionary has no such key. *)
Record ValidationConfig := {
  cfg_type : option string;
  cfg_column : option string;
  cfg_allow_zero : option bool;
  cfg_display_name : option string;
  cfg_min_value : option Qc;
  cfg_max_value : option Qc;
  cfg_min_year : option Z;
  cfg_max_year : option Z;
  cfg_min_score : option Qc;
  cfg_max_score : option Qc
}.

Definition empty_config : ValidationConfig :=
  {| cfg_type := None; cfg_column := None; cfg_allow_zero := None;
     cfg_display_name := None; cfg_min_value := None; cfg_max_value := None;
     cfg_min_year := None; cfg_max_year := None; cfg_min_score := None;
     cfg_max_score := None |}.

(** The result recorded for a configuration without a column. *)
Definition missing_column_parameter : ValidationResult :=
  {| is_valid := false; column := "unknown";
     message := "Validation configuration missing 'column' parameter";
     invalid_count := 0; invalid_values := [] |}.

Section batch.
Context `{Pandas}.

(** [str(x)] of an optional text, as the f-string of the fallback branch
    prints the type. *)
Definition show_type (t : option string) : string :=
  match t with Some s => s | None => "None" end.

(** "Route to appropriate validation function" *)
Definition route_validation (current_year : Z) (df : DataFrame)
    (validation_config : ValidationConfig) (column : string)
  : ValidationResult :=
  let validation_type := cfg_type validation_config in
  if bool_decide (validation_type = Some "positive") then
    validate_positive_numeric df column
      (default true (cfg_allow_zero validation_config))
      (cfg_display_name validation_config)
  else if bool_decide (validation_type = Some "range") then
    validate_range df column (cfg_min_value validation_config)
      (cfg_max_value validation_config) (cfg_display_name validation_config)
  else if bool_decide (validation_type = Some "year") then
    validate_year_column current_year df column
      (default 2000%Z (cfg_min_year validation_config))
      (cfg_max_year validation_config)
  else if bool_decide (validation_type = Some "sentiment") then
    validate_sentiment_score df column
      (default (Qc_of_Z (-1)) (cfg_min_score validation_config))
      (default (Qc_of_Z 1) (cfg_max_score validation_config))
  else if bool_decide (validation_type = Some "percentage") then
    validate_percentage df column (cfg_display_name validation_config)
  else
    {| is_valid := false; column := column;
       message := "Unknown validation type: " +:+ show_type validation_type;
       invalid_count := 0; invalid_values := [] |}.

(** One pass of the loop of [validate_dataset] on the pair
    [(all_valid, results)]. *)
Definition validate_dataset_step (current_year : Z) (df : DataFrame)
    (state : bool * list ValidationResult)
    (validation_config : ValidationConfig) : bool * list ValidationResult :=
  let '(all_valid, results) := state in
  match cfg_column validation_config with
  | Some column =>
      if PyStr.is_empty column
      then (false, results ++ [missing_column_parameter])
      else
        let result := route_validation current_year df validation_config column in
        (if negb (is_valid result) then false else all_valid,
         results ++ [result])
  | None => (false, results ++ [missing_column_parameter])
  end.

Definition validate_dataset (current_year : Z) (df : DataFrame)
    (dataset_name : string) (validations : list ValidationConfig)
  : bool * list ValidationResult :=
  fold_left (validate_dataset_step current_year df) validations (true, []).

(** The three hard-coded rule lists of [validate_all_datasets]. *)
Definition dispensaries_validations : list ValidationConfig :=
  [ {| cfg_type := Some "year"; cfg_column := Some "Year";
       cfg_min_year := Some 2015%Z;
       cfg_allow_zero := None; cfg_display_name := None; cfg_min_value := None;
       cfg_max_value := None; cfg_max_year := None; cfg_min_score := None;
       cfg_max_score := None |} ].

Definition density_validations : list ValidationConfig :=
  [ {| cfg_type := Some "positive"; cfg_column := Some "Population";
       cfg_allow_zero := Some false; cfg_display_name := Some "Population";
       cfg_min_value := None; cfg_max_value := None; cfg_min_year := None;
       cfg_max_year := None; cfg_min_score := None; cfg_max_score := None |};
    {| cfg_type := Some "positive"; cfg_column := Some "Dispensary_PerCapita";
       cfg_allow_zero := Some true;
       cfg_display_name := Some "Dispensary Density";
       cfg_min_value := None; cfg_max_value := None; cfg_min_year := None;
       cfg_max_year := None; cfg_min_score := None; cfg_max_score := None |} ].

Definition sentiment_validations : list ValidationConfig :=
  [ {| cfg_type := Some "sentiment"; cfg_column := Some "BERT_Sentiment";
       cfg_allow_zero := None; cfg_display_name := None; cfg_min_value := None;
       cfg_max_value := None; cfg_min_year := None; cfg_max_year := None;
       cfg_min_score := None; cfg_max_score := None |};
    {| cfg_type := Some "year"; cfg_column := Some "Year";
       cfg_min_year := Some 2015%Z;
       cfg_allow_zero := None; cfg_display_name := None; cfg_min_value := None;
       cfg_max_value := None; cfg_max_year := None; cfg_min_score := None;
       cfg_max_score := None |} ].

(** [validate_all_datasets]: an entry for each of the three known names
    the dictionary of frames has. *)
Definition validate_all_datasets (current_year : Z)
    (data_dict : gmap string DataFrame)
  : gmap string (bool * list ValidationResult) :=
  let validation_results : gmap string (bool * list ValidationResult) := ∅ in
  let validation_results :=
    match data_dict !! "dispensaries" with
    | Some df => <["dispensaries" :=
                    validate_dataset current_year df "Dispensaries"
                      dispensaries_validations]> validation_results
    | None => validation_results
    end in
  let validation_results :=
    match data_dict !! "density" with
    | Some df => <["density" :=
                    validate_dataset current_year df "Density"
                      density_validations]> validation_results
    | None => validation_results
    end in
  match data_dict !! "tweet_sentiment" with
  | Some df => <["tweet_sentiment" :=
                  validate_dataset current_year df "Tweet Sentiment"
                    sentiment_validations]> validation_results
  | None => validation_results
  end.

(** [validate_dataset] and [validate_all_datasets] as they are called: on
    frame objects, the dictionary holding references to them. *)
Definition route_validation_at (current_year : Z) (df : loc)
    (validation_config : ValidationConfig) (column : string)
  : M ValidationResult :=
  let validation_type := cfg_type validation_config in
  if bool_decide (validation_type = Some "positive") then
    validate_positive_numeric_at df column
      (default true (cfg_allow_zero validation_config))
      (cfg_display_name validation_config)
  else if bool_decide (validation_type = Some "range") then
    validate_range_at df column (cfg_min_value validation_config)
      (cfg_max_value validation_config) (cfg_display_name validation_config)
  else if bool_decide (validation_type = Some "year") then
    validate_year_column_at current_year df column
      (default 2000%Z (cfg_min_year validation_config))
      (cfg_max_year validation_config)
  else if bool_decide (validation_type = Some "sentiment") then
    validate_sentiment_score_at df column
      (default (Qc_of_Z (-1)) (cfg_min_score validation_config))
      (default (Qc_of_Z 1) (cfg_max_score validation_config))
  else if bool_decide (validation_type = Some "percentage") then
    validate_percentage_at df column (cfg_display_name validation_config)
  else
    mret {| is_valid := false; column := column;
            message := "Unknown validation type: "
                       +:+ show_type validation_type;
            invalid_count := 0; invalid_values := [] |}.

Definition validate_dataset_step_at (current_year : Z) (df : loc)
    (state : bool * list ValidationResult)
    (validation_config : ValidationConfig)
  : M (bool * list ValidationResult) :=
  let '(all_valid, results) := state in
  match cfg_column validation_config with
  | Some column =>
      if PyStr.is_empty column
      then mret (false, results ++ [missing_column_parameter])
      else
        result ← route_validation_at current_year df validation_config column;
        mret (if negb (is_valid result) then false else all_valid,
              results ++ [result])
  | None => mret (false, results ++ [missing_column_parameter])
  end.

(** The loop [for validation_config in validations], from the state
    [(all_valid, results)] on. *)
Fixpoint validate_dataset_loop (current_year : Z) (df : loc)
    (validations : list ValidationConfig)
    (state : bool * list ValidationResult)
  : M (bool * list ValidationResult) :=
  match validations with
  | [] => mret state
  | validation_config :: validations =>
      state ← validate_dataset_step_at current_year df state validation_config;
      validate_dataset_loop current_year df validations state
  end.

Definition validate_dataset_at (current_year : Z) (df : loc)
    (dataset_name : string) (validations : list ValidationConfig)
  : M (bool * list ValidationResult) :=
  validate_dataset_loop current_year df validations (true, []).

Definition validate_all_datasets_at (current_year : Z)
    (data_dict : gmap string loc)
  : M (gmap string (bool * list ValidationResult)) :=
  let validation_results : gmap string (bool * list ValidationResult) := ∅ in
  validation_results ←
    match data_dict !! "dispensaries" with
    | Some df =>
        entry ← validate_dataset_at current_year df "Dispensaries"
                  dispensaries_validations;
        mret (<["dispensaries" := entry]> validation_results)
    | None => mret validation_results
    end;
  validation_results ←
    match data_dict !! "density" with
    | Some df =>
        entry ← validate_dataset_at current_year df "Density"
                  density_validations;
        mret (<["density" := entry]> validation_results)
    | None => mret validation_results
    end;
  match data_dict !! "tweet_sentiment" with
  | Some df =>
      entry ← validate_dataset_at current_year df "Tweet Sentiment"
                sentiment_validations;
      mret (<["tweet_sentiment" := entry]> validation_results)
  | None => mret validation_results
  end.

(** What one configuration contributes to the results. *)
Definition validate_config (current_year : Z) (df : DataFrame)
    (validation_config : ValidationConfig) : ValidationResult :=
  match cfg_column validation_config with
  | Some column =>
      if PyStr.is_empty column then missing_column_parameter
      else route_validation current_year df validation_config column
  | None => missing_column_parameter
  end.

(** A value that reads as a number outside the bounds. *)
Definition out_of_range (min_value max_value : option Qc) (v : cell) : Prop :=
  ∃ q, to_numeric v = Some q
       ∧ ((∃ m, min_value = Some m ∧ (q < m)%Qc)
          ∨ (∃ m, max_value = Some m ∧ (m < q)%Qc)).

End batch.

(** The names [validate_dataset] routes on. *)
Definition known_types : list string :=
  ["positive"; "range"; "year"; "sentiment"; "percentage"].

(** The dataset names [validate_all_datasets] looks for. *)
Definition dataset_names : list string :=
  ["dispensaries"; "density"; "tweet_sentiment"].

(** The column a result is filed under: the configuration's column, or
    "unknown" when it names none. *)
Definition reported_column (validation_config : ValidationConfig) : string :=
  match cfg_column validation_config with
  | Some col => if PyStr.is_empty col then "unknown" else col
  | None => "unknown"
  end.

(** A frame of one column. *)
Definition one_column (name : string) (values : list cell) : DataFrame :=
  frame_of_records [name] ((λ v, {[ name := v ]}) <$> values).

(** A configuration of an unknown type on the column [Year]. *)
Definition unknown_type_config : ValidationConfig :=
  {| cfg_type := Some "median"; cfg_column := Some "Year";
     cfg_allow_zero := None; cfg_display_name := None; cfg_min_value := None;
     cfg_max_value := None; cfg_min_year := None; cfg_max_year := None;
     cfg_min_score := None; cfg_max_score := None |}.

(** ** County columns ([normalize_dataframe_counties],
    [validate_county_names]) *)

(** [series.unique()]: the distinct values in the order of their first
    appearance. *)
Fixpoint unique (l : list cell) : list cell :=
  match l with
  | [] => []
  | x :: l => x :: List.filter (λ y, negb (bool_decide (y = x))) (unique l)
  end.

(** [series.dropna()] *)
Definition dropna (s : list cell) : list cell :=
  List.filter (λ c, negb (isna c)) s.

Section county_columns.
Context `{Pandas}.

(** The column [df[column_name].apply(normalize_county_name)]. *)
Definition normalized_values (d : DataFrame) (column_name : string)
  : list cell :=
  (λ c, cell_of_opt (normalize_county_name c)) <$> series d column_name.

(** [normalize_dataframe_counties]; it raises [ValueError] without the
    column. *)
Definition normalize_dataframe_counties (df : loc) (column_name : string)
  : M loc :=
  d ← frame df;
  if negb (has_column d column_name) then raise
  else
    df_copy ← df_copy df;
    d' ← frame df_copy;
    df_setitem df_copy column_name (normalized_values d' column_name);;
    mret df_copy.

(** The loop of [validate_county_names] over the distinct values. *)
Definition unknown_counties (known_normalized : list (option string))
    (values : list cell) : list cell :=
  foldl (λ invalid county,
           let normalized := normalize_county_name county in
           if negb (bool_decide (normalized ∈ known_normalized))
           then invalid ++ [county] else invalid)
        [] values.

(** [validate_county_names]; [None] is the [ValueError] for a missing
    column. *)
Definition validate_county_names (df : DataFrame) (column_name : string)
    (known_counties : option (list string)) : option (bool * list cell) :=
  if negb (has_column df column_name) then None
  else
    match known_counties with
    | None =>
        let invalid :=
          series (select df (isna <$> series df column_name)) column_name in
        Some (bool_decide (length invalid = 0), invalid)
    | Some known_counties =>
        let known_normalized :=
          (λ c, normalize_county_name (CStr c)) <$> known_counties in
        let invalid :=
          unknown_counties known_normalized
            (unique (dropna (series df column_name))) in
        Some (bool_decide (length invalid = 0), invalid)
    end.

End county_columns.

(** The example of the docstring of [validate_county_names]. *)
Definition docstring_counties : DataFrame :=
  frame_of_records ["County"]
    [ {[ "County" := CStr "Los Angeles" ]};
      {[ "County" := CStr "Invalid County" ]} ].

(** ** Regions ([app/config/regions.py]) *)

(** [l] starts with the characters [p]. *)
Fixpoint starts_with (p l : list ascii) : bool :=
  match p, l with
  | [], _ => true
  | a :: p, b :: l => bool_decide (a = b) && starts_with p l
  | _ :: _, [] => false
  end.

(** [s.replace(old, "")] on characters, for a non-empty [old]: the
    occurrences of [old] are removed from left to right, without overlap.
    [skip] counts the characters of the occurrence being removed that are
    still ahead. *)
Fixpoint remove_all_l (old : list ascii) (skip : nat) (l : list ascii)
  : list ascii :=
  match l with
  | [] => []
  | c :: l' =>
      match skip with
      | S k => remove_all_l old k l'
      | 0 => if starts_with old l
             then remove_all_l old (length old - 1) l'
             else c :: remove_all_l old 0 l'
      end
  end.

Definition remove_all (old s : string) : string :=
  PyStr.str (remove_all_l (PyStr.chars old) 0 (PyStr.chars s)).

(** The two dictionaries, in the order of their entries. *)
Definition CALIFORNIA_REGIONS : list (string * list string) :=
  [ ("Northern California",
     ["Del Norte"; "Siskiyou"; "Modoc"; "Humboldt"; "Trinity"; "Shasta";
      "Lassen"; "Tehama"; "Plumas"; "Mendocino"; "Glenn"; "Butte"; "Sierra";
      "Lake"; "Colusa"; "Yuba"; "Nevada"; "Placer"; "Sutter"; "Yolo";
      "El Dorado"; "Sacramento"; "Amador"; "Solano"; "Napa"; "Sonoma";
      "Marin"]);
    ("Central California",
     ["San Joaquin"; "Calaveras"; "Alpine"; "Tuolumne"; "Stanislaus"; "Mono";
      "Merced"; "Mariposa"; "Madera"; "Fresno"; "Kings"; "Tulare"; "Inyo";
      "San Benito"; "Monterey"]);
    ("Southern California",
     ["San Luis Obispo"; "Santa Barbara"; "Ventura"; "Los Angeles";
      "San Bernardino"; "Orange"; "Riverside"; "San Diego"; "Imperial"]) ].

Definition SIMPLE_REGIONS : list (string * list string) :=
  [ ("Northern",
     ["Humboldt"; "Mendocino"; "Trinity"; "Del Norte"; "Siskiyou"; "Shasta";
      "Tehama"]);
    ("Bay Area",
     ["San Francisco"; "Alameda"; "Contra Costa"; "San Mateo"; "Santa Clara";
      "Marin"; "Sonoma"; "Napa"; "Solano"]);
    ("Central",
     ["Sacramento"; "San Joaquin"; "Stanislaus"; "Merced"; "Fresno"; "Kings";
      "Tulare"; "Kern"]);
    ("Southern",
     ["Los Angeles"; "Orange"; "San Diego"; "Riverside"; "San Bernardino";
      "Ventura"; "Santa Barbara"]) ].

(** The loop of [get_region_for_county] over [regions.items()]. *)
Fixpoint first_region (regions : list (string * list string))
    (clean_name : string) : string :=
  match regions with
  | [] => "Unknown"
  | (region, counties) :: regions =>
      if bool_decide (clean_name ∈ counties) then region
      else first_region regions clean_name
  end.

Definition clean_county_name (county_name : string) : string :=
  PyStr.strip (remove_all " County" county_name).

Definition get_region_for_county (county_name : string) (use_simple : bool)
  : string :=
  let clean_name := clean_county_name county_name in
  let regions := if use_simple then SIMPLE_REGIONS else CALIFORNIA_REGIONS in
  first_region regions clean_name.

(** [old in s] for strings. *)
Fixpoint contains_l (old l : list ascii) : bool :=
  starts_with old l
  || match l with [] => false | _ :: l' => contains_l old l' end.

Definition contains (old s : string) : bool :=
  contains_l (PyStr.chars old) (PyStr.chars s).

(** The counties a dictionary lists, with their regions. *)
Definition listed (regions : list (string * list string))
  : list (string * string) :=
  '(region, counties) ← regions; (λ c, (c, region)) <$> counties.

(** ** GeoJSON loading ([app/utils/load_geojson.py]) *)

(** What [json.load] returns.  A dictionary is the list of its items in
    insertion order, its keys distinct; numbers are looked at by their type
    only. *)
#[local] Unset Elimination Schemes.
Inductive json :=
  | JNull
  | JBool (b : bool)
  | JInt (n : Z)
  | JFloat (q : Qc)
  | JStr (s : string)
  | JList (items : list json)
  | JDict (entries : list (string * json)).
#[local] Set Elimination Schemes.

(** The two exceptions [load_geojson] raises itself, with their text. *)
Inductive geojson_error :=
  | ValueError (message : string)
  | FileNotFoundError (message : string).

(** What opening and parsing the file gives: no such file, a text that is
    not JSON (with the text of the decoder's error), or a value. *)
Inductive file_content :=
  | NoSuchFile
  | InvalidJson (error_text : string)
  | Json (data : json).

(** [type(x).__name__] *)
Definition type_name (x : json) : string :=
  match x with
  | JNull => "NoneType"
  | JBool _ => "bool"
  | JInt _ => "int"
  | JFloat _ => "float"
  | JStr _ => "str"
  | JList _ => "list"
  | JDict _ => "dict"
  end.

(** [d.get(key)] on the items of a dictionary. *)
Fixpoint dict_get (key : string) (entries : list (string * json))
  : option json :=
  match entries with
  | [] => None
  | (k, v) :: entries => if bool_decide (k = key) then Some v
                         else dict_get key entries
  end.

(** [x != text] for a value and a string. *)
Definition differs_from (x : json) (text : string) : bool :=
  match x with
  | JStr s => negb (bool_decide (s = text))
  | _ => true
  end.

Section geojson.
(** The text of a value inside an f-string. *)
Context (format_value : option json → string).

(** The checks of one feature of the loop, [i] its index. *)
Definition check_feature (i : nat) (feature : json) : option geojson_error :=
  match feature with
  | JDict entries =>
      if match dict_get "type" entries with
         | None => true
         | Some t => differs_from t "Feature"
         end
      then Some (ValueError ("Feature " +:+ pretty i
                             +:+ " missing or invalid 'type' field"))
      else if negb (bool_decide (is_Some (dict_get "geometry" entries)))
      then Some (ValueError ("Feature " +:+ pretty i
                             +:+ " missing 'geometry' field"))
      else if negb (bool_decide (is_Some (dict_get "properties" entries)))
      then Some (ValueError ("Feature " +:+ pretty i
                             +:+ " missing 'properties' field"))
      else None
  | _ => Some (ValueError ("Feature " +:+ pretty i
                           +:+ " is not a dictionary, got "
                           +:+ type_name feature))
  end.

(** [for i, feature in enumerate(features[:5])], from index [i] on:
    the first exception raised, if any. *)
Fixpoint check_features (i : nat) (features : list json)
  : option geojson_error :=
  match features with
  | [] => None
  | feature :: features =>
      match check_feature i feature with
      | Some e => Some e
      | None => check_features (S i) features
      end
  end.

Definition load_geojson (file_path : string) (content : file_content)
  : geojson_error + json :=
  match content with
  | NoSuchFile =>
      inl (FileNotFoundError ("GeoJSON file not found: '" +:+ file_path +:+ "'"))
  | InvalidJson error_text =>
      inl (ValueError ("Invalid JSON in GeoJSON file '" +:+ file_path +:+ "': "
                       +:+ error_text))
  | Json data =>
      match data with
      | JDict entries =>
          let geojson_type := dict_get "type" entries in
          if match geojson_type with
             | None => true
             | Some t => differs_from t "FeatureCollection"
             end
          then inl (ValueError ("GeoJSON must be a FeatureCollection, got type='"
                                +:+ format_value geojson_type +:+ "'"))
          else
            match dict_get "features" entries with
            | None => inl (ValueError
                "GeoJSON FeatureCollection must contain 'features' array")
            | Some (JList features) =>
                if bool_decide (length features = 0)
                then inl (ValueError
                       "GeoJSON FeatureCollection contains no features")
                else match check_features 0 (take 5 features) with
                     | Some e => inl e
                     | None => inr data
                     end
            | Some features =>
                inl (ValueError ("GeoJSON 'features' must be a list, got "
                                 +:+ type_name features))
            end
      | _ => inl (ValueError ("GeoJSON must be a dictionary, got "
                              +:+ type_name data))
      end
  end.

End geojson.

(** A feature as the loop wants it. *)
Definition feature_ok (feature : json) : Prop :=
  ∃ entries, feature = JDict entries
    ∧ dict_get "type" entries = Some (JStr "Feature")
    ∧ is_Some (dict_get "geometry" entries)
    ∧ is_Some (dict_get "properties" entries).

(** A collection as [load_geojson] wants it. *)
Definition collection_ok (data : json) : Prop :=
  ∃ entries features,
    data = JDict entries
    ∧ dict_get "type" entries = Some (JStr "FeatureCollection")
    ∧ dict_get "features" entries = Some (JList features)
    ∧ features ≠ []
    ∧ Forall feature_ok (take 5 features).

(** The features of the test suite. *)
Definition square : json :=
  JDict [("type", JStr "Polygon");
         ("coordinates",
          JList [JList [JList [JInt 0; JInt 0]; JList [JInt 0; JInt 1];
                        JList [JInt 1; JInt 1]; JList [JInt 1; JInt 0];
                        JList [JInt 0; JInt 0]]])].

Definition county_feature (name : string) : json :=
  JDict [("type", JStr "Feature");
         ("properties", JDict [("NAME", JStr name)]);
         ("geometry", square)].

Definition bare_feature : json := JDict [("type", JStr "Feature")].

(** Six features, the last one without geometry and properties
    ([test_validates_first_5_features_only]). *)
Definition six_features : json :=
  JDict [("type", JStr "FeatureCollection");
         ("features",
          JList (((λ i : nat, county_feature ("County " +:+ pretty i))
                    <$> seq 0 5) ++ [bare_feature]))].

(** The text of [None] and of a string in an f-string; other values are
    not needed by the examples. *)
Definition plain_format (x : option json) : string :=
  match x with
  | None => "None"
  | Some (JStr s) => s
  | Some x => type_name x
  end.

(** ** Cached calculations: what the tables contribute *)

(** A county value in the form the regional averages look for. *)
Definition has_county_suffix (r : gmap string cell) : bool :=
  match row_cell "County" r with
  | CStr s => PyStr.endswith s " County"
  | _ => false
  end.

(** A dictionary of tables with a missing and an empty one. *)
Definition tables_with_gaps : gmap string (option DataFrame) :=
  {[ "density" := Some sample_density_data;
     "dispensaries" := None;
     "tweet_sentiment" := Some {| columns := ["County"]; rows := [] |} ]}.

(** The density fixture with a row whose county has no suffix. *)
Definition density_with_bare_county : DataFrame :=
  {| columns := columns sample_density_data;
     rows := rows sample_density_data
             ++ [density_row "San Diego" 2023 90 1500000] |}.

(** * Properties *)

Set Warnings "-clear-no-such-hyp".

(** ** The model on the cases of the test suite *)

Example normalize_removes_suffix :
  @normalize_county_name decimal_pandas (CStr "  San Francisco County  ")
  = Some "San Francisco"
  ∧ @normalize_county_name decimal_pandas (CStr "Los Angeles COUNTY")
    = Some "Los Angeles"
  ∧ @normalize_county_name decimal_pandas (CStr "   ") = None
  ∧ @normalize_county_name decimal_pandas (CNum (Qc_of_Z 123)) = Some "123".
Proof. split_and!; reflexivity. Qed.

Example suffix_keeps_existing_case :
  @add_county_suffix decimal_pandas (CStr "Los Angeles county")
  = Some "Los Angeles county"
  ∧ @add_county_suffix decimal_pandas (CStr "  Los Angeles  ")
    = Some "Los Angeles County"
  ∧ @add_county_suffix decimal_pandas CNull = None.
Proof. split_and!; reflexivity. Qed.

Example active_filters_cases :
  has_active_filters no_filters = false
  ∧ has_active_filters
      {| years := Some (2018, 2024)%Z; county := Some "All Counties";
         license_types :=
           Some ["Adult-Use"; "Medicinal"; "Adult-Use and Medicinal"];
         counties := None |} = false
  ∧ has_active_filters
      {| years := Some (2020, 2022)%Z; county := None; license_types := None;
         counties := None |} = true
  ∧ has_active_filters
      {| years := None; county := None; license_types := None;
         counties := Some ["Los Angeles County"; "San Diego County"] |} = true
  ∧ has_active_filters
      {| years := None; county := None; license_types := Some ["Adult-Use"];
         counties := None |} = true.
Proof. split_and!; reflexivity. Qed.

Example density_combined_filters :
  nrows <$> result_frame
    (@apply_density_filters decimal_pandas 1%positive
       {| years := Some (2020, 2021)%Z; county := Some "Los Angeles County";
          license_types := None; counties := None |})
    {[ 1%positive := sample_density_data ]} = Some 2
  ∧ nrows <$> result_frame
      (@apply_density_filters decimal_pandas 1%positive
         {| years := Some (2025, 2025)%Z; county := None;
            license_types := None; counties := None |})
      {[ 1%positive := sample_density_data ]} = Some 0.
Proof. split; vm_compute; reflexivity. Qed.

Example positive_rejects_zero :
  let r := @validate_positive_numeric decimal_pandas
             (int_column "n" [0; 1; 2; 3]%Z) "n" false None in
  is_valid r = false ∧ invalid_count r = 1
  ∧ invalid_values r = [CNum (Qc_of_Z 0)]
  ∧ message r = "1 values in 'n' are not positive (> 0)".
Proof. vm_compute. split_and!; reflexivity. Qed.

(** ** Strings *)

Module PyStrFacts.
Import PyStr.

Lemma chars_str l : chars (str l) = l.
Proof. apply list_ascii_of_string_of_list_ascii. Qed.

Lemma str_chars s : str (chars s) = s.
Proof. apply string_of_list_ascii_of_string. Qed.

Lemma chars_inj s t : chars s = chars t → s = t.
Proof. intros E. rewrite <- (str_chars s), <- (str_chars t). by rewrite E. Qed.

Lemma chars_app s t : chars (s +:+ t) = chars s ++ chars t.
Proof. induction s as [|c s IH]; simpl; [done|]. by rewrite <- IH. Qed.

Lemma is_empty_chars s : is_empty s = bool_decide (chars s = []).
Proof. unfold is_empty. destruct s; done. Qed.

(** A list is trimmed at the front when it does not start with
    whitespace. *)
Lemma lstrip_fixed l :
  lstrip_l l = l ↔ match l with [] => True | c :: _ => is_space c = false end.
Proof.
  destruct l as [|c l]; simpl; [done|].
  destruct (is_space c) eqn:E; [|done].
  split; [|done]. intros Hl.
  assert (Hlen : ∀ k, length (lstrip_l k) ≤ length k).
  { induction k as [|d k IH]; simpl; [lia|]. destruct (is_space d); simpl; lia. }
  specialize (Hlen l). rewrite Hl in Hlen. simpl in Hlen. lia.
Qed.

Lemma lstrip_idem l : lstrip_l (lstrip_l l) = lstrip_l l.
Proof.
  induction l as [|c l IH]; simpl; [done|].
  destruct (is_space c) eqn:E; [done|]. simpl. by rewrite E.
Qed.

Lemma lstrip_app_fixed l k : l ≠ [] → lstrip_l l = l → lstrip_l (l ++ k) = l ++ k.
Proof.
  intros Hne Hl. destruct l as [|c l]; [done|].
  apply lstrip_fixed in Hl. simpl. by rewrite Hl.
Qed.

(** What [rstrip] removes is a tail; the head stays when anything stays. *)
Lemma lstrip_suffix l : lstrip_l l `suffix_of` l.
Proof.
  induction l as [|c l IH]; simpl; [done|].
  destruct (is_space c); [by apply suffix_cons_r | done].
Qed.

Lemma rstrip_prefix l : rstrip_l l `prefix_of` l.
Proof.
  unfold rstrip_l. destruct (lstrip_suffix (rev l)) as [k Hk].
  exists (rev k). apply (f_equal (@rev ascii)) in Hk.
  by rewrite rev_involutive, rev_app_distr in Hk.
Qed.

Lemma rstrip_idem l : rstrip_l (rstrip_l l) = rstrip_l l.
Proof. unfold rstrip_l. by rewrite rev_involutive, lstrip_idem. Qed.

Lemma lstrip_rstrip l : lstrip_l l = l → lstrip_l (rstrip_l l) = rstrip_l l.
Proof.
  intros Hl. destruct (rstrip_prefix l) as [k Hk].
  destruct (rstrip_l l) as [|c p] eqn:Ep; [done|].
  rewrite Hk in Hl. simpl in Hl. simpl.
  destruct (is_space c) eqn:E; [|done].
  exfalso. assert (Hlen := suffix_length _ _ (lstrip_suffix (p ++ k))).
  rewrite Hl in Hlen. simpl in Hlen. lia.
Qed.

Lemma strip_l_idem l : strip_l (strip_l l) = strip_l l.
Proof.
  unfold strip_l. rewrite lstrip_rstrip by apply lstrip_idem.
  apply rstrip_idem.
Qed.

Lemma strip_l_fixed l :
  strip_l l = l ↔ lstrip_l l = l ∧ lstrip_l (rev l) = rev l.
Proof.
  split.
  - intros Hl. assert (H1 : lstrip_l l = l).
    { rewrite <- Hl. unfold strip_l. apply lstrip_rstrip, lstrip_idem. }
    split; [done|]. unfold strip_l in Hl. rewrite H1 in Hl.
    unfold rstrip_l in Hl. apply (f_equal (@rev ascii)) in Hl.
    by rewrite rev_involutive in Hl.
  - intros [H1 H2]. unfold strip_l, rstrip_l. by rewrite H1, H2, rev_involutive.
Qed.

(** Appending text that ends in a non-blank keeps a trimmed, non-empty
    list trimmed. *)
Lemma strip_l_app l k :
  l ≠ [] → strip_l l = l → k ≠ [] → lstrip_l (rev k) = rev k →
  strip_l (l ++ k) = l ++ k.
Proof.
  intros Hl Hs Hk Hr. apply strip_l_fixed in Hs as [H1 H2].
  apply strip_l_fixed. split; [by apply lstrip_app_fixed|].
  rewrite rev_app_distr. apply lstrip_app_fixed; [|done].
  intros E. apply Hk. by rewrite <- (rev_involutive k), E.
Qed.

Lemma strip_idem s : strip (strip s) = strip s.
Proof. unfold strip. by rewrite chars_str, strip_l_idem. Qed.

Lemma lower_char_space c : lower_char c = " "%char → c = " "%char.
Proof.
  destruct c as [[] [] [] [] [] [] [] []]; vm_compute; intros Hc;
    first [reflexivity | discriminate Hc].
Qed.

Lemma lower_char_idem c : lower_char (lower_char c) = lower_char c.
Proof. destruct c as [[] [] [] [] [] [] [] []]; vm_compute; reflexivity. Qed.

Lemma lstrip_nonempty l :
  Exists (λ c, is_space c = false) l → lstrip_l l ≠ [].
Proof.
  induction 1 as [c l Hc|c l _ IH]; simpl.
  - by rewrite Hc.
  - by destruct (is_space c).
Qed.

Lemma strip_l_length l : length (strip_l l) ≤ length l.
Proof.
  unfold strip_l.
  pose proof (prefix_length _ _ (rstrip_prefix (lstrip_l l))).
  pose proof (suffix_length _ _ (lstrip_suffix l)). lia.
Qed.

(** A list that starts with a non-blank does not trim to nothing. *)
Lemma strip_l_nonempty l : l ≠ [] → lstrip_l l = l → strip_l l ≠ [].
Proof.
  intros Hne Hl. unfold strip_l, rstrip_l. rewrite Hl.
  destruct l as [|c l]; [done|]. apply lstrip_fixed in Hl.
  intros E. apply (f_equal (@rev ascii)) in E. rewrite rev_involutive in E.
  revert E. apply lstrip_nonempty. simpl. apply Exists_app. right.
  by constructor.
Qed.

Lemma chars_lower s : chars (lower s) = lower_char <$> chars s.
Proof. unfold lower. by rewrite chars_str. Qed.

Lemma chars_strip s : chars (strip s) = strip_l (chars s).
Proof. unfold strip. by rewrite chars_str. Qed.

Lemma strip_fixed_chars s : strip s = s ↔ strip_l (chars s) = chars s.
Proof.
  split; intros E.
  - by rewrite <- chars_strip, E.
  - apply chars_inj. by rewrite chars_strip.
Qed.

Lemma endswith_true s suf :
  endswith s suf = true ↔ ∃ k, chars s = k ++ chars suf.
Proof. unfold endswith. by rewrite bool_decide_eq_true. Qed.

(** [s.lower().endswith(" county")] exposes the last seven characters of
    [s]: a space and the six letters in either case. *)
Lemma endswith_lower_split s suf :
  endswith (lower s) suf = true →
  ∃ p t, chars s = p ++ t ∧ lower_char <$> t = chars suf
         ∧ drop_last (length (chars suf)) s = str p.
Proof.
  intros [k Hk]%endswith_true. rewrite chars_lower in Hk.
  apply fmap_app_inv in Hk as (p & t & -> & Ht & Hs).
  exists p, t. split_and!; [done..|].
  unfold drop_last. rewrite Hs, Ht, length_app, !length_fmap.
  by rewrite Nat.add_sub, take_app_length.
Qed.

Lemma endswith_lower_app s t suf :
  lower t = suf → endswith (lower (s +:+ t)) suf = true.
Proof.
  intros <-. apply endswith_true. exists (lower_char <$> chars s).
  by rewrite !chars_lower, chars_app, fmap_app.
Qed.

End PyStrFacts.

(** ** County names *)

Section county_facts.
Context `{Pandas}.
Import PyStr PyStrFacts.

Lemma normalize_text_strip s : normalize_text (strip s) = normalize_text s.
Proof. unfold normalize_text. by rewrite strip_idem. Qed.

Lemma suffix_text_strip s : suffix_text (strip s) = suffix_text s.
Proof. unfold suffix_text. by rewrite strip_idem. Qed.

(** A cell is either falsy for both functions, or both work on the same
    text. *)
Lemma county_cell_cases (x : cell) :
  (normalize_county_name x = None ∧ add_county_suffix x = None)
  ∨ ∃ s, normalize_county_name x = normalize_text s
         ∧ add_county_suffix x = suffix_text s.
Proof.
  destruct x as [|q|s]; simpl.
  - by left.
  - case_bool_decide; [by left | right; eauto].
  - destruct (is_empty s); [by left | right; eauto].
Qed.

Lemma normalize_county_name_str s :
  normalize_county_name (CStr s) = normalize_text s.
Proof.
  simpl. unfold is_empty. case_bool_decide as E; [by subst|done].
Qed.

Lemma add_county_suffix_str s :
  add_county_suffix (CStr s) = suffix_text s.
Proof.
  simpl. unfold is_empty. case_bool_decide as E; [by subst|done].
Qed.

Lemma endswith_token_split s :
  endswith (lower s) county_token = true →
  ∃ p t, chars s = p ++ t ∧ lower_char <$> t = chars county_token
         ∧ drop_last 7 s = str p.
Proof. apply endswith_lower_split. Qed.

(** The token starts with a space, so a trimmed text that ends with it has
    something in front of it. *)
Lemma token_prefix_nonempty (p t : list ascii) :
  lstrip_l (p ++ t) = p ++ t → lower_char <$> t = chars county_token →
  p ≠ [] ∧ lstrip_l p = p.
Proof.
  intros Hl Ht. destruct t as [|c t]; [done|].
  injection Ht as Hc _. apply lower_char_space in Hc as ->.
  destruct p as [|d p]; [by apply lstrip_fixed in Hl|].
  split; [done|]. apply lstrip_fixed. by apply lstrip_fixed in Hl.
Qed.

Lemma normalize_text_Some s y :
  normalize_text s = Some y → strip y = y ∧ y ≠ "".
Proof.
  unfold normalize_text. rewrite is_empty_chars.
  case_bool_decide as Hne; [done|].
  destruct (endswith _ _) eqn:E; intros [= <-].
  - split; [apply strip_idem|].
    apply endswith_token_split in E as (p & t & Hs & Ht & ->).
    assert (Hl : lstrip_l (p ++ t) = p ++ t).
    { rewrite <- Hs, chars_strip.
      by destruct (proj1 (strip_l_fixed _) (strip_l_idem (chars s))). }
    destruct (token_prefix_nonempty _ _ Hl Ht) as [Hp Hlp].
    intros E'. apply (f_equal chars) in E'. rewrite chars_strip, chars_str in E'.
    by apply (strip_l_nonempty p).
  - split; [apply strip_idem|]. intros E'. apply Hne. by rewrite E'.
Qed.

Lemma suffix_text_Some s r :
  suffix_text s = Some r →
  strip r = r ∧ r ≠ "" ∧ endswith (lower r) county_token = true.
Proof.
  unfold suffix_text. rewrite is_empty_chars.
  case_bool_decide as Hne; [done|].
  destruct (endswith _ _) eqn:E; simpl; intros [= <-].
  - split_and!; [apply strip_idem| |done]. intros E'. apply Hne. by rewrite E'.
  - split_and!.
    + apply strip_fixed_chars. rewrite chars_app. apply strip_l_app; try done.
      rewrite chars_strip. apply strip_l_idem.
    + intros E'%(f_equal chars). rewrite chars_app in E'.
      by apply app_eq_nil in E' as [_ ?].
    + by apply endswith_lower_app.
Qed.

Lemma normalize_text_trimmed y :
  strip y = y → y ≠ "" →
  normalize_text y =
    if endswith (lower y) county_token then Some (strip (drop_last 7 y))
    else Some y.
Proof.
  intros Hy Hne. unfold normalize_text. rewrite Hy.
  unfold is_empty. by rewrite bool_decide_eq_false_2.
Qed.

Lemma suffix_text_trimmed y :
  strip y = y → y ≠ "" →
  suffix_text y =
    if endswith (lower y) county_token then Some y
    else Some (y +:+ " County").
Proof.
  intros Hy Hne. unfold suffix_text. rewrite Hy.
  unfold is_empty. rewrite bool_decide_eq_false_2 by done.
  by destruct (endswith _ _).
Qed.

Lemma drop_last_app y t : length (chars t) = 7 → drop_last 7 (y +:+ t) = y.
Proof.
  intros Ht. unfold drop_last. rewrite chars_app, length_app, Ht.
  by rewrite Nat.add_sub, take_app_length, str_chars.
Qed.

Lemma suffix_text_idem s r : suffix_text s = Some r → suffix_text r = Some r.
Proof.
  intros (Hr & Hne & He)%suffix_text_Some.
  by rewrite suffix_text_trimmed, He.
Qed.

Lemma normalize_suffix_text s r :
  suffix_text s = Some r → normalize_text r = normalize_text s.
Proof.
  intros Hs. unfold suffix_text in Hs. rewrite is_empty_chars in Hs.
  case_bool_decide as Hne; [done|].
  assert (Hne' : strip s ≠ "") by (intros E; apply Hne; by rewrite E).
  destruct (endswith (lower (strip s)) county_token) eqn:E;
    simpl in Hs; injection Hs as <-.
  - apply normalize_text_strip.
  - rewrite <- (normalize_text_strip s).
    rewrite (normalize_text_trimmed (strip s)), E by (done || apply strip_idem).
    destruct (suffix_text_Some s (strip s +:+ " County")) as (Hr & Hrn & Hre).
    { unfold suffix_text. rewrite is_empty_chars, bool_decide_eq_false_2 by done.
      by rewrite E. }
    rewrite normalize_text_trimmed, Hre by done.
    by rewrite drop_last_app, strip_idem.
Qed.

Lemma normalize_text_fixed s y :
  normalize_text s = Some y →
  normalize_text y = Some y ↔ endswith (lower y) county_token = false.
Proof.
  intros [Hy Hne]%normalize_text_Some.
  rewrite normalize_text_trimmed by done.
  destruct (endswith _ _) eqn:E; [|done].
  split; [|done]. intros [= Hfix]. exfalso.
  apply endswith_token_split in E as (p & t & Hs & Ht & Hd).
  rewrite Hd in Hfix. apply (f_equal (length ∘ chars)) in Hfix. simpl in Hfix.
  rewrite chars_strip, chars_str, Hs, length_app in Hfix.
  pose proof (strip_l_length p).
  apply (f_equal length) in Ht. rewrite length_fmap in Ht. simpl in Ht. lia.
Qed.

End county_facts.

Section county_claims.
Context `{Pandas}.
Import PyStr PyStrFacts.

Lemma suffix_text_None s : suffix_text s = None ↔ normalize_text s = None.
Proof.
  unfold suffix_text, normalize_text.
  destruct (is_empty (strip s)); [done|].
  by destruct (endswith _ _).
Qed.

Lemma add_county_suffix_idem (x : cell) :
  add_county_suffix (cell_of_opt (add_county_suffix x)) = add_county_suffix x.
Proof.
  destruct (county_cell_cases x) as [[_ ->]|(s & _ & ->)]; [done|].
  destruct (suffix_text s) as [r|] eqn:E; [|done].
  simpl cell_of_opt. rewrite add_county_suffix_str. by eapply suffix_text_idem.
Qed.

Lemma normalize_after_suffix (x : cell) :
  normalize_county_name (cell_of_opt (add_county_suffix x))
  = normalize_county_name x.
Proof.
  destruct (county_cell_cases x) as [[-> ->]|(s & -> & ->)]; [done|].
  destruct (suffix_text s) as [r|] eqn:E.
  - simpl cell_of_opt. rewrite normalize_county_name_str.
    by apply normalize_suffix_text.
  - simpl. symmetry. by apply suffix_text_None.
Qed.

Lemma normalize_twice (x : cell) :
  normalize_county_name (cell_of_opt (normalize_county_name x))
    = normalize_county_name x
  ↔ ∀ y, normalize_county_name x = Some y →
         endswith (lower y) county_token = false.
Proof.
  destruct (county_cell_cases x) as [[-> _]|(s & -> & _)]; [done|].
  destruct (normalize_text s) as [y|] eqn:E; [|done].
  simpl cell_of_opt. rewrite normalize_county_name_str.
  rewrite (normalize_text_fixed s y E). naive_solver.
Qed.

Lemma suffix_after_normalize (s : string) :
  strip s ≠ "" →
  strip (county_core s) = county_core s →
  endswith (lower (county_core s)) county_token = false →
  ∃ suf, lower suf = county_token
    ∧ add_county_suffix (cell_of_opt (normalize_county_name (CStr s)))
      = Some (county_core s +:+ " County")
    ∧ add_county_suffix (CStr s) = Some (county_core s +:+ suf).
Proof.
  intros Hne Hc He.
  rewrite normalize_county_name_str, add_county_suffix_str.
  rewrite <- (normalize_text_strip s), <- (suffix_text_strip s).
  rewrite (normalize_text_trimmed (strip s)), (suffix_text_trimmed (strip s))
    by (done || apply strip_idem).
  unfold county_core in *. cbv zeta in *.
  destruct (endswith (lower (strip s)) county_token) eqn:E.
  - rewrite Hc. simpl cell_of_opt. rewrite add_county_suffix_str.
    apply endswith_token_split in E as (p & t & Hs & Ht & Hd).
    assert (Hpn : drop_last 7 (strip s) ≠ "").
    { rewrite Hd. intros E'%(f_equal chars). rewrite chars_str in E'. subst p.
      destruct t as [|c t]; [done|]. injection Ht as Hc' _.
      apply lower_char_space in Hc' as ->.
      assert (Hl : lstrip_l (chars (strip s)) = chars (strip s)).
      { rewrite chars_strip.
        by destruct (proj1 (strip_l_fixed _) (strip_l_idem (chars s))). }
      rewrite Hs in Hl. by apply lstrip_fixed in Hl. }
    rewrite suffix_text_trimmed, He by done.
    exists (str t). split_and!; [|done|].
    + apply chars_inj. by rewrite chars_lower, chars_str.
    + f_equal. apply chars_inj. by rewrite chars_app, Hd, !chars_str.
  - simpl cell_of_opt. rewrite add_county_suffix_str.
    rewrite suffix_text_trimmed, E by (done || apply strip_idem).
    by exists " County".
Qed.

End county_claims.

(** Claim C2, as the code has it.  [add_county_suffix] is idempotent on every
    input.  [normalize_county_name] removes one trailing " county" token per
    call, so applying it twice gives the same result as applying it once
    exactly when the first result is absent or no longer ends with the token
    (in any letter case). *)
Theorem suffix_idempotent_normalize_strips_once `{Pandas} :
  (∀ x : cell,
     add_county_suffix (cell_of_opt (add_county_suffix x)) = add_county_suffix x)
  ∧ (∀ x : cell,
       normalize_county_name (cell_of_opt (normalize_county_name x))
         = normalize_county_name x
       ↔ ∀ y, normalize_county_name x = Some y →
              PyStr.endswith (PyStr.lower y) county_token = false).
Proof. split; [apply add_county_suffix_idem | apply normalize_twice]. Qed.

Lemma normalize_not_idempotent :
  @normalize_county_name decimal_pandas
    (cell_of_opt (@normalize_county_name decimal_pandas
                    (CStr "Los Angeles County County")))
  ≠ @normalize_county_name decimal_pandas (CStr "Los Angeles County County").
Proof. vm_compute. discriminate. Qed.

(** Claim C3, as the code has it.  Normalizing after suffixing is the same as
    normalizing, for every input.  Suffixing after normalizing rebuilds the
    suffixed name up to the letter case of a token already present, provided
    the trimmed text, once its last token is taken off, neither ends in
    whitespace nor ends in the token again: both results are then the core
    followed by a seven-character suffix that lowers to " county". *)
Theorem normalize_suffix_round_trips `{Pandas} :
  (∀ x : cell,
     normalize_county_name (cell_of_opt (add_county_suffix x))
     = normalize_county_name x)
  ∧ (∀ s : string,
       PyStr.strip s ≠ "" →
       PyStr.strip (county_core s) = county_core s →
       PyStr.endswith (PyStr.lower (county_core s)) county_token = false →
       ∃ suf, PyStr.lower suf = county_token
         ∧ add_county_suffix (cell_of_opt (normalize_county_name (CStr s)))
           = Some (county_core s +:+ " County")
         ∧ add_county_suffix (CStr s) = Some (county_core s +:+ suf)).
Proof. split; [apply normalize_after_suffix | apply suffix_after_normalize]. Qed.

Lemma normalize_suffix_round_trips_witness :
  let s := "  Los Angeles COUNTY " in
  PyStr.strip s ≠ ""
  ∧ PyStr.strip (county_core s) = county_core s
  ∧ PyStr.endswith (PyStr.lower (county_core s)) county_token = false
  ∧ ∃ suf, PyStr.lower suf = county_token
      ∧ @add_county_suffix decimal_pandas
          (cell_of_opt (@normalize_county_name decimal_pandas (CStr s)))
        = Some (county_core s +:+ " County")
      ∧ @add_county_suffix decimal_pandas (CStr s) = Some (county_core s +:+ suf).
Proof.
  intros s.
  assert (H1 : PyStr.strip s ≠ "") by (vm_compute; discriminate).
  assert (H2 : PyStr.strip (county_core s) = county_core s) by reflexivity.
  assert (H3 : PyStr.endswith (PyStr.lower (county_core s)) county_token = false)
    by reflexivity.
  split_and!; [done..|].
  exact (proj2 (@normalize_suffix_round_trips decimal_pandas) s H1 H2 H3).
Defined.

Lemma suffix_after_normalize_differs :
  PyStr.lower <$> @add_county_suffix decimal_pandas
    (cell_of_opt (@normalize_county_name decimal_pandas
                    (CStr "Los Angeles  County")))
  ≠ PyStr.lower <$> @add_county_suffix decimal_pandas (CStr "Los Angeles  County").
Proof. vm_compute. discriminate. Qed.

(** ** Frames as objects: rules for the store *)

Section hoare.
Context {A B : Type}.
Implicit Types (P E : gmap loc DataFrame → Prop).

Lemma triple_bind P (m : M A) Q (k : A → M B) R E :
  triple P m Q E → (∀ x, triple (Q x) (k x) R E) → triple P (m ≫= k) R E.
Proof.
  intros Hm Hk s Hs. specialize (Hm s Hs).
  unfold mbind, M_bind. destruct (m s) as [[x|] s']; [|done].
  by apply Hk.
Qed.

Lemma triple_conseq P P' (m : M A) Q Q' E :
  triple P' m Q' E → (∀ s, P s → P' s) → (∀ x s, Q' x s → Q x s) →
  triple P m Q E.
Proof.
  intros Hm HP HQ s Hs. specialize (Hm s (HP s Hs)).
  destruct (m s) as [[x|] s']; [by apply HQ|done].
Qed.

Lemma triple_ret P (x : A) (Q : A → _ → Prop) E :
  (∀ s, P s → Q x s) → triple P (mret x) Q E.
Proof. intros HQ s Hs. by apply HQ. Qed.

Lemma triple_lift P (o : option A) (Q : A → _ → Prop) E :
  (∀ s, P s → E s) → (∀ x s, o = Some x → P s → Q x s) →
  triple P (lift o) Q E.
Proof. intros HE HQ s Hs. unfold lift. destruct o; [by apply HQ|by apply HE]. Qed.

End hoare.

Section store_rules.
Implicit Types (pre : gmap loc DataFrame) (d : DataFrame).

Lemma triple_frame pre cur d :
  triple (working pre cur d) (frame cur)
         (λ x s, x = d ∧ working pre cur d s) (λ s, pre ⊆ s).
Proof. intros s (Hs & Hc & Hd). unfold frame. by rewrite Hd. Qed.

Lemma new_frame_working pre s d :
  pre ⊆ s → working pre (fresh (dom s)) d (<[fresh (dom s) := d]> s).
Proof.
  intros Hs. assert (Hf : s !! fresh (dom s) = None).
  { apply not_elem_of_dom, is_fresh. }
  split_and!.
  - by apply insert_subseteq_r; [eapply lookup_weaken_None|].
  - by eapply lookup_weaken_None.
  - apply lookup_insert_eq.
Qed.

Lemma triple_new pre d :
  triple (λ s, pre ⊆ s) (new_frame d) (λ l s, working pre l d s) (λ s, pre ⊆ s).
Proof. intros s Hs. by apply new_frame_working. Qed.

Lemma triple_select pre cur d mask :
  triple (working pre cur d) (df_select cur mask)
         (λ l s, working pre l (select d mask) s) (λ s, pre ⊆ s).
Proof.
  eapply triple_bind; [apply triple_frame|]. intros x.
  intros s (-> & Hs & _). by apply new_frame_working.
Qed.

Lemma triple_setitem pre cur d c values :
  triple (working pre cur d) (df_setitem cur c values)
         (λ _ s, working pre cur (set_column d c values) s) (λ s, pre ⊆ s).
Proof.
  eapply triple_bind; [apply triple_frame|]. intros x.
  intros s (-> & Hs & Hc & Hd). unfold store_frame. split_and!; [|done|].
  - by apply insert_subseteq_r.
  - apply lookup_insert_eq.
Qed.

Lemma triple_drop pre cur d c :
  triple (working pre cur d) (df_drop cur c)
         (λ l s, working pre l (drop_column d c) s) (λ s, pre ⊆ s).
Proof.
  eapply triple_bind; [apply triple_frame|]. intros x.
  intros s (-> & Hs & _). destruct (has_column d c).
  - by apply new_frame_working.
  - done.
Qed.

Lemma triple_copy pre l :
  triple (λ s, pre ⊆ s) (df_copy l)
         (λ l' s, ∃ d, pre !! l = None ∨ pre !! l = Some d ∧ working pre l' d s)
         (λ s, pre ⊆ s).
Proof.
  intros s Hs. unfold df_copy, mbind, M_bind, frame.
  destruct (s !! l) as [d|] eqn:Hd; [|done].
  cbn. exists d. destruct (pre !! l) as [d0|] eqn:Hd0; [|by left].
  right. rewrite (lookup_weaken _ _ _ _ Hd0 Hs) in Hd. injection Hd as ->.
  split; [done|]. by apply new_frame_working.
Qed.

End store_rules.

Lemma triple_pure {A} (φ : Prop) P (m : M A) Q E :
  (φ → triple P m Q E) → triple (λ s, φ ∧ P s) m Q E.
Proof. intros Hm s [Hφ Hs]. by apply Hm. Qed.

Lemma triple_raise_inv {A} (pre : gmap loc DataFrame) cur d (Q : A → _ → Prop) :
  triple (working pre cur d) raise Q (λ s, pre ⊆ s).
Proof. by intros s (? & _). Qed.

Ltac read_frame :=
  eapply triple_bind; [apply triple_frame|]; intros ?; apply triple_pure; intros ->.

Lemma drop_temp_columns d values mask :
  temp_column ∉ columns d →
  columns (drop_column (select (set_column d temp_column values) mask) temp_column)
  = columns d.
Proof.
  intros Hc. unfold drop_column, select, set_column, has_column. cbn [columns].
  rewrite bool_decide_eq_false_2 by done.
  rewrite List.filter_app. cbn [List.filter].
  rewrite bool_decide_eq_true_2 by done. cbn [negb].
  rewrite app_nil_r. apply forallb_filter_id, forallb_forall.
  intros c Hin. apply negb_true_iff, bool_decide_eq_false. intros ->.
  by apply Hc, list_elem_of_In.
Qed.

Section step_specs.
Context `{Pandas}.
Implicit Types (pre : gmap loc DataFrame) (d : DataFrame).

Lemma step_post_refl pre d l s : working pre l d s → step_post pre d l s.
Proof. intros Hw. by exists d. Qed.

Lemma year_step_spec pre cur d filters :
  triple (working pre cur d) (year_step cur filters)
         (step_post pre d) (λ s, pre ⊆ s).
Proof.
  unfold year_step. destruct (years filters) as [[start_year end_year]|].
  - read_frame. destruct (has_column d "Year").
    + eapply triple_bind.
      { apply triple_lift; [by intros s (? & _)|]. intros x s _ Hs. exact Hs. }
      intros ge. eapply triple_bind.
      { apply triple_lift; [by intros s (? & _)|]. intros x s _ Hs. exact Hs. }
      intros le. eapply triple_conseq; [apply triple_select|done|].
      intros l s Hw. eexists. split; [exact Hw|done].
    + apply triple_ret. apply step_post_refl.
  - apply triple_ret. apply step_post_refl.
Qed.

Lemma license_step_spec pre cur d filters :
  triple (working pre cur d) (license_step cur filters)
         (step_post pre d) (λ s, pre ⊆ s).
Proof.
  unfold license_step.
  destruct (license_types filters) as [[|t types]|];
    try (apply triple_ret; apply step_post_refl).
  read_frame. destruct (has_column d "License Designation").
  - eapply triple_conseq; [apply triple_select|done|].
    intros l s Hw. eexists. split; [exact Hw|done].
  - apply triple_ret. apply step_post_refl.
Qed.

Lemma filter_by_temp_spec pre cur d values (mask : DataFrame → list bool) :
  triple (working pre cur d)
    (df_setitem cur temp_column values;;
     d' ← frame cur;
     kept ← df_select cur (mask d');
     df_drop kept temp_column)
    (step_post pre d) (λ s, pre ⊆ s).
Proof.
  eapply triple_bind; [apply triple_setitem|]. intros [].
  read_frame. eapply triple_bind; [apply triple_select|]. intros kept.
  eapply triple_conseq; [apply triple_drop|done|].
  intros l s Hw. eexists. split; [exact Hw|]. apply drop_temp_columns.
Qed.

Lemma county_step_spec pre cur d filters :
  triple (working pre cur d) (county_step cur filters)
         (step_post pre d) (λ s, pre ⊆ s).
Proof.
  unfold county_step. destruct (counties_to_filter filters) as [cs|].
  - read_frame. destruct (has_column d "County").
    + apply (filter_by_temp_spec pre cur d _
               (λ d', isin _ <$> series d' "_normalized_county")).
    + apply triple_ret. apply step_post_refl.
  - apply triple_ret. apply step_post_refl.
Qed.

Lemma density_county_step_spec pre cur d filters :
  triple (working pre cur d) (density_county_step cur filters)
         (step_post pre d) (λ s, pre ⊆ s).
Proof.
  unfold density_county_step. destruct (county filters) as [c|].
  - case_bool_decide.
    + read_frame. destruct (has_column d "County").
      * apply (filter_by_temp_spec pre cur d _
                 (λ d', series_eq_opt (series d' "_normalized_county") _)).
      * apply triple_ret. apply step_post_refl.
    + apply triple_ret. apply step_post_refl.
  - apply triple_ret. apply step_post_refl.
Qed.

(** Chaining: the next step starts from whatever working frame the
    previous one handed on. *)
Lemma step_chain pre d (m : M loc) (k : loc → M loc) P :
  triple P m (step_post pre d) (λ s, pre ⊆ s) →
  (∀ cur d', triple (working pre cur d') (k cur)
                    (step_post pre d') (λ s, pre ⊆ s)) →
  triple P (m ≫= k) (step_post pre d) (λ s, pre ⊆ s).
Proof.
  intros Hm Hk. eapply triple_bind; [exact Hm|]. intros cur s (d' & Hw & Hc).
  specialize (Hk cur d' s Hw). destruct (k cur s) as [[l|] s']; [|done].
  destruct Hk as (d'' & Hw' & Hc'). exists d''. split; [done|].
  intros Hn. rewrite Hc' by (by rewrite Hc). by apply Hc.
Qed.

Lemma applier_spec_intro (steps : loc → Filters → M loc) :
  (∀ pre cur d filters,
     triple (working pre cur d) (steps cur filters)
            (step_post pre d) (λ s, pre ⊆ s)) →
  applier_spec (λ l filters, filtered_df ← df_copy l; steps filtered_df filters).
Proof.
  intros Hsteps pre l filters s ->.
  unfold df_copy, frame, mbind, M_bind. cbn beta.
  destruct (pre !! l) as [d|] eqn:Hd; cbn; [|done].
  pose proof (new_frame_working pre pre d (reflexivity _)) as Hw.
  specialize (Hsteps pre _ d filters _ Hw).
  destruct (steps _ filters _) as [[l'|] s']; [|done].
  destruct Hsteps as (d' & (Hs & Hn & Hl) & Hc). eauto 10.
Qed.

Lemma apply_dispensary_filters_spec : applier_spec apply_dispensary_filters.
Proof.
  apply (applier_spec_intro (λ cur filters,
    filtered_df ← year_step cur filters;
    filtered_df ← license_step filtered_df filters;
    county_step filtered_df filters)).
  intros pre cur d filters.
  eapply step_chain; [apply year_step_spec|]. intros cur1 d1.
  eapply step_chain; [apply license_step_spec|]. intros cur2 d2.
  apply county_step_spec.
Qed.

Lemma apply_sentiment_filters_spec : applier_spec apply_sentiment_filters.
Proof.
  apply (applier_spec_intro (λ cur filters,
    filtered_df ← year_step cur filters; county_step filtered_df filters)).
  intros pre cur d filters.
  eapply step_chain; [apply year_step_spec|]. intros cur1 d1.
  apply county_step_spec.
Qed.

Lemma apply_density_filters_spec : applier_spec apply_density_filters.
Proof.
  apply (applier_spec_intro (λ cur filters,
    filtered_df ← year_step cur filters;
    density_county_step filtered_df filters)).
  intros pre cur d filters.
  eapply step_chain; [apply year_step_spec|]. intros cur1 d1.
  apply density_county_step_spec.
Qed.

End step_specs.

(** ** Filters *)

Lemma counties_to_filter_None (filters : Filters) :
  counties_to_filter filters = None ↔
    (∃ cs, counties filters = Some cs ∧ cs ≠ [] ∧ all_counties ∈ cs)
    ∨ ((counties filters = None ∨ counties filters = Some [])
       ∧ (county filters = None ∨ county filters = Some all_counties)).
Proof.
  unfold counties_to_filter.
  destruct (counties filters) as [[|c cs]|], (county filters) as [c'|];
    repeat case_bool_decide; naive_solver.
Qed.

(** With a non-empty list the scalar field is never read. *)
Lemma counties_to_filter_list_first (filters : Filters) c cs :
  counties filters = Some (c :: cs) →
  counties_to_filter filters
  = if bool_decide (all_counties ∉ c :: cs) then Some (c :: cs) else None.
Proof. intros E. unfold counties_to_filter. by rewrite E. Qed.

Lemma county_step_no_restriction `{Pandas} cur (filters : Filters) :
  counties_to_filter filters = None → county_step cur filters = mret cur.
Proof. intros E. unfold county_step. by rewrite E. Qed.

Lemma density_county_step_scalar_sentinel `{Pandas} cur (filters : Filters) :
  county filters = None ∨ county filters = Some all_counties →
  density_county_step cur filters = mret cur.
Proof.
  intros [E|E]; unfold density_county_step; rewrite E; [done|].
  by rewrite bool_decide_eq_false_2 by (by intros ?).
Qed.

(** Claim C4, as the code has it.  [has_active_filters] answers [False]
    exactly when no dimension restricts: the year range is unset or
    (2018, 2024); the county resolution shared with the appliers yields no
    county list (the non-empty list contains "All Counties", or the list is
    unset or empty and the scalar is unset or "All Counties"); and the
    license-type list is unset, empty, or has at least three entries. *)
Theorem has_active_filters_false_iff (filters : Filters) :
  has_active_filters filters = false
  ↔ years_unrestricted filters
    ∧ counties_to_filter filters = None
    ∧ license_unrestricted filters.
Proof.
  unfold has_active_filters, years_unrestricted, license_unrestricted,
    counties_to_filter.
  destruct (years filters) as [[a b]|], (counties filters) as [[|c cs]|],
    (county filters) as [c'|], (license_types filters) as [[|t ts]|];
    repeat case_bool_decide; simpl in *; naive_solver lia.
Qed.

Lemma has_active_filters_misses_empty_license_list :
  ¬ ∀ filters, has_active_filters filters = false ↔ spec_all_default filters.
Proof.
  intros Hall. destruct (Hall no_license_selected) as [Himp _].
  destruct (Himp eq_refl) as (_ & _ & types & [= <-] & Hlen). discriminate.
Qed.

(** Claim C1 at the failing input: with "counties" naming Los Angeles and
    "county" naming San Diego, [apply_density_filters] keeps the San Diego
    rows (it reads the scalar field only), while [apply_sentiment_filters]
    and [apply_dispensary_filters] keep the Los Angeles rows of the same
    table. *)
Theorem density_filter_reads_scalar_county_only :
  (λ d, series d "County")
    <$> result_frame (@apply_density_filters decimal_pandas 1%positive both_shapes)
          density_session
  = Some [CStr "San Diego County"; CStr "San Diego County"]
  ∧ (λ d, series d "County")
    <$> result_frame (@apply_sentiment_filters decimal_pandas 1%positive both_shapes)
          density_session
  = Some [CStr "Los Angeles County"; CStr "Los Angeles County"]
  ∧ (λ d, series d "County")
    <$> result_frame (@apply_dispensary_filters decimal_pandas 1%positive both_shapes)
          density_session
  = Some [CStr "Los Angeles County"; CStr "Los Angeles County"].
Proof. split_and!; vm_compute; reflexivity. Qed.

(** Claim C8 at the failing input: the list field holds the "All Counties"
    sentinel, so the resolved selection is "no restriction" and the shared
    county step keeps all 6 rows; the county step of [apply_density_filters]
    reads the scalar field instead and keeps 2. *)
Theorem density_county_step_drops_rows_under_sentinel :
  counties_to_filter sentinel_list_and_scalar = None
  ∧ nrows sample_density_data = 6
  ∧ nrows <$> result_frame
       (@density_county_step decimal_pandas 1%positive sentinel_list_and_scalar)
       density_session = Some 2
  ∧ nrows <$> result_frame
       (@county_step decimal_pandas 1%positive sentinel_list_and_scalar)
       density_session = Some 6.
Proof. split_and!; vm_compute; reflexivity. Qed.

(** ** Validation: boolean series built row by row *)

Lemma mask_sum_fmap {A} (f : A → bool) (l : list A) :
  mask_sum (f <$> l) = length (List.filter f l).
Proof.
  unfold mask_sum. induction l as [|x l IH]; [done|].
  rewrite fmap_cons. cbn [List.filter]. unfold id at 1.
  destruct (f x); cbn [length]; by rewrite IH.
Qed.

Lemma select_fmap (df : DataFrame) (f : gmap string cell → bool) :
  rows (select df (f <$> rows df)) = List.filter f (rows df).
Proof.
  unfold select. cbn [rows]. induction (rows df) as [|r l IH]; [done|].
  rewrite fmap_cons. cbn [zip zip_with List.filter snd].
  destruct (f r); [rewrite fmap_cons; cbn [fst]|]; by rewrite IH.
Qed.

Lemma mask_or_fmap {A} (f g : A → bool) (l : list A) :
  mask_or (f <$> l) (g <$> l) = (λ x, f x || g x) <$> l.
Proof.
  unfold mask_or. induction l as [|x l IH]; [done|].
  rewrite !fmap_cons. cbn [zip_with]. by rewrite IH.
Qed.

Lemma replicate_fmap {A B} (b : B) (l : list A) :
  replicate (length l) b = (λ _, b) <$> l.
Proof.
  induction l as [|x l IH]; [done|].
  rewrite fmap_cons. cbn [length replicate]. by rewrite IH.
Qed.

Lemma filter_delete_false {A} (f : A → bool) (l : list A) i x :
  l !! i = Some x → f x = false →
  List.filter f (delete i l) = List.filter f l.
Proof.
  intros Hi Hf. rewrite <- (take_drop_middle l i x Hi) at 2.
  rewrite delete_take_drop, !List.filter_app. simpl. by rewrite Hf.
Qed.

Lemma elem_of_take_filter {A} (f : A → bool) (g : A → cell) (l : list A) n v :
  v ∈ take n (g <$> List.filter f l) → ∃ x, v = g x ∧ f x = true ∧ x ∈ l.
Proof.
  intros Hv. apply (subseteq_take n) in Hv.
  apply list_elem_of_fmap in Hv as (x & -> & Hx).
  apply list_elem_of_In, filter_In in Hx as [Hx Hf].
  exists x. split_and!; [done..|]. by apply list_elem_of_In.
Qed.

Section validation_facts.
Context `{Pandas}.

Lemma positive_violation_nan column allow_zero r :
  to_numeric (row_cell column r) = None →
  positive_violation column allow_zero r = false.
Proof. unfold positive_violation. intros ->. by destruct allow_zero. Qed.

Lemma range_violation_nan column min_value max_value r :
  to_numeric (row_cell column r) = None →
  range_violation column min_value max_value r = false.
Proof.
  unfold range_violation. intros ->. by destruct min_value, max_value.
Qed.

Lemma positive_mask (df : DataFrame) (column : string) (allow_zero : bool) :
  (if allow_zero
   then (num_lt 0%Qc <$> (to_numeric <$> series df column) : list bool)
   else num_le 0%Qc <$> (to_numeric <$> series df column))
  = positive_violation column allow_zero <$> rows df.
Proof.
  unfold series, positive_violation.
  destruct allow_zero; rewrite <- !list_fmap_compose; by apply list_fmap_ext.
Qed.

Lemma range_mask (df : DataFrame) (column : string)
    (min_value max_value : option Qc) :
  (let m0 := replicate (nrows df) false in
   let m1 := match min_value with
             | Some m => mask_or m0 (num_lt m <$> (to_numeric <$> series df column))
             | None => m0
             end in
   match max_value with
   | Some m => mask_or m1 (num_gt m <$> (to_numeric <$> series df column))
   | None => m1
   end)
  = range_violation column min_value max_value <$> rows df.
Proof.
  unfold series, nrows, range_violation. cbv zeta.
  rewrite replicate_fmap.
  destruct min_value, max_value;
    rewrite <- ?list_fmap_compose, ?mask_or_fmap;
    apply list_fmap_ext; intros ? r _; simpl;
    by rewrite ?orb_false_r.
Qed.

End validation_facts.

Section validation_claims.
Context `{Pandas}.

Lemma series_select (df : DataFrame) (f : gmap string cell → bool) column :
  series (select df (f <$> rows df)) column
  = row_cell column <$> List.filter f (rows df).
Proof. unfold series. by rewrite select_fmap. Qed.

(** Both validators look at a frame only through its column list and
    through the rows their mask selects. *)
Lemma validate_positive_numeric_ext (df df' : DataFrame) column allow_zero name :
  columns df = columns df' →
  List.filter (positive_violation column allow_zero) (rows df)
  = List.filter (positive_violation column allow_zero) (rows df') →
  validate_positive_numeric df column allow_zero name
  = validate_positive_numeric df' column allow_zero name.
Proof.
  intros Hc Hf. unfold validate_positive_numeric, has_column. rewrite Hc.
  destruct (negb _); [done|].
  pose proof (positive_mask df column allow_zero) as Hm.
  pose proof (positive_mask df' column allow_zero) as Hm'.
  destruct allow_zero; cbv zeta; cbn match; rewrite Hm, Hm';
    by rewrite !mask_sum_fmap, !series_select, Hf.
Qed.

Lemma validate_range_ext (df df' : DataFrame) column min_value max_value name :
  columns df = columns df' →
  List.filter (range_violation column min_value max_value) (rows df)
  = List.filter (range_violation column min_value max_value) (rows df') →
  validate_range df column min_value max_value name
  = validate_range df' column min_value max_value name.
Proof.
  intros Hc Hf. unfold validate_range, has_column. rewrite Hc.
  destruct (negb _); [done|].
  pose proof (range_mask df column min_value max_value) as Hm.
  pose proof (range_mask df' column min_value max_value) as Hm'.
  destruct min_value, max_value; cbv zeta in *; cbn match in *;
    rewrite Hm, Hm'; by rewrite !mask_sum_fmap, !series_select, Hf.
Qed.

Lemma validate_positive_numeric_values (df : DataFrame) column allow_zero name v :
  v ∈ invalid_values (validate_positive_numeric df column allow_zero name) →
  is_Some (to_numeric v).
Proof.
  unfold validate_positive_numeric. destruct (negb _); [by intros ?%elem_of_nil|].
  pose proof (positive_mask df column allow_zero) as Hm.
  destruct allow_zero; cbv zeta; cbn match; rewrite Hm;
    (case_bool_decide; [|by intros ?%elem_of_nil]); simpl;
    rewrite series_select; intros (r & -> & Hv & _)%elem_of_take_filter;
    unfold positive_violation in Hv;
    by destruct (to_numeric (row_cell column r)).
Qed.

Lemma validate_range_values (df : DataFrame) column min_value max_value name v :
  v ∈ invalid_values (validate_range df column min_value max_value name) →
  is_Some (to_numeric v).
Proof.
  unfold validate_range. destruct (negb _); [by intros ?%elem_of_nil|].
  pose proof (range_mask df column min_value max_value) as Hm.
  destruct min_value, max_value; cbv zeta in *; cbn match in *; rewrite Hm;
    (case_bool_decide; [|by intros ?%elem_of_nil]); simpl;
    rewrite series_select; intros (r & -> & Hv & _)%elem_of_take_filter;
    unfold range_violation in Hv;
    by destruct (to_numeric (row_cell column r)).
Qed.

End validation_claims.

(** Claim C6.  A row whose value in the checked column fails numeric
    coercion does not take part in any numeric rule: with or without that
    row, [validate_positive_numeric], [validate_range] and the three rules
    built on it return the same result (same verdict, count, message and
    sample), and the value is not among the reported invalid values.  The
    validators are total: no input makes them raise. *)
Theorem coercion_failures_are_not_tallied `{Pandas}
    (df : DataFrame) (column : string) (i : nat) (r : gmap string cell)
    (Hrow : rows df !! i = Some r)
    (Hnan : to_numeric (row_cell column r) = None) :
  (∀ allow_zero name,
     validate_positive_numeric df column allow_zero name
     = validate_positive_numeric (without_row i df) column allow_zero name
     ∧ row_cell column r
       ∉ invalid_values (validate_positive_numeric df column allow_zero name))
  ∧ (∀ min_value max_value name,
       validate_range df column min_value max_value name
       = validate_range (without_row i df) column min_value max_value name
       ∧ row_cell column r
         ∉ invalid_values (validate_range df column min_value max_value name))
  ∧ (∀ current_year min_year max_year,
       validate_year_column current_year df column min_year max_year
       = validate_year_column current_year (without_row i df) column
           min_year max_year)
  ∧ (∀ min_score max_score,
       validate_sentiment_score df column min_score max_score
       = validate_sentiment_score (without_row i df) column min_score max_score)
  ∧ (∀ name,
       validate_percentage df column name
       = validate_percentage (without_row i df) column name).
Proof.
  assert (Hrange : ∀ min_value max_value name,
    validate_range df column min_value max_value name
    = validate_range (without_row i df) column min_value max_value name).
  { intros. apply validate_range_ext; [done|]. symmetry.
    eapply filter_delete_false; [done|]. by apply range_violation_nan. }
  split_and!.
  - intros allow_zero name. split.
    + apply validate_positive_numeric_ext; [done|]. symmetry.
      eapply filter_delete_false; [done|]. by apply positive_violation_nan.
    + intros [q Hq]%validate_positive_numeric_values. congruence.
  - intros min_value max_value name. split; [apply Hrange|].
    intros [q Hq]%validate_range_values. congruence.
  - intros. apply Hrange.
  - intros. apply Hrange.
  - intros. apply Hrange.
Qed.

Lemma coercion_failures_are_not_tallied_witness :
  rows population_with_text !! 1 = Some {[ "County" := CStr "Yolo"; "Population" := CStr "n/a" ]}
  ∧ @to_numeric decimal_pandas
      (row_cell "Population" {[ "County" := CStr "Yolo"; "Population" := CStr "n/a" ]}) = None
  ∧ invalid_count
      (@validate_positive_numeric decimal_pandas population_with_text
         "Population" false None) = 1.
Proof.
  assert (H1 : rows population_with_text !! 1
               = Some {[ "County" := CStr "Yolo"; "Population" := CStr "n/a" ]})
    by reflexivity.
  assert (H2 : @to_numeric decimal_pandas
      (row_cell "Population" {[ "County" := CStr "Yolo"; "Population" := CStr "n/a" ]})
      = None) by reflexivity.
  split_and!; [done..|].
  destruct (@coercion_failures_are_not_tallied decimal_pandas
              population_with_text "Population" 1 _ H1 H2) as (Hpos & _).
  destruct (Hpos false None) as [-> _]. vm_compute. reflexivity.
Defined.

(** Claim C7.  For a column the frame does not have, both validators answer
    the "not found" result: invalid, count 0, no sample, and the message
    "Column '<display name>' not found in dataset", whatever the rows hold. *)
Theorem missing_column_is_reported_not_found `{Pandas}
    (df : DataFrame) (column : string) (Habsent : column ∉ columns df) :
  (∀ allow_zero name,
     validate_positive_numeric df column allow_zero name
     = not_found column (name_or name column))
  ∧ (∀ min_value max_value name,
       validate_range df column min_value max_value name
       = not_found column (name_or name column)).
Proof.
  split; intros; unfold validate_positive_numeric, validate_range, has_column;
    by rewrite bool_decide_eq_false_2.
Qed.

Lemma missing_column_is_reported_not_found_witness :
  ("Score" ∉ columns sample_density_data)
  ∧ @validate_range decimal_pandas sample_density_data "Score"
      (Some 0%Qc) None None
    = {| is_valid := false; column := "Score";
         message := "Column 'Score' not found in dataset";
         invalid_count := 0; invalid_values := [] |}.
Proof.
  assert (H1 : "Score" ∉ columns sample_density_data).
  { apply (bool_decide_unpack _). vm_compute. exact I. }
  split; [done|].
  exact (proj2 (@missing_column_is_reported_not_found decimal_pandas
                  sample_density_data "Score" H1) (Some 0%Qc) None None).
Defined.

(** ** Quality metrics *)

Lemma numbers_is_Some (s : list cell) :
  Forall (λ v, is_text v = false) s → is_Some (numbers s).
Proof.
  intros Hs. unfold numbers. apply mapM_is_Some, Forall_forall.
  intros c [Hc Hna]%list_elem_of_In%filter_In.
  rewrite Forall_forall in Hs. apply list_elem_of_In, Hs in Hc.
  destruct c; simpl in *; [done|by eexists|done].
Qed.

Lemma sum_list_cons (x : nat) (l : list nat) : sum_list (x :: l) = x + sum_list l.
Proof. done. Qed.

Lemma sum_list_fmap_add {A} (f g : A → nat) (l : list A) :
  sum_list ((λ x, f x + g x) <$> l) = sum_list (f <$> l) + sum_list (g <$> l).
Proof.
  induction l as [|x l IH]; [done|].
  rewrite !fmap_cons, !sum_list_cons, IH. lia.
Qed.

Lemma mask_sum_cons (b : bool) (m : list bool) :
  mask_sum (b :: m) = (if b then 1 else 0) + mask_sum m.
Proof. unfold mask_sum. cbn [List.filter]. unfold id at 1. by destruct b. Qed.

Lemma null_count_of_row (r : gmap string cell) (cs : list string) :
  length (List.filter isna ((λ c, row_cell c r) <$> cs))
  = sum_list ((λ c, if isna (row_cell c r) then 1 else 0) <$> cs).
Proof.
  induction cs as [|c cs IHc]; [done|].
  rewrite !fmap_cons, sum_list_cons, <- IHc. cbn [List.filter].
  by destruct (isna (row_cell c r)).
Qed.

Lemma null_count_by_rows (l : list (gmap string cell)) (cs : list string) :
  sum_list ((λ c, mask_sum (isna <$> (row_cell c <$> l))) <$> cs)
  = length (List.filter isna (r ← l; (λ c, row_cell c r) <$> cs)).
Proof.
  induction l as [|r l IH].
  - cbn. induction cs as [|c cs IHc]; [done|].
    by rewrite fmap_cons, sum_list_cons, IHc.
  - rewrite bind_cons, List.filter_app, length_app, <- IH, null_count_of_row.
    rewrite <- sum_list_fmap_add. f_equal.
    apply list_fmap_ext. intros _ c _. by rewrite !fmap_cons, mask_sum_cons.
Qed.

Lemma null_cells_row_major (df : DataFrame) :
  df_null_cells df = length (List.filter isna (all_cells df)).
Proof. apply null_count_by_rows. Qed.

Lemma all_cells_length (df : DataFrame) :
  length (all_cells df) = nrows df * length (columns df).
Proof.
  unfold all_cells, nrows. induction (rows df) as [|r l IH]; [done|].
  rewrite bind_cons, length_app, length_fmap, IH. simpl. lia.
Qed.

Lemma table_metrics_is_Some (df : DataFrame) :
  numeric_column df "Year" → is_Some (table_metrics df).
Proof.
  intros Hy. unfold table_metrics.
  destruct (has_column df "Year"); [|by eexists].
  unfold year_range_of. destruct (numbers_is_Some _ Hy) as [[|y ys] ->];
    by eexists.
Qed.

Lemma table_metrics_fields (df : DataFrame) m :
  table_metrics df = Some m →
  total_records m = nrows df
  ∧ null_cells m = df_null_cells df
  ∧ completeness m = completeness_of (df_null_cells df) (df_size df).
Proof.
  unfold table_metrics. intros Hm.
  apply bind_Some in Hm as (yr & _ & [= <-]). done.
Qed.

Lemma completeness_of_pos (null_cells total_cells : nat) :
  0 < total_cells →
  completeness_of null_cells total_cells
  = (Qc_of_Z 100 * (1 - Qc_of_nat null_cells / Qc_of_nat total_cells))%Qc.
Proof.
  intros Hpos. unfold completeness_of. rewrite bool_decide_eq_true_2 by done.
  apply Qcmult_comm.
Qed.

Lemma completeness_of_zero (null_cells : nat) : completeness_of null_cells 0 = 0%Qc.
Proof. done. Qed.

Lemma completeness_5_of_100 : completeness_of 5 100 = Qc_of_Z 95.
Proof. apply Qc_is_canon. reflexivity. Qed.

Lemma measured_Some (o : option DataFrame) (d : DataFrame) :
  measured o = Some d ↔ o = Some d ∧ df_empty d = false.
Proof.
  unfold measured. destruct o as [d'|]; cbn; [|by split; [|intros []]].
  destruct (df_empty d') eqn:E; split.
  - done.
  - intros [[= ->] ?]. congruence.
  - by intros [= ->].
  - by intros [[= ->] _].
Qed.

Lemma df_size_pos (df : DataFrame) : df_empty df = false → 0 < df_size df.
Proof.
  unfold df_empty, df_size. intros [H1 H2]%orb_false_elim.
  apply bool_decide_eq_false in H1, H2. nia.
Qed.

(** Claim C5.  For a table of the dictionary that is not empty, the metrics
    hold its row count, the number of missing cells (counted cell by cell),
    and completeness 100 * (1 - null_cells / total_cells) with
    total_cells = rows * columns; 5 missing cells out of 100 give 95; the
    completeness expression is 0 for 0 cells.  Year columns are assumed to
    hold numbers or missing values, as the datasets do. *)
Theorem quality_metrics_completeness
    (data_dict : gmap string (option DataFrame)) (name : string) (df : DataFrame)
    (Hin : data_dict !! name = Some (Some df))
    (Hnonempty : df_empty df = false)
    (Hyears : map_Forall (λ _ o, ∀ d, o = Some d → numeric_column d "Year")
                         data_dict) :
  ∃ ms m,
    get_data_quality_metrics data_dict = Some ms
    ∧ ms !! name = Some m
    ∧ total_records m = nrows df
    ∧ null_cells m = length (List.filter isna (all_cells df))
    ∧ length (all_cells df) = nrows df * length (columns df)
    ∧ completeness m
      = (Qc_of_Z 100
         * (1 - Qc_of_nat (null_cells m)
                / Qc_of_nat (nrows df * length (columns df))))%Qc
    ∧ (length (all_cells df) = 100 → null_cells m = 5 →
       completeness m = Qc_of_Z 95)
    ∧ ∀ n, completeness_of n 0 = 0%Qc.
Proof.
  unfold get_data_quality_metrics. cbv zeta.
  rewrite bool_decide_eq_true_2.
  2:{ intros k d Hk. apply lookup_omap_Some in Hk as (o & Ho & Hk).
      apply measured_Some in Ho as [-> _].
      apply table_metrics_is_Some. by eapply (Hyears k). }
  assert (Hlive : omap measured data_dict !! name = Some df).
  { apply lookup_omap_Some. exists (Some df). split; [|done].
    by apply measured_Some. }
  destruct (table_metrics_is_Some df) as [m Hm]; [by eapply (Hyears name)|].
  destruct (table_metrics_fields df m Hm) as (Ht & Hn & Hc).
  exists (omap table_metrics (omap measured data_dict)), m.
  assert (Hcompl : completeness m
      = (Qc_of_Z 100
         * (1 - Qc_of_nat (null_cells m)
                / Qc_of_nat (nrows df * length (columns df))))%Qc).
  { rewrite Hc, Hn. apply completeness_of_pos. by apply df_size_pos. }
  split_and!; try done.
  - apply lookup_omap_Some. by exists df.
  - by rewrite Hn, null_cells_row_major.
  - apply all_cells_length.
  - intros H100 H5. rewrite Hcompl, <- all_cells_length, H100, H5.
    rewrite <- completeness_5_of_100. symmetry. apply completeness_of_pos. lia.
Qed.

Lemma quality_metrics_completeness_witness :
  ∃ ms m,
    get_data_quality_metrics {[ "density" := Some sample_density_data ]} = Some ms
    ∧ ms !! "density" = Some m
    ∧ total_records m = 6
    ∧ completeness m = Qc_of_Z 100.
Proof.
  assert (H1 : ({[ "density" := Some sample_density_data ]}
                  : gmap string (option DataFrame)) !! "density"
               = Some (Some sample_density_data)) by apply lookup_singleton_eq.
  assert (H2 : df_empty sample_density_data = false) by reflexivity.
  assert (H3 : map_Forall (λ _ o, ∀ d, o = Some d → numeric_column d "Year")
                 ({[ "density" := Some sample_density_data ]}
                    : gmap string (option DataFrame))).
  { apply map_Forall_singleton. intros d [= <-].
    unfold numeric_column. repeat constructor. }
  destruct (quality_metrics_completeness _ _ _ H1 H2 H3)
    as (ms & m & Hms & Hm & Ht & Hn & _ & Hc & _).
  exists ms, m. split_and!; [done..|].
  rewrite Hc, Hn. apply Qc_is_canon. vm_compute. reflexivity.
Defined.

(** ** Regional density *)

Lemma mapM_total {A B} (f : A → option B) (g : A → B) (l : list A) :
  (∀ x, x ∈ l → f x = Some (g x)) → mapM f l = Some (g <$> l).
Proof.
  intros Hf. apply mapM_Some, Forall2_fmap_r, Forall_Forall2_diag, Forall_forall.
  exact Hf.
Qed.

Lemma filter_none {A} (f : A → bool) (l : list A) :
  (∀ x, x ∈ l → f x = false) → List.filter f l = [].
Proof.
  induction l as [|x l IH]; intros Hf; [done|].
  cbn [List.filter]. rewrite Hf by left. apply IH. intros y Hy. apply Hf. by right.
Qed.

Lemma filter_absent_key {K V} `{EqDecision K} (l : list (K * V)) k :
  k ∉ l.*1 → List.filter (λ e, bool_decide (e.1 = k)) l = [].
Proof.
  induction l as [|[k' v'] l IH]; intros Hk; [done|].
  rewrite fmap_cons in Hk. apply not_elem_of_cons in Hk as [Hne Hk].
  cbn [List.filter fst]. rewrite bool_decide_eq_false_2 by done. by apply IH.
Qed.

Lemma filter_unique_key {K V} `{EqDecision K} (l : list (K * V)) k v :
  NoDup l.*1 → (k, v) ∈ l →
  List.filter (λ e, bool_decide (e.1 = k)) l = [(k, v)].
Proof.
  induction l as [|[k' v'] l IH]; intros Hnd Hin; [by apply elem_of_nil in Hin|].
  rewrite fmap_cons in Hnd. apply NoDup_cons in Hnd as [Hk' Hnd].
  cbn [List.filter fst]. apply elem_of_cons in Hin as [[= <- <-]|Hin].
  - rewrite bool_decide_eq_true_2 by done. f_equal. by apply filter_absent_key.
  - rewrite bool_decide_eq_false_2; [by apply IH|].
    intros ->. apply Hk'. apply list_elem_of_fmap. by exists (k, v).
Qed.

Lemma filter_fmap_key {A B} (g : A → B) (p : B → bool) (l : list A) :
  List.filter p (g <$> l) = g <$> List.filter (p ∘ g) l.
Proof.
  induction l as [|x l IH]; [done|].
  rewrite fmap_cons. cbn [List.filter]. unfold compose at 1.
  destruct (p (g x)); [rewrite fmap_cons|]; by rewrite IH.
Qed.

Lemma region_rows_numeric (density_df : DataFrame) counties c :
  numeric_column density_df c →
  Forall (λ v, is_text v = false) (row_cell c <$> region_rows density_df counties).
Proof.
  unfold numeric_column, series, region_rows. rewrite !Forall_fmap, !Forall_forall.
  intros Hn r [Hr _]%list_elem_of_In%filter_In. by apply Hn, list_elem_of_In.
Qed.

Lemma regional_row_total (density_df : DataFrame) (entry : string * list string) :
  "County" ∈ columns density_df →
  "Dispensary_PerCapita" ∈ columns density_df →
  numeric_column density_df "Dispensary_PerCapita" →
  regional_row density_df entry = Some (region_record density_df entry).
Proof.
  intros Hc Hm Hn. destruct entry as [region counties].
  unfold regional_row. cbv zeta.
  change (has_column (select density_df ?m) ?c) with (has_column density_df c).
  unfold has_column. rewrite !bool_decide_eq_true_2 by done. cbn [negb].
  unfold region_record, region_average. cbn [fst snd].
  unfold series at 2. rewrite <- list_fmap_compose, series_select.
  change (List.filter _ (rows density_df)) with (region_rows density_df counties).
  destruct (numbers_is_Some _ (region_rows_numeric density_df counties _ Hn))
    as [ns Hns].
  unfold mean. rewrite Hns. cbn. by destruct ns.
Qed.

Lemma region_average_no_match (density_df : DataFrame) counties :
  (∀ r, r ∈ rows density_df →
        row_cell "County" r ∉ CStr <$> counties_formatted_of counties) →
  region_average density_df counties = 0%Qc.
Proof.
  intros Hno. unfold region_average.
  assert (region_rows density_df counties = []) as ->; [|done].
  unfold region_rows. apply filter_none. intros r Hr.
  apply bool_decide_eq_false. by apply Hno.
Qed.

(** Claim C9.  On a density table with its two columns, the metric column
    numeric, [calculate_regional_density] returns a frame with exactly one
    row per region of the mapping and no other row; the average of each row
    is a number, and it is 0 when no row of the table is in the region's
    formatted county list. *)
Theorem regional_density_one_row_per_region
    (density_df : DataFrame) (region_mapping : gmap string (list string))
    (Hcounty : "County" ∈ columns density_df)
    (Hmetric : "Dispensary_PerCapita" ∈ columns density_df)
    (Hnumeric : numeric_column density_df "Dispensary_PerCapita") :
  ∃ out,
    calculate_regional_density density_df region_mapping = Some out
    ∧ nrows out = size region_mapping
    ∧ ∀ region counties,
        region_mapping !! region = Some counties →
        ∃ q,
          List.filter (λ r, bool_decide (r !! "Region" = Some (CStr region)))
                      (rows out)
          = [ {[ "Region" := CStr region; "Average_Density" := CNum q ]} ]
          ∧ ((∀ r, r ∈ rows density_df →
                   row_cell "County" r
                   ∉ CStr <$> counties_formatted_of counties) →
             q = 0%Qc).
Proof.
  unfold calculate_regional_density, regional_density_of_items.
  rewrite (mapM_total _ (region_record density_df))
    by (intros; by apply regional_row_total).
  eexists. split; [reflexivity|].
  change (rows (frame_of_records ?c ?rs)) with rs.
  split.
  - unfold nrows. change (rows (frame_of_records ?c ?rs)) with rs.
    by rewrite length_fmap, length_map_to_list.
  - intros region counties Hr.
    exists (region_average density_df counties). split.
    + rewrite filter_fmap_key.
      rewrite (List.filter_ext _ (λ e, bool_decide (e.1 = region))).
      * rewrite (filter_unique_key _ region counties); [done| |].
        -- apply NoDup_fst_map_to_list.
        -- by apply elem_of_map_to_list.
      * intros [k v]. unfold compose, region_record. cbn [fst snd].
        rewrite lookup_insert_eq. apply bool_decide_ext. naive_solver.
    + apply region_average_no_match.
Qed.

Lemma regional_density_one_row_per_region_witness :
  ∃ out,
    calculate_regional_density sample_density_data two_regions = Some out
    ∧ nrows out = 2
    ∧ List.filter (λ r, bool_decide (r !! "Region" = Some (CStr "Wine Country")))
                  (rows out)
      = [ {[ "Region" := CStr "Wine Country"; "Average_Density" := CNum 0%Qc ]} ].
Proof.
  assert (H1 : "County" ∈ columns sample_density_data).
  { apply (bool_decide_unpack _). vm_compute. exact I. }
  assert (H2 : "Dispensary_PerCapita" ∈ columns sample_density_data).
  { apply (bool_decide_unpack _). vm_compute. exact I. }
  assert (H3 : numeric_column sample_density_data "Dispensary_PerCapita").
  { unfold numeric_column. repeat constructor. }
  destruct (regional_density_one_row_per_region
              sample_density_data two_regions H1 H2 H3) as (out & Hout & Hn & Hrows).
  exists out. split_and!; [done|by rewrite Hn|].
  destruct (Hrows "Wine Country" ["Napa"; "Sonoma"] eq_refl) as (q & Hq & Hzero).
  rewrite Hq, Hzero; [done|].
  intros r Hr. apply (bool_decide_unpack _).
  revert r Hr. apply Forall_forall. repeat constructor.
Defined.

(** ** The appliers as functions of the frame *)

Lemma step_computes_bind (k1 k2 : loc → M loc) v1 v2 :
  step_computes k1 v1 → step_computes k2 v2 →
  step_computes (λ cur, l ← k1 cur; k2 l) (λ d, v1 d ≫= v2).
Proof.
  intros H1 H2 pre cur d s Hw. specialize (H1 pre cur d s Hw).
  unfold mbind at 1, M_bind. destruct (k1 cur s) as [[l|] s1].
  - destruct H1 as (d' & Hv & Hw'). specialize (H2 pre l d' s1 Hw').
    rewrite Hv. exact H2.
  - destruct H1 as [-> Hs]. done.
Qed.

Lemma step_computes_total (step : loc → M loc) (view : DataFrame → DataFrame) :
  (∀ pre cur d,
     triple (working pre cur d) (step cur)
       (λ l s, working pre l (view d) s) (λ _, False)) →
  step_computes step (λ d, Some (view d)).
Proof.
  intros Hstep pre cur d s Hw. specialize (Hstep pre cur d s Hw).
  destruct (step cur s) as [[l|] s']; [|done]. by exists (view d).
Qed.

Lemma run_frame pre cur d s {A} (k : DataFrame → M A) :
  working pre cur d s → (frame cur ≫= k) s = k d s.
Proof. intros (_ & _ & Hd). unfold mbind, M_bind, frame. by rewrite Hd. Qed.

Lemma run_select pre cur d s mask :
  working pre cur d s →
  ∃ l s', df_select cur mask s = (Some l, s')
          ∧ working pre l (select d mask) s'.
Proof.
  intros Hw. unfold df_select. rewrite (run_frame _ _ _ _ _ Hw).
  eexists _, _. split; [reflexivity|]. apply new_frame_working. apply Hw.
Qed.

Lemma run_setitem pre cur d s c values :
  working pre cur d s →
  ∃ s', df_setitem cur c values s = (Some (), s')
        ∧ working pre cur (set_column d c values) s'.
Proof.
  intros Hw. unfold df_setitem. rewrite (run_frame _ _ _ _ _ Hw).
  eexists. split; [reflexivity|]. destruct Hw as (Hs & Hc & Hd).
  split_and!; [by apply insert_subseteq_r|done|apply lookup_insert_eq].
Qed.

Lemma run_drop pre cur d s c :
  working pre cur d s → has_column d c = true →
  ∃ l s', df_drop cur c s = (Some l, s')
          ∧ working pre l (drop_column d c) s'.
Proof.
  intros Hw Hc. unfold df_drop. rewrite (run_frame _ _ _ _ _ Hw), Hc.
  eexists _, _. split; [reflexivity|]. apply new_frame_working. apply Hw.
Qed.

Lemma has_column_set_column d c values : has_column (set_column d c values) c = true.
Proof.
  apply bool_decide_eq_true. unfold set_column. cbn [columns].
  destruct (has_column d c) eqn:E.
  - by apply bool_decide_eq_true in E.
  - apply elem_of_app. right. by left.
Qed.

Section view_facts.
Context `{Pandas}.

Lemma year_step_computes filters :
  step_computes (λ cur, year_step cur filters) (year_view filters).
Proof.
  intros pre cur d s Hw. unfold year_step, year_view.
  destruct (years filters) as [[start_year end_year]|]; [|by exists d].
  rewrite (run_frame _ _ _ _ _ Hw).
  destruct (has_column d "Year"); [|by exists d].
  unfold mbind at 1, M_bind, lift.
  destruct (series_ge _ _) as [ge|]; [|split; [done|apply Hw]].
  unfold mbind at 1, M_bind.
  destruct (series_le _ _) as [le|]; [|split; [done|apply Hw]].
  destruct (run_select _ _ _ _ (mask_and ge le) Hw) as (l & s' & -> & Hw').
  by eexists.
Qed.

Lemma license_step_computes filters :
  step_computes (λ cur, license_step cur filters)
                (λ d, Some (license_view filters d)).
Proof.
  intros pre cur d s Hw. unfold license_step, license_view.
  destruct (license_types filters) as [[|t types]|]; try by eexists.
  rewrite (run_frame _ _ _ _ _ Hw).
  destruct (has_column d "License Designation"); [|by eexists].
  destruct (run_select _ _ _ _ (isin (CStr <$> t :: types)
              <$> series d "License Designation") Hw) as (l & s' & -> & Hw').
  by eexists.
Qed.

Lemma run_filter_by_normalized pre cur d s (mask : list cell → list bool) :
  working pre cur d s →
  ∃ l s',
    (df_setitem cur "_normalized_county" (normalized_county_values d);;
     d' ← frame cur;
     kept ← df_select cur (mask (series d' "_normalized_county"));
     df_drop kept "_normalized_county") s = (Some l, s')
    ∧ working pre l (filter_by_normalized d mask) s'.
Proof.
  intros Hw.
  destruct (run_setitem _ _ _ _ "_normalized_county"
              (normalized_county_values d) Hw) as (s1 & Hrun1 & Hw1).
  unfold mbind at 1, M_bind. rewrite Hrun1.
  rewrite (run_frame _ _ _ _ _ Hw1).
  destruct (run_select _ _ _ _
              (mask (series (set_column d "_normalized_county"
                               (normalized_county_values d))
                            "_normalized_county")) Hw1)
    as (l2 & s2 & Hrun2 & Hw2).
  unfold mbind at 1, M_bind. rewrite Hrun2.
  apply (run_drop _ _ _ _ "_normalized_county" Hw2).
  apply has_column_set_column.
Qed.

Lemma county_step_computes filters :
  step_computes (λ cur, county_step cur filters)
                (λ d, Some (county_view filters d)).
Proof.
  intros pre cur d s Hw. unfold county_step, county_view.
  destruct (counties_to_filter filters) as [cs|]; [|by eexists].
  rewrite (run_frame _ _ _ _ _ Hw).
  destruct (has_column d "County"); [|by eexists].
  destruct (run_filter_by_normalized _ _ _ _
    (fmap (isin ((λ c, cell_of_opt (normalize_county_name (CStr c))) <$> cs))) Hw)
    as (l & s' & Hrun & Hw').
  unfold normalized_county_values in Hrun. rewrite Hrun. by eexists.
Qed.

Lemma density_county_step_computes filters :
  step_computes (λ cur, density_county_step cur filters)
                (λ d, Some (density_county_view filters d)).
Proof.
  intros pre cur d s Hw. unfold density_county_step, density_county_view.
  destruct (county filters) as [c|]; [|by eexists].
  case_bool_decide; [|by eexists].
  rewrite (run_frame _ _ _ _ _ Hw).
  destruct (has_column d "County"); [|by eexists].
  destruct (run_filter_by_normalized _ _ _ _
    (λ s, series_eq_opt s (normalize_county_name (CStr c))) Hw)
    as (l & s' & Hrun & Hw').
  unfold normalized_county_values in Hrun. rewrite Hrun. by eexists.
Qed.

(** An applier copies its argument and runs its steps on the copy: what it
    returns is the view of the argument's content. *)
Lemma applier_computes (steps : loc → M loc) view s l d :
  step_computes steps view → s !! l = Some d →
  result_frame (filtered_df ← df_copy l; steps filtered_df) s = view d.
Proof.
  intros Hsteps Hd. unfold result_frame, df_copy, frame, mbind, M_bind.
  cbn beta. rewrite Hd. cbn.
  pose proof (new_frame_working s s d (reflexivity _)) as Hw.
  specialize (Hsteps s _ d _ Hw).
  destruct (steps _ _) as [[l'|] s'].
  - destruct Hsteps as (d' & -> & _ & _ & Hl). done.
  - by destruct Hsteps as [-> _].
Qed.

Lemma apply_dispensary_filters_computes s l d filters :
  s !! l = Some d →
  result_frame (apply_dispensary_filters l filters) s = dispensary_view filters d.
Proof.
  intros Hd.
  apply (applier_computes (λ cur,
    filtered_df ← year_step cur filters;
    filtered_df ← license_step filtered_df filters;
    county_step filtered_df filters)); [|done].
  exact (step_computes_bind _ _ _ _ (year_step_computes filters)
    (step_computes_bind _ _ _ _ (license_step_computes filters)
       (county_step_computes filters))).
Qed.

Lemma apply_sentiment_filters_computes s l d filters :
  s !! l = Some d →
  result_frame (apply_sentiment_filters l filters) s = sentiment_view filters d.
Proof.
  intros Hd.
  apply (applier_computes (λ cur,
    filtered_df ← year_step cur filters; county_step filtered_df filters));
    [|done].
  exact (step_computes_bind _ _ _ _ (year_step_computes filters)
           (county_step_computes filters)).
Qed.

Lemma apply_density_filters_computes s l d filters :
  s !! l = Some d →
  result_frame (apply_density_filters l filters) s = density_view filters d.
Proof.
  intros Hd.
  apply (applier_computes (λ cur,
    filtered_df ← year_step cur filters;
    density_county_step filtered_df filters)); [|done].
  exact (step_computes_bind _ _ _ _ (year_step_computes filters)
           (density_county_step_computes filters)).
Qed.

End view_facts.

(** ** The views as row filters *)

Lemma filter_rows_all (p : gmap string cell → bool) (d : DataFrame) :
  (∀ r, r ∈ rows d → p r = true) → filter_rows p d = d.
Proof.
  intros Hp. destruct d as [cs rs]. unfold filter_rows. cbn [columns rows] in *.
  f_equal. induction rs as [|r rs IH]; [done|].
  cbn [List.filter]. rewrite Hp by left. f_equal. apply IH.
  intros r' Hr'. apply Hp. by right.
Qed.

Lemma filter_filter {A} (p q : A → bool) (l : list A) :
  List.filter p (List.filter q l) = List.filter (λ x, q x && p x) l.
Proof.
  induction l as [|x l IH]; [done|]. cbn [List.filter].
  destruct (q x); cbn [List.filter andb]; [destruct (p x)|]; by rewrite IH.
Qed.

Lemma filter_rows_filter_rows p q d :
  filter_rows p (filter_rows q d) = filter_rows (λ r, q r && p r) d.
Proof. unfold filter_rows. cbn [columns rows]. by rewrite filter_filter. Qed.

Lemma select_rows (d : DataFrame) (f : gmap string cell → bool) :
  select d (f <$> rows d) = filter_rows f d.
Proof. unfold filter_rows. rewrite <- select_fmap. done. Qed.

Lemma mask_and_fmap {A} (f g : A → bool) (l : list A) :
  mask_and (f <$> l) (g <$> l) = (λ x, f x && g x) <$> l.
Proof.
  unfold mask_and. induction l as [|x l IH]; [done|].
  rewrite !fmap_cons. cbn [zip_with]. by rewrite IH.
Qed.

Lemma numeric_filter_rows p d c :
  numeric_column d c → numeric_column (filter_rows p d) c.
Proof.
  unfold numeric_column, series, filter_rows. cbn [rows].
  rewrite !Forall_fmap, !Forall_forall.
  intros Hn r [Hr _]%list_elem_of_In%filter_In. by apply Hn, list_elem_of_In.
Qed.

Lemma lacks_filter_rows p d c :
  lacks_column d c → lacks_column (filter_rows p d) c.
Proof.
  intros [Hc Hr]. split; [done|]. unfold filter_rows. cbn [rows].
  rewrite Forall_forall in *.
  intros r [Hin _]%list_elem_of_In%filter_In. by apply Hr, list_elem_of_In.
Qed.

Lemma series_cmp_numeric (p : Qc → bool) (s : list cell) :
  Forall (λ v, is_text v = false) s →
  mapM (cell_cmp p) s
  = Some ((λ c, match c with CNum q => p q | _ => false end) <$> s).
Proof.
  intros Hs. apply mapM_total. rewrite Forall_forall in Hs.
  intros c Hc%Hs. by destruct c.
Qed.

Section row_views.
Context `{Pandas}.

Lemma year_view_numeric filters d :
  numeric_column d "Year" →
  year_view filters d = Some (filter_rows (year_test filters d) d).
Proof.
  intros Hn. unfold year_view, year_test.
  destruct (years filters) as [[start_year end_year]|];
    [|by rewrite filter_rows_all].
  destruct (has_column d "Year"); [|by rewrite filter_rows_all].
  unfold series_ge, series_le. rewrite !series_cmp_numeric by done. cbn.
  unfold series. rewrite <- !list_fmap_compose, mask_and_fmap.
  f_equal. rewrite <- select_rows. f_equal. apply list_fmap_ext.
  intros _ r _. unfold year_keeps, compose. by destruct (row_cell "Year" r).
Qed.

Lemma year_view_None filters d :
  year_view filters d = None ↔
    (∃ start_year end_year, years filters = Some (start_year, end_year))
    ∧ has_column d "Year" = true
    ∧ ∃ r text, r ∈ rows d ∧ row_cell "Year" r = CStr text.
Proof.
  split.
  - intros Hv. destruct (decide (numeric_column d "Year")) as [Hn|Hn].
    { by rewrite year_view_numeric in Hv. }
    unfold year_view in Hv.
    destruct (years filters) as [[start_year end_year]|]; [|done].
    destruct (has_column d "Year"); [|done].
    split_and!; [by eauto|done|].
    unfold numeric_column, series in Hn. rewrite Forall_fmap in Hn.
    apply not_Forall_Exists in Hn; [|intros r; unfold compose; apply _].
    apply Exists_exists in Hn as (r & Hr & Ht).
    unfold compose in Ht. destruct (row_cell "Year" r) as [| |text] eqn:E;
      try done. eauto.
  - intros ((start_year & end_year & Hy) & Hc & r & text & Hr & Ht).
    unfold year_view. rewrite Hy, Hc.
    assert (series_ge (series d "Year") (Qc_of_Z start_year) = None) as ->; [|done].
    unfold series_ge. apply eq_None_not_Some. intros [k Hk%mapM_Some].
    unfold series in Hk. apply Forall2_fmap_l in Hk.
    apply list_elem_of_lookup in Hr as [i Hi].
    destruct (Forall2_lookup_l _ _ _ _ _ Hk Hi) as (b & _ & Hb).
    unfold compose in Hb. by rewrite Ht in Hb.
Qed.

Lemma license_view_rows filters d :
  license_view filters d = filter_rows (license_test filters d) d.
Proof.
  unfold license_view, license_test.
  destruct (license_types filters) as [[|t types]|];
    try by rewrite filter_rows_all.
  destruct (has_column d "License Designation"); [|by rewrite filter_rows_all].
  unfold series. by rewrite <- list_fmap_compose, select_rows.
Qed.

End row_views.

Lemma zip_with_fmap_same {A B C} (f : A → B → C) (g : A → B) (l : list A) :
  zip_with f l (g <$> l) = (λ x, f x (g x)) <$> l.
Proof.
  induction l as [|x l IH]; [done|]. rewrite !fmap_cons. cbn [zip_with].
  by rewrite IH.
Qed.

Lemma filter_inserted_column (c : string) (v : gmap string cell → cell)
    (g : cell → bool) (l : list (gmap string cell)) :
  Forall (λ r, r !! c = None) l →
  delete c <$> List.filter (λ r, g (row_cell c r)) ((λ r, <[c := v r]> r) <$> l)
  = List.filter (λ r, g (v r)) l.
Proof.
  induction 1 as [|r l Hr Hl IH]; [done|].
  rewrite fmap_cons. cbn [List.filter].
  unfold row_cell at 1. rewrite lookup_insert_eq.
  change (default CNull (Some (v r))) with (v r).
  destruct (g (v r)).
  - rewrite fmap_cons, delete_insert_eq, (delete_id _ _ Hr). by rewrite IH.
  - by rewrite IH.
Qed.

Lemma DataFrame_eq (d1 d2 : DataFrame) :
  columns d1 = columns d2 → rows d1 = rows d2 → d1 = d2.
Proof. destruct d1, d2. cbn. by intros -> ->. Qed.

Lemma rows_set_column (d : DataFrame) c (v : gmap string cell → cell) :
  rows (set_column d c (v <$> rows d)) = (λ r, <[c := v r]> r) <$> rows d.
Proof. unfold set_column. cbn [rows]. apply zip_with_fmap_same. Qed.

Section county_rows.
Context `{Pandas}.

Lemma filter_by_normalized_rows (d : DataFrame) (g : cell → bool) :
  lacks_column d temp_column →
  filter_by_normalized d (fmap g)
  = filter_rows
      (λ r, g (cell_of_opt (normalize_county_name (row_cell "County" r)))) d.
Proof.
  intros [Hc Hr]. apply DataFrame_eq.
  - unfold filter_by_normalized. cbv zeta.
    etransitivity; [apply drop_temp_columns, Hc|done].
  - unfold filter_by_normalized. cbv zeta.
    unfold normalized_county_values, series at 2.
    rewrite <- list_fmap_compose.
    unfold series. rewrite <- list_fmap_compose.
    rewrite (select_rows _ (g ∘ row_cell "_normalized_county")).
    unfold drop_column, filter_rows. cbn [rows].
    rewrite rows_set_column.
    apply (filter_inserted_column "_normalized_county"
             ((λ c, cell_of_opt (normalize_county_name c)) ∘ row_cell "County")).
    exact Hr.
Qed.

Lemma county_view_rows filters d :
  lacks_column d temp_column →
  county_view filters d = filter_rows (county_test filters d) d.
Proof.
  intros Hl. unfold county_view, county_test.
  destruct (counties_to_filter filters) as [cs|]; [|by rewrite filter_rows_all].
  destruct (has_column d "County"); [|by rewrite filter_rows_all].
  by apply filter_by_normalized_rows.
Qed.

Lemma density_county_view_rows filters d :
  lacks_column d temp_column →
  density_county_view filters d = filter_rows (density_county_test filters d) d.
Proof.
  intros Hl. unfold density_county_view, density_county_test.
  destruct (county filters) as [c|]; [|by rewrite filter_rows_all].
  case_bool_decide; [|by rewrite filter_rows_all].
  destruct (has_column d "County"); [|by rewrite filter_rows_all].
  etransitivity;
    [apply (filter_by_normalized_rows d
       (λ v, match normalize_county_name (CStr c) with
             | Some t => bool_decide (v = CStr t)
             | None => false
             end)); exact Hl|].
  apply DataFrame_eq; [done|]. apply List.filter_ext. intros r.
  destruct (normalize_county_name (CStr c)) as [t|]; [|done].
  apply bool_decide_ext.
  destruct (normalize_county_name (row_cell "County" r)); cbn; naive_solver.
Qed.

End county_rows.

Section applier_rows.
Context `{Pandas}.

Lemma has_column_filter_rows p d c :
  has_column (filter_rows p d) c = has_column d c.
Proof. done. Qed.

Lemma dispensary_view_rows filters d :
  numeric_column d "Year" → lacks_column d temp_column →
  dispensary_view filters d
  = Some (filter_rows (λ r, year_test filters d r && license_test filters d r
                            && county_test filters d r) d).
Proof.
  intros Hn Hl. unfold dispensary_view. rewrite year_view_numeric by done. cbn.
  rewrite license_view_rows, filter_rows_filter_rows.
  rewrite county_view_rows by by apply lacks_filter_rows.
  by rewrite filter_rows_filter_rows.
Qed.

Lemma sentiment_view_rows filters d :
  numeric_column d "Year" → lacks_column d temp_column →
  sentiment_view filters d
  = Some (filter_rows (λ r, year_test filters d r && county_test filters d r) d).
Proof.
  intros Hn Hl. unfold sentiment_view. rewrite year_view_numeric by done. cbn.
  rewrite county_view_rows by by apply lacks_filter_rows.
  by rewrite filter_rows_filter_rows.
Qed.

Lemma density_view_rows filters d :
  numeric_column d "Year" → lacks_column d temp_column →
  density_view filters d
  = Some (filter_rows (λ r, year_test filters d r
                            && density_county_test filters d r) d).
Proof.
  intros Hn Hl. unfold density_view. rewrite year_view_numeric by done. cbn.
  rewrite density_county_view_rows by by apply lacks_filter_rows.
  by rewrite filter_rows_filter_rows.
Qed.

Lemma filter_rows_idem p d : filter_rows p (filter_rows p d) = filter_rows p d.
Proof.
  rewrite filter_rows_filter_rows. apply DataFrame_eq; [done|].
  apply List.filter_ext. intros r. by destruct (p r).
Qed.

End applier_rows.

(** ** What the appliers return *)

(** X1.  What an applier returns depends on the content of the frame it is
    given and on the filters only: two calls on frames with the same content
    return frames with the same content (or both raise), whatever else the
    two stores hold and whichever objects the frames are. *)
Theorem appliers_depend_on_content_only `{Pandas}
    (s s' : gmap loc DataFrame) (l l' : loc) (d : DataFrame) (filters : Filters)
    (Hl : s !! l = Some d) (Hl' : s' !! l' = Some d) :
  result_frame (apply_dispensary_filters l filters) s
  = result_frame (apply_dispensary_filters l' filters) s'
  ∧ result_frame (apply_sentiment_filters l filters) s
    = result_frame (apply_sentiment_filters l' filters) s'
  ∧ result_frame (apply_density_filters l filters) s
    = result_frame (apply_density_filters l' filters) s'.
Proof.
  rewrite !(apply_dispensary_filters_computes _ _ d),
    !(apply_sentiment_filters_computes _ _ d),
    !(apply_density_filters_computes _ _ d) by done.
  done.
Qed.

Lemma appliers_depend_on_content_only_witness :
  result_frame (@apply_density_filters decimal_pandas 1%positive both_shapes)
    density_session
  = result_frame (@apply_density_filters decimal_pandas 7%positive both_shapes)
      {[ 7%positive := sample_density_data; 2%positive := population_with_text ]}.
Proof.
  assert (H1 : density_session !! 1%positive = Some sample_density_data)
    by reflexivity.
  assert (H2 : ({[ 7%positive := sample_density_data;
                   2%positive := population_with_text ]}
                  : gmap loc DataFrame) !! 7%positive = Some sample_density_data)
    by reflexivity.
  exact (proj2 (proj2 (@appliers_depend_on_content_only decimal_pandas
                         _ _ _ _ _ both_shapes H1 H2))).
Defined.

Lemma sample_density_numeric_year : numeric_column sample_density_data "Year".
Proof. unfold numeric_column. repeat constructor. Qed.

Lemma sample_density_lacks_temp : lacks_column sample_density_data temp_column.
Proof.
  split.
  - apply (bool_decide_unpack _). vm_compute. exact I.
  - repeat constructor.
Qed.

(** X2.  On a frame whose Year column holds numbers or missing values and
    that has no "_normalized_county" column, [apply_dispensary_filters]
    returns the frame with the same columns and exactly the rows that pass
    the year test, the license test and the county test, in their order; a
    test whose filter is unset, or whose column the frame lacks, passes
    every row. *)
Theorem dispensary_filters_keep_matching_rows `{Pandas}
    (s : gmap loc DataFrame) (l : loc) (d : DataFrame) (filters : Filters)
    (Hl : s !! l = Some d)
    (Hyear : numeric_column d "Year")
    (Htemp : lacks_column d temp_column) :
  result_frame (apply_dispensary_filters l filters) s
  = Some (filter_rows (λ r, year_test filters d r && license_test filters d r
                            && county_test filters d r) d).
Proof.
  rewrite (apply_dispensary_filters_computes _ _ d) by done.
  by apply dispensary_view_rows.
Qed.

Lemma dispensary_filters_keep_matching_rows_witness :
  result_frame (@apply_dispensary_filters decimal_pandas 1%positive both_shapes)
    density_session
  = Some (filter_rows
            (λ r, @year_test both_shapes sample_density_data r
                  && @license_test both_shapes sample_density_data r
                  && @county_test decimal_pandas both_shapes
                       sample_density_data r)
            sample_density_data).
Proof.
  exact (@dispensary_filters_keep_matching_rows decimal_pandas
           density_session 1%positive sample_density_data both_shapes
           eq_refl sample_density_numeric_year sample_density_lacks_temp).
Defined.

(** X3.  Under the same two conditions [apply_sentiment_filters] returns
    exactly the rows passing the year test and the list-first county test,
    and [apply_density_filters] exactly the rows passing the year test and
    the test on the scalar county, which compares the normalized county of
    the row with the normalized filter value and passes no row when that
    value is blank. *)
Theorem sentiment_and_density_filters_keep_matching_rows `{Pandas}
    (s : gmap loc DataFrame) (l : loc) (d : DataFrame) (filters : Filters)
    (Hl : s !! l = Some d)
    (Hyear : numeric_column d "Year")
    (Htemp : lacks_column d temp_column) :
  result_frame (apply_sentiment_filters l filters) s
  = Some (filter_rows (λ r, year_test filters d r && county_test filters d r) d)
  ∧ result_frame (apply_density_filters l filters) s
    = Some (filter_rows (λ r, year_test filters d r
                              && density_county_test filters d r) d).
Proof.
  rewrite (apply_sentiment_filters_computes _ _ d),
    (apply_density_filters_computes _ _ d) by done.
  split; [by apply sentiment_view_rows | by apply density_view_rows].
Qed.

Lemma sentiment_and_density_filters_keep_matching_rows_witness :
  nrows <$> result_frame
    (@apply_density_filters decimal_pandas 1%positive both_shapes)
    density_session = Some 2.
Proof.
  rewrite (proj2 (@sentiment_and_density_filters_keep_matching_rows
                    decimal_pandas density_session 1%positive
                    sample_density_data both_shapes eq_refl
                    sample_density_numeric_year sample_density_lacks_temp)).
  vm_compute. reflexivity.
Defined.

Lemma M_bind_ext {A B} (m : M A) (k1 k2 : A → M B) s :
  (∀ x s', k1 x s' = k2 x s') → (m ≫= k1) s = (m ≫= k2) s.
Proof.
  intros Hk. unfold mbind, M_bind. destruct (m s) as [[x|] s']; [apply Hk|done].
Qed.

Section applier_edges.
Context `{Pandas}.

Lemma views_None filters d :
  (dispensary_view filters d = None ↔ year_view filters d = None)
  ∧ (sentiment_view filters d = None ↔ year_view filters d = None)
  ∧ (density_view filters d = None ↔ year_view filters d = None).
Proof.
  unfold dispensary_view, sentiment_view, density_view.
  destruct (year_view filters d); cbn; naive_solver.
Qed.

Lemma county_step_same_names cur f f' cs cs' :
  counties_to_filter f = Some cs → counties_to_filter f' = Some cs' →
  (λ c, normalize_county_name (CStr c)) <$> cs
  = (λ c, normalize_county_name (CStr c)) <$> cs' →
  county_step cur f = county_step cur f'.
Proof.
  intros Hf Hf' Hn. unfold county_step. rewrite Hf, Hf'.
  assert (((λ c, cell_of_opt (normalize_county_name (CStr c))) <$> cs)
          = ((λ c, cell_of_opt (normalize_county_name (CStr c))) <$> cs')) as ->;
    [|done].
  apply (f_equal (fmap cell_of_opt)) in Hn.
  by rewrite <- !list_fmap_compose in Hn.
Qed.

Lemma suffixed_not_sentinel c c' :
  add_county_suffix (CStr c) = Some c' → c' ≠ all_counties.
Proof.
  rewrite add_county_suffix_str. intros (_ & _ & He)%suffix_text_Some ->.
  by vm_compute in He.
Qed.

Lemma suffixed_names cs cs' :
  Forall2 (λ c c', add_county_suffix (CStr c) = Some c') cs cs' →
  (λ c, normalize_county_name (CStr c)) <$> cs
  = (λ c, normalize_county_name (CStr c)) <$> cs'.
Proof.
  induction 1 as [|c c' cs cs' Hc _ IH]; [done|].
  rewrite !fmap_cons, IH. f_equal.
  rewrite <- (normalize_after_suffix (CStr c)), Hc. done.
Qed.

Lemma columns_filter_by_normalized d mask :
  columns (filter_by_normalized d mask)
  = List.filter (λ c, negb (bool_decide (c = temp_column))) (columns d).
Proof.
  unfold filter_by_normalized, drop_column, select, set_column. cbn [columns].
  destruct (has_column d "_normalized_county"); [done|].
  rewrite List.filter_app. cbn [List.filter].
  rewrite bool_decide_eq_true_2 by done. cbn [negb]. by rewrite app_nil_r.
Qed.

End applier_edges.

(** X4.  An applier raises exactly when a year range is set, the frame has a
    Year column, and some row holds text in it (the comparison with the
    bound is a [TypeError]); in every other case it returns a frame. *)
Theorem appliers_raise_on_text_year_only `{Pandas}
    (s : gmap loc DataFrame) (l : loc) (d : DataFrame) (filters : Filters)
    (Hl : s !! l = Some d) :
  let text_year :=
    (∃ start_year end_year, years filters = Some (start_year, end_year))
    ∧ has_column d "Year" = true
    ∧ ∃ r text, r ∈ rows d ∧ row_cell "Year" r = CStr text in
  (result_frame (apply_dispensary_filters l filters) s = None ↔ text_year)
  ∧ (result_frame (apply_sentiment_filters l filters) s = None ↔ text_year)
  ∧ (result_frame (apply_density_filters l filters) s = None ↔ text_year).
Proof.
  intros text_year.
  rewrite (apply_dispensary_filters_computes _ _ d),
    (apply_sentiment_filters_computes _ _ d),
    (apply_density_filters_computes _ _ d) by done.
  destruct (views_None filters d) as (H1 & H2 & H3).
  rewrite H1, H2, H3. split_and!; apply year_view_None.
Qed.

Lemma appliers_raise_on_text_year_only_witness :
  result_frame (@apply_density_filters decimal_pandas 1%positive both_shapes)
    density_session ≠ None.
Proof.
  destruct (@appliers_raise_on_text_year_only decimal_pandas density_session
              1%positive sample_density_data both_shapes eq_refl)
    as (_ & _ & Hd).
  intros Hnone. apply Hd in Hnone as ([a [b Hy]] & _). discriminate.
Defined.

(** X5.  With no year range, no license list (or an empty one) and a county
    selection that resolves to "no restriction", [apply_dispensary_filters]
    and [apply_sentiment_filters] return a frame with exactly the content of
    the input; so does [apply_density_filters] when no year range is set and
    the scalar county is absent or "All Counties". *)
Theorem unrestricted_filters_return_the_input `{Pandas}
    (s : gmap loc DataFrame) (l : loc) (d : DataFrame) (filters : Filters)
    (Hl : s !! l = Some d)
    (Hyears : years filters = None) :
  (license_types filters = None ∨ license_types filters = Some [] →
   counties_to_filter filters = None →
   result_frame (apply_dispensary_filters l filters) s = Some d)
  ∧ (counties_to_filter filters = None →
     result_frame (apply_sentiment_filters l filters) s = Some d)
  ∧ (county filters = None ∨ county filters = Some all_counties →
     result_frame (apply_density_filters l filters) s = Some d).
Proof.
  rewrite (apply_dispensary_filters_computes _ _ d),
    (apply_sentiment_filters_computes _ _ d),
    (apply_density_filters_computes _ _ d) by done.
  unfold dispensary_view, sentiment_view, density_view, year_view.
  rewrite Hyears. cbn. unfold county_view, license_view, density_county_view.
  split_and!.
  - intros [Ht|Ht] Hc; by rewrite Ht, Hc.
  - by intros ->.
  - intros [Hc|Hc]; rewrite Hc; [done|].
    by rewrite bool_decide_eq_false_2 by (by intros ?).
Qed.

Lemma unrestricted_filters_return_the_input_witness :
  result_frame (@apply_sentiment_filters decimal_pandas 1%positive sentinel_only)
    density_session = Some sample_density_data.
Proof.
  assert (H1 : density_session !! 1%positive = Some sample_density_data)
    by reflexivity.
  assert (H2 : years sentinel_only = None) by reflexivity.
  assert (H3 : counties_to_filter sentinel_only = None) by reflexivity.
  exact (proj1 (proj2 (@unrestricted_filters_return_the_input decimal_pandas
            density_session 1%positive sample_density_data sentinel_only
            H1 H2)) H3).
Defined.

(** X6.  Filtering is idempotent: on a frame whose Year column is numeric
    and that has no "_normalized_county" column, applying the same filters
    to the frame an applier returned gives that frame's content again. *)
Theorem filtering_twice_is_filtering_once `{Pandas}
    (s s' : gmap loc DataFrame) (l l' : loc) (d d' : DataFrame)
    (filters : Filters)
    (Hl : s !! l = Some d)
    (Hyear : numeric_column d "Year")
    (Htemp : lacks_column d temp_column)
    (Hl' : s' !! l' = Some d') :
  (result_frame (apply_dispensary_filters l filters) s = Some d' →
   result_frame (apply_dispensary_filters l' filters) s' = Some d')
  ∧ (result_frame (apply_sentiment_filters l filters) s = Some d' →
     result_frame (apply_sentiment_filters l' filters) s' = Some d')
  ∧ (result_frame (apply_density_filters l filters) s = Some d' →
     result_frame (apply_density_filters l' filters) s' = Some d').
Proof.
  rewrite (apply_dispensary_filters_computes _ _ d),
    (apply_sentiment_filters_computes _ _ d),
    (apply_density_filters_computes _ _ d) by done.
  rewrite (apply_dispensary_filters_computes _ _ d'),
    (apply_sentiment_filters_computes _ _ d'),
    (apply_density_filters_computes _ _ d') by done.
  rewrite dispensary_view_rows, sentiment_view_rows, density_view_rows by done.
  split_and!; intros [= <-].
  - rewrite dispensary_view_rows
      by (by apply numeric_filter_rows || by apply lacks_filter_rows).
    f_equal. apply filter_rows_idem.
  - rewrite sentiment_view_rows
      by (by apply numeric_filter_rows || by apply lacks_filter_rows).
    f_equal. apply filter_rows_idem.
  - rewrite density_view_rows
      by (by apply numeric_filter_rows || by apply lacks_filter_rows).
    f_equal. apply filter_rows_idem.
Qed.

Lemma filtering_twice_is_filtering_once_witness :
  let d' := filter_rows (year_keeps 2020 2020) sample_density_data in
  nrows d' = 3
  ∧ result_frame (@apply_density_filters decimal_pandas 1%positive only_2020)
      {[ 1%positive := d' ]} = Some d'.
Proof.
  intros d'. split; [reflexivity|].
  assert (H1 : density_session !! 1%positive = Some sample_density_data)
    by reflexivity.
  assert (H2 : ({[ 1%positive := d' ]} : gmap loc DataFrame) !! 1%positive
               = Some d') by reflexivity.
  assert (H3 : result_frame
                 (@apply_density_filters decimal_pandas 1%positive only_2020)
                 density_session = Some d') by (vm_compute; reflexivity).
  exact (proj2 (proj2 (@filtering_twice_is_filtering_once decimal_pandas
           density_session _ 1%positive 1%positive sample_density_data d'
           only_2020 H1 sample_density_numeric_year sample_density_lacks_temp
           H2)) H3).
Defined.

(** X7.  The county filter does not depend on whether the selected names
    carry the " County" suffix: replacing each name of a county list (not
    containing "All Counties") by what [add_county_suffix] makes of it
    leaves [apply_dispensary_filters] and [apply_sentiment_filters]
    unchanged, on every store. *)
Theorem county_filter_ignores_suffix_of_selection `{Pandas}
    (l : loc) (filters : Filters) (c c' : string) (cs cs' : list string)
    (Hlist : counties filters = Some (c :: cs))
    (Hsentinel : all_counties ∉ c :: cs)
    (Hsuffixed : Forall2 (λ x x', add_county_suffix (CStr x) = Some x')
                         (c :: cs) (c' :: cs')) :
  let suffixed :=
    {| years := years filters; license_types := license_types filters;
       counties := Some (c' :: cs'); county := county filters |} in
  ∀ s : gmap loc DataFrame,
    apply_dispensary_filters l suffixed s = apply_dispensary_filters l filters s
    ∧ apply_sentiment_filters l suffixed s = apply_sentiment_filters l filters s.
Proof.
  intros suffixed.
  assert (Hstep : ∀ cur, county_step cur suffixed = county_step cur filters).
  { intros cur. symmetry.
    apply (county_step_same_names cur filters suffixed (c :: cs) (c' :: cs')).
    - rewrite (counties_to_filter_list_first _ _ _ Hlist).
      by rewrite bool_decide_eq_true_2.
    - rewrite (counties_to_filter_list_first suffixed c' cs' eq_refl).
      rewrite bool_decide_eq_true_2; [done|].
      intros Hin. apply list_elem_of_lookup in Hin as [i Hi].
      destruct (Forall2_lookup_r _ _ _ _ _ Hsuffixed Hi) as (x & _ & Hx).
      by apply suffixed_not_sentinel in Hx.
    - by apply suffixed_names. }
  intros s. unfold apply_dispensary_filters, apply_sentiment_filters.
  split.
  - apply M_bind_ext. intros l0 s0.
    change (year_step l0 suffixed) with (year_step l0 filters).
    apply M_bind_ext. intros l1 s1.
    change (license_step l1 suffixed) with (license_step l1 filters).
    apply M_bind_ext. intros l2 s2. by rewrite Hstep.
  - apply M_bind_ext. intros l0 s0.
    change (year_step l0 suffixed) with (year_step l0 filters).
    apply M_bind_ext. intros l1 s1. by rewrite Hstep.
Qed.

Lemma county_filter_ignores_suffix_of_selection_witness :
  @apply_sentiment_filters decimal_pandas 1%positive
    {| years := None; license_types := None;
       counties := Some ["Los Angeles County"];
       county := Some "San Diego County" |} density_session
  = @apply_sentiment_filters decimal_pandas 1%positive
      {| years := None; license_types := None;
         counties := Some ["Los Angeles"];
         county := Some "San Diego County" |} density_session.
Proof.
  set (bare := {| years := None; license_types := None;
                  counties := Some ["Los Angeles"];
                  county := Some "San Diego County" |}).
  assert (H1 : counties bare = Some ["Los Angeles"]) by reflexivity.
  assert (H2 : all_counties ∉ ["Los Angeles"]).
  { apply (bool_decide_unpack _). vm_compute. exact I. }
  assert (H3 : Forall2 (λ x x', @add_county_suffix decimal_pandas (CStr x)
                                = Some x')
                 ["Los Angeles"] ["Los Angeles County"]).
  { repeat constructor. }
  exact (proj2 (@county_filter_ignores_suffix_of_selection decimal_pandas
           1%positive bare _ _ _ _ H1 H2 H3 density_session)).
Defined.

(** X8.  When a county restriction applies to a frame that has a County
    column, the frame returned has the columns of the input without any
    "_normalized_county" column: a column of that name in the input is
    overwritten by the step and does not survive it. *)
Theorem county_filter_drops_a_normalized_county_column `{Pandas}
    (s : gmap loc DataFrame) (l : loc) (d d' : DataFrame) (filters : Filters)
    (cs : list string)
    (Hl : s !! l = Some d)
    (Hrestricted : counties_to_filter filters = Some cs)
    (Hcounty : has_column d "County" = true)
    (Hresult : result_frame (apply_sentiment_filters l filters) s = Some d') :
  columns d'
  = List.filter (λ c, negb (bool_decide (c = temp_column))) (columns d).
Proof.
  rewrite (apply_sentiment_filters_computes _ _ d) in Hresult by done.
  unfold sentiment_view in Hresult.
  destruct (year_view filters d) as [d1|] eqn:Hy; [|done].
  injection Hresult as <-.
  assert (Hcols : columns d1 = columns d).
  { unfold year_view in Hy. destruct (years filters) as [[a b]|]; [|by injection Hy as <-].
    destruct (has_column d "Year"); [|by injection Hy as <-].
    destruct (series_ge _ _); [|done]. destruct (series_le _ _); [|done].
    by injection Hy as <-. }
  unfold county_view. rewrite Hrestricted.
  unfold has_column in *. rewrite Hcols, Hcounty.
  by rewrite columns_filter_by_normalized, Hcols.
Qed.

Lemma county_filter_drops_a_normalized_county_column_witness :
  ∃ d', result_frame (@apply_sentiment_filters decimal_pandas 1%positive napa_only)
          {[ 1%positive := with_normalized_column ]} = Some d'
        ∧ columns d' = ["County"; "Year"] ∧ nrows d' = 1.
Proof.
  destruct (result_frame (@apply_sentiment_filters decimal_pandas 1%positive
                            napa_only) {[ 1%positive := with_normalized_column ]})
    as [d'|] eqn:Hr; [|by vm_compute in Hr].
  exists d'. split; [done|]. split.
  - assert (H1 : ({[ 1%positive := with_normalized_column ]}
                    : gmap loc DataFrame) !! 1%positive
                 = Some with_normalized_column) by reflexivity.
    assert (H2 : counties_to_filter napa_only = Some ["Napa"]) by reflexivity.
    assert (H3 : has_column with_normalized_column "County" = true)
      by reflexivity.
    rewrite (@county_filter_drops_a_normalized_county_column decimal_pandas
               _ 1%positive with_normalized_column d' napa_only ["Napa"]
               H1 H2 H3 Hr).
    reflexivity.
  - vm_compute in Hr. by injection Hr as <-.
Defined.

(** ** The filter summary *)

Example filter_summary_cases :
  @get_filter_summary decimal_pandas no_filters = Some "No filters applied"
  ∧ @get_filter_summary decimal_pandas
      {| years := Some (2020, 2023)%Z; county := Some "Los Angeles County";
         license_types := None; counties := None |}
    = Some "Showing data for 2020-2023, Los Angeles"
  ∧ @get_filter_summary decimal_pandas
      {| years := Some (2020, 2020)%Z; county := None;
         license_types := Some ["Adult-Use"; "Medicinal"];
         counties := Some ["Los Angeles County"; "San Diego County"] |}
    = Some "Showing data for year 2020, 2 counties, 2 license types"
  ∧ @get_filter_summary decimal_pandas
      {| years := None; county := None;
         license_types :=
           Some ["Adult-Use"; "Medicinal"; "Adult-Use and Medicinal"];
         counties := Some ["All Counties"] |}
    = Some "Showing data for all counties, all license types"
  ∧ @get_filter_summary decimal_pandas blank_county = None.
Proof. split_and!; vm_compute; reflexivity. Qed.

Section summary_facts.
Context `{Pandas}.

Lemma summary_years_spec filters :
(None ∉ summary_years filters)
  ∧ (summary_years filters = [] ↔ years filters = None).
Proof.
  unfold summary_years. destruct (years filters) as [[a b]|].
  - case_bool_decide; (split; [|done]); by intros [[=]|[]%elem_of_nil]%elem_of_cons.
  - split; [apply not_elem_of_nil|done].
Qed.

Lemma summary_license_types_spec filters :
(None ∉ summary_license_types filters)
  ∧ (summary_license_types filters = []
     ↔ license_types filters = None ∨ license_types filters = Some []).
Proof.
  unfold summary_license_types.
  destruct (license_types filters) as [[|t [|t' ts]]|].
  - split; [apply not_elem_of_nil|naive_solver].
  - case_bool_decide; (split; [|naive_solver]);
      by intros [[=]|[]%elem_of_nil]%elem_of_cons.
  - case_bool_decide; (split; [|naive_solver]);
      by intros [[=]|[]%elem_of_nil]%elem_of_cons.
  - split; [apply not_elem_of_nil|naive_solver].
Qed.

Lemma summary_counties_spec filters :
  (None ∈ summary_counties filters
   ↔ ∃ c, shown_county filters = Some c ∧ normalize_county_name (CStr c) = None)
  ∧ (summary_counties filters = []
     ↔ (counties filters = None ∨ counties filters = Some [])
       ∧ county filters = None).
Proof.
  unfold summary_counties, shown_county.
  destruct (counties filters) as [[|c [|c' cs]]|].
  1,4: destruct (county filters) as [c0|];
      [case_bool_decide|]; (split; [|naive_solver]);
      rewrite ?elem_of_cons, ?elem_of_nil; naive_solver.
  - case_bool_decide; (split; [|naive_solver]);
      cbn; rewrite ?elem_of_cons, ?elem_of_nil; naive_solver.
  - case_bool_decide; (split; [|naive_solver]);
      cbn; rewrite ?elem_of_cons, ?elem_of_nil; naive_solver.
Qed.

Lemma join_parts_None sep parts : join_parts sep parts = None ↔ None ∈ parts.
Proof.
  unfold join_parts. rewrite fmap_None.
  induction parts as [|[p|] parts IH]; cbn.
  - split; [done|by intros ?%elem_of_nil].
  - rewrite elem_of_cons. destruct (mapM id parts) eqn:E; cbn.
    + split; [done|]. intros [[=]|Hin]. by apply IH in Hin.
    + split; [|done]. intros _. right. by apply IH.
  - split; [|done]. intros _. by left.
Qed.

End summary_facts.

(** X9.  [get_filter_summary] answers "No filters applied" exactly when no
    dimension holds anything (no year range, no county list or an empty
    one, no scalar county, no license list or an empty one); every other
    answer starts with "Showing data for ".  In particular the answer is
    never "No filters applied" when [has_active_filters] is true. *)
Theorem filter_summary_no_filters_iff `{Pandas} (filters : Filters) :
  (get_filter_summary filters = Some "No filters applied"
   ↔ nothing_selected filters)
  ∧ (∀ text, get_filter_summary filters = Some text →
       text = "No filters applied"
       ∨ ∃ rest, text = "Showing data for " +:+ rest)
  ∧ (has_active_filters filters = true →
     get_filter_summary filters ≠ Some "No filters applied").
Proof.
  assert (Hiff : get_filter_summary filters = Some "No filters applied"
                 ↔ nothing_selected filters).
  { unfold get_filter_summary, nothing_selected. cbv zeta.
    destruct (summary_years_spec filters) as [_ Hy].
    destruct (summary_counties_spec filters) as [_ Hc].
    destruct (summary_license_types_spec filters) as [_ Ht].
    destruct (summary_years filters ++ summary_counties filters
              ++ summary_license_types filters) as [|p parts] eqn:E.
    - apply app_eq_nil in E as [E1 [E2 E3]%app_eq_nil]. naive_solver.
    - split.
      + destruct (join_parts ", " (p :: parts)); [|done]. by intros [=].
      + intros (H1 & H2 & H3 & H4).
        rewrite (proj2 Hy H1), (proj2 Hc (conj H2 H3)), (proj2 Ht H4) in E.
        done. }
  split_and!; [exact Hiff| |].
  - intros text. unfold get_filter_summary. cbv zeta.
    destruct (_ ++ _) as [|p parts]; [intros [= <-]; by left|].
    destruct (join_parts ", " (p :: parts)) as [rest|]; [|done].
    intros [= <-]. right. by exists rest.
  - intros Hactive Hsummary. apply Hiff in Hsummary as (H1 & H2 & H3 & H4).
    unfold has_active_filters in Hactive. rewrite H1, H3 in Hactive.
    destruct H2 as [H2|H2], H4 as [H4|H4]; by rewrite H2, H4 in Hactive.
Qed.

(** X10.  [get_filter_summary] raises exactly when the one county it would
    print normalizes to nothing: the single entry of a county list without
    "All Counties", or, without a non-empty list, a scalar county other than
    "All Counties", that is empty or blank.  [", ".join] then meets [None].
    In every other case it returns a text. *)
Theorem filter_summary_raises_on_blank_county `{Pandas} (filters : Filters) :
  get_filter_summary filters = None
  ↔ ∃ c, shown_county filters = Some c
         ∧ normalize_county_name (CStr c) = None.
Proof.
  destruct (summary_years_spec filters) as [Hy _].
  destruct (summary_license_types_spec filters) as [Ht _].
  destruct (summary_counties_spec filters) as [Hc _]. rewrite <- Hc.
  unfold get_filter_summary. cbv zeta.
  destruct (summary_years filters ++ summary_counties filters
            ++ summary_license_types filters) as [|p parts] eqn:E.
  - apply app_eq_nil in E as [_ [-> _]%app_eq_nil].
    split; [done|by intros ?%elem_of_nil].
  - rewrite <- E. transitivity (None ∈ summary_years filters
       ++ summary_counties filters ++ summary_license_types filters).
    + rewrite <- (join_parts_None ", ").
      destruct (join_parts _ _); cbn; split; done.
    + rewrite !elem_of_app. naive_solver.
Qed.

(** ** Validation: what the verdicts mean *)

Lemma filter_nil_Forall {A} (f : A → bool) (l : list A) :
  List.filter f l = [] ↔ Forall (λ x, f x = false) l.
Proof.
  induction l as [|x l IH]; cbn [List.filter].
  - split; [constructor|done].
  - destruct (f x) eqn:E.
    + split; [done|]. intros Hf. apply Forall_cons in Hf as [Hx _]. congruence.
    + rewrite IH. split; [by constructor|]. by intros [_ ?]%Forall_cons.
Qed.

Section verdicts.
Context `{Pandas}.

Lemma range_violation_iff column min_value max_value r :
  range_violation column min_value max_value r = true
  ↔ out_of_range min_value max_value (row_cell column r).
Proof.
  unfold range_violation, out_of_range, num_lt, num_gt.
  destruct (to_numeric (row_cell column r)) as [q|].
  - rewrite orb_true_iff. split.
    + intros [Hlt|Hgt]; exists q; (split; [done|]).
      * left. destruct min_value as [m|]; [|done].
        apply bool_decide_eq_true in Hlt. eauto.
      * right. destruct max_value as [m|]; [|done].
        apply bool_decide_eq_true in Hgt. eauto.
    + intros (q' & [= <-] & [(m & -> & Hm)|(m & -> & Hm)]).
      * left. by apply bool_decide_eq_true.
      * right. by apply bool_decide_eq_true.
  - split; [by destruct min_value, max_value|]. by intros (q & [=] & _).
Qed.

Lemma validate_range_fields df column min_value max_value name :
  has_column df column = true →
  let r := validate_range df column min_value max_value name in
  let bad := List.filter (range_violation column min_value max_value) (rows df) in
  is_valid r = bool_decide (bad = [])
  ∧ invalid_count r = length bad
  ∧ invalid_values r = take 5 (row_cell column <$> bad).
Proof.
  intros Hc. cbv zeta. unfold validate_range. rewrite Hc. cbn [negb].
  pose proof (range_mask df column min_value max_value) as Hm.
  destruct min_value, max_value; cbv zeta in *; cbn match in *; rewrite Hm;
    rewrite !mask_sum_fmap, !series_select;
    (destruct (List.filter _ (rows df)) as [|b bad]; [done|]);
    rewrite (bool_decide_eq_true_2 (0 < length (b :: bad))) by (cbn; lia);
    done.
Qed.

Lemma validate_positive_numeric_fields df column allow_zero name :
  has_column df column = true →
  let r := validate_positive_numeric df column allow_zero name in
  let bad := List.filter (positive_violation column allow_zero) (rows df) in
  is_valid r = bool_decide (bad = [])
  ∧ invalid_count r = length bad
  ∧ invalid_values r = take 5 (row_cell column <$> bad).
Proof.
  intros Hc. cbv zeta. unfold validate_positive_numeric. rewrite Hc. cbn [negb].
  pose proof (positive_mask df column allow_zero) as Hm.
  destruct allow_zero; cbv zeta; cbn match; rewrite Hm;
    rewrite !mask_sum_fmap, !series_select;
    (destruct (List.filter _ (rows df)) as [|b bad]; [done|]);
    rewrite (bool_decide_eq_true_2 (0 < length (b :: bad))) by (cbn; lia);
    done.
Qed.

End verdicts.

Section verdict_iff.
Context `{Pandas}.

Lemma validate_range_column df col min_value max_value name :
  column (validate_range df col min_value max_value name) = col.
Proof.
  unfold validate_range. destruct (negb (has_column df col)); [done|].
  destruct min_value, max_value; cbv zeta;
    by destruct (bool_decide (0 < mask_sum _)).
Qed.

Lemma validate_positive_numeric_column df col allow_zero name :
  column (validate_positive_numeric df col allow_zero name) = col.
Proof.
  unfold validate_positive_numeric. destruct (negb (has_column df col)); [done|].
  destruct allow_zero; cbv zeta; by destruct (bool_decide (0 < mask_sum _)).
Qed.

Lemma validate_range_valid_iff df column min_value max_value name :
  is_valid (validate_range df column min_value max_value name) = true
  ↔ column ∈ columns df
    ∧ Forall (λ v, ¬ out_of_range min_value max_value v) (series df column).
Proof.
  destruct (has_column df column) eqn:Hc.
  - destruct (validate_range_fields df column min_value max_value name Hc)
      as (Hv & _).
    rewrite Hv, bool_decide_eq_true, filter_nil_Forall.
    apply bool_decide_eq_true in Hc.
    unfold series. rewrite Forall_fmap. split.
    + intros HF. split; [done|]. eapply Forall_impl; [exact HF|]. intros row.
      unfold compose. rewrite <- range_violation_iff.
      by destruct (range_violation _ _ _ row).
    + intros [_ HF]. eapply Forall_impl; [exact HF|]. intros row.
      unfold compose. rewrite <- range_violation_iff.
      by destruct (range_violation _ _ _ row).
  - unfold validate_range. rewrite Hc. cbn.
    apply bool_decide_eq_false in Hc. naive_solver.
Qed.

Lemma validate_positive_numeric_valid_iff df column allow_zero name :
  is_valid (validate_positive_numeric df column allow_zero name) = true
  ↔ column ∈ columns df
    ∧ Forall (λ v, ∀ q, to_numeric v = Some q →
                     if allow_zero then (0 ≤ q)%Qc else (0 < q)%Qc)
             (series df column).
Proof.
  destruct (has_column df column) eqn:Hc.
  - destruct (validate_positive_numeric_fields df column allow_zero name Hc)
      as (Hv & _).
    rewrite Hv, bool_decide_eq_true, filter_nil_Forall.
    apply bool_decide_eq_true in Hc.
    assert (Hrow : ∀ row,
      positive_violation column allow_zero row = false
      ↔ ∀ q, to_numeric (row_cell column row) = Some q →
             if allow_zero then (0 ≤ q)%Qc else (0 < q)%Qc).
    { intros row. unfold positive_violation, num_lt, num_le.
      destruct (to_numeric (row_cell column row)) as [q|].
      - destruct allow_zero; rewrite bool_decide_eq_false; split.
        + intros Hq q' [= <-]. by apply Qcnot_lt_le.
        + intros Hq. apply Qcle_not_lt. by apply Hq.
        + intros Hq q' [= <-]. by apply Qcnot_le_lt.
        + intros Hq. apply Qclt_not_le. by apply Hq.
      - by destruct allow_zero. }
    unfold series. rewrite Forall_fmap. split.
    + intros HF. split; [done|]. eapply Forall_impl; [exact HF|]. intros row.
      unfold compose. apply Hrow.
    + intros [_ HF]. eapply Forall_impl; [exact HF|]. intros row.
      unfold compose. apply Hrow.
  - unfold validate_positive_numeric. rewrite Hc. cbn.
    apply bool_decide_eq_false in Hc. naive_solver.
Qed.

End verdict_iff.

Lemma filter_length_mono {A} (f g : A → bool) (l : list A) :
  (∀ x, f x = true → g x = true) →
  length (List.filter f l) ≤ length (List.filter g l).
Proof.
  intros Himp. induction l as [|x l IH]; [done|]. cbn [List.filter].
  specialize (Himp x). destruct (f x).
  - rewrite Himp by done. cbn [length]. lia.
  - destruct (g x); cbn [length]; lia.
Qed.

(** X11.  For a column the frame has, [validate_range] passes exactly when
    no value of the column reads as a number below the minimum or above the
    maximum; [invalid_count] is the number of rows with such a value, and
    [invalid_values] holds the raw values of the first five of them, in row
    order. *)
Theorem validate_range_verdict `{Pandas}
    (df : DataFrame) (column : string) (min_value max_value : option Qc)
    (name : option string)
    (Hcolumn : column ∈ columns df) :
  let r := validate_range df column min_value max_value name in
  let bad := List.filter (range_violation column min_value max_value) (rows df) in
  (∀ row, row ∈ bad ↔ row ∈ rows df
                      ∧ out_of_range min_value max_value (row_cell column row))
  ∧ (is_valid r = true
     ↔ Forall (λ v, ¬ out_of_range min_value max_value v) (series df column))
  ∧ invalid_count r = length bad
  ∧ invalid_values r = take 5 (row_cell column <$> bad).
Proof.
  intros r bad.
  destruct (validate_range_fields df column min_value max_value name)
    as (Hv & Hn & Hs); [by apply bool_decide_eq_true|].
  split_and!; [|..|exact Hn|exact Hs].
  - intros row. subst bad.
    rewrite !list_elem_of_In, filter_In, range_violation_iff. done.
  - subst r. rewrite Hv, bool_decide_eq_true, filter_nil_Forall.
    unfold series. rewrite Forall_fmap. apply Forall_iff. intros row.
    unfold compose. rewrite <- range_violation_iff.
    by destruct (range_violation _ _ _ row).
Qed.

Lemma validate_range_verdict_witness :
  invalid_count (@validate_range decimal_pandas sample_density_data "Year"
                   (Some (Qc_of_Z 2021)) (Some (Qc_of_Z 2021)) None) = 4.
Proof.
  assert (H1 : "Year" ∈ columns sample_density_data).
  { apply (bool_decide_unpack _). vm_compute. exact I. }
  destruct (@validate_range_verdict decimal_pandas sample_density_data "Year"
              (Some (Qc_of_Z 2021)) (Some (Qc_of_Z 2021)) None H1)
    as (_ & _ & -> & _).
  vm_compute. reflexivity.
Defined.

(** X12.  For a column the frame has, [validate_positive_numeric] passes
    exactly when no value reads as a number below zero (or, with
    [allow_zero] false, not above zero), counts the rows that do and samples
    the first five.  With [allow_zero] true it agrees with [validate_range]
    with minimum 0 and no maximum on verdict, count and sample; with
    [allow_zero] false it never flags fewer rows. *)
Theorem validate_positive_numeric_verdict `{Pandas}
    (df : DataFrame) (column : string) (allow_zero : bool)
    (name name' : option string)
    (Hcolumn : column ∈ columns df) :
  let r := validate_positive_numeric df column allow_zero name in
  (is_valid r = true
   ↔ Forall (λ v, ∀ q, to_numeric v = Some q →
                    if allow_zero then (0 ≤ q)%Qc else (0 < q)%Qc)
            (series df column))
  ∧ invalid_count r
    = length (List.filter (positive_violation column allow_zero) (rows df))
  ∧ invalid_values r
    = take 5 (row_cell column
              <$> List.filter (positive_violation column allow_zero) (rows df))
  ∧ (let r0 := validate_positive_numeric df column true name in
     let rr := validate_range df column (Some 0%Qc) None name' in
     is_valid r0 = is_valid rr ∧ invalid_count r0 = invalid_count rr
     ∧ invalid_values r0 = invalid_values rr)
  ∧ invalid_count (validate_positive_numeric df column true name)
    ≤ invalid_count (validate_positive_numeric df column false name).
Proof.
  intros r.
  assert (Hc : has_column df column = true) by (by apply bool_decide_eq_true).
  clear Hcolumn. rename Hc into Hcolumn.
  destruct (validate_positive_numeric_fields df column allow_zero name Hcolumn)
    as (Hv & Hn & Hs).
  destruct (validate_positive_numeric_fields df column true name Hcolumn)
    as (Hv1 & Hn1 & Hs1).
  destruct (validate_positive_numeric_fields df column false name Hcolumn)
    as (Hv0 & Hn0 & Hs0).
  destruct (validate_range_fields df column (Some 0%Qc) None name' Hcolumn)
    as (Hvr & Hnr & Hsr).
  assert (Hsame : List.filter (positive_violation column true) (rows df)
                  = List.filter (range_violation column (Some 0%Qc) None) (rows df)).
  { apply List.filter_ext. intros row.
    unfold positive_violation, range_violation. by rewrite orb_false_r. }
  split_and!; [|exact Hn|exact Hs| |].
  - subst r. rewrite Hv, bool_decide_eq_true, filter_nil_Forall.
    unfold series. rewrite Forall_fmap. apply Forall_iff. intros row.
    unfold compose, positive_violation, num_lt, num_le.
    destruct (to_numeric (row_cell column row)) as [q|].
    + destruct allow_zero; rewrite bool_decide_eq_false; split.
      * intros Hq q' [= <-]. by apply Qcnot_lt_le.
      * intros Hq. apply Qcle_not_lt. by apply Hq.
      * intros Hq q' [= <-]. by apply Qcnot_le_lt.
      * intros Hq. apply Qclt_not_le. by apply Hq.
    + by destruct allow_zero.
  - cbv zeta. rewrite Hv1, Hn1, Hs1, Hvr, Hnr, Hsr, Hsame. done.
  - rewrite Hn1, Hn0. apply filter_length_mono. intros row.
    unfold positive_violation, num_lt, num_le.
    destruct (to_numeric (row_cell column row)) as [q|]; [|done].
    rewrite !bool_decide_eq_true. apply Qclt_le_weak.
Qed.

Lemma validate_positive_numeric_verdict_witness :
  invalid_count (@validate_positive_numeric decimal_pandas population_with_text
                   "Population" true None) = 1
  ∧ invalid_values (@validate_positive_numeric decimal_pandas
                      population_with_text "Population" true None)
    = [CNum (Qc_of_Z (-5))].
Proof.
  assert (H1 : "Population" ∈ columns population_with_text).
  { apply (bool_decide_unpack _). vm_compute. exact I. }
  destruct (@validate_positive_numeric_verdict decimal_pandas
              population_with_text "Population" true None None H1)
    as (_ & -> & -> & _).
  split; vm_compute; reflexivity.
Defined.

Section batch_facts.
Context `{Pandas}.

Lemma validate_dataset_step_config current_year df all_valid results cfg :
  validate_dataset_step current_year df (all_valid, results) cfg
  = (all_valid && is_valid (validate_config current_year df cfg),
     results ++ [validate_config current_year df cfg]).
Proof.
  unfold validate_dataset_step, validate_config.
  destruct (cfg_column cfg) as [col|]; [|by rewrite andb_false_r].
  destruct (PyStr.is_empty col); [by rewrite andb_false_r|].
  destruct (is_valid (route_validation current_year df cfg col)); cbn;
    by rewrite ?andb_true_r, ?andb_false_r.
Qed.

Lemma validate_dataset_fold current_year df validations all_valid results :
  fold_left (validate_dataset_step current_year df) validations
            (all_valid, results)
  = (all_valid
     && forallb is_valid (validate_config current_year df <$> validations),
     results ++ (validate_config current_year df <$> validations)).
Proof.
  revert all_valid results.
  induction validations as [|cfg vs IH]; intros all_valid results.
  - cbn. by rewrite andb_true_r, app_nil_r.
  - cbn [fold_left]. rewrite validate_dataset_step_config, IH, fmap_cons.
    cbn [forallb]. by rewrite <- app_assoc, andb_assoc.
Qed.

Lemma validate_dataset_unfold current_year df dataset_name validations :
  validate_dataset current_year df dataset_name validations
  = (forallb is_valid (validate_config current_year df <$> validations),
     validate_config current_year df <$> validations).
Proof. unfold validate_dataset. by rewrite validate_dataset_fold. Qed.

Lemma route_validation_column current_year df cfg col :
  column (route_validation current_year df cfg col) = col.
Proof.
  unfold route_validation, validate_year_column, validate_sentiment_score,
    validate_percentage.
  repeat case_bool_decide;
    auto using validate_range_column, validate_positive_numeric_column.
Qed.

Lemma route_validation_missing_column current_year df cfg col :
  col ∉ columns df →
  is_valid (route_validation current_year df cfg col) = false.
Proof.
  intros Hcol. apply not_true_is_false.
  unfold route_validation, validate_year_column, validate_sentiment_score,
    validate_percentage.
  repeat case_bool_decide;
    rewrite ?validate_range_valid_iff, ?validate_positive_numeric_valid_iff;
    naive_solver.
Qed.

End batch_facts.

(** X13.  [validate_dataset] returns one result per configuration, in the
    order of the configurations, each filed under the configuration's
    column (or "unknown" when it names none); the flag is true exactly when
    every result passed, so the empty list of configurations is valid. *)
Theorem validate_dataset_one_result_per_configuration `{Pandas}
    (current_year : Z) (df : DataFrame) (dataset_name : string)
    (validations : list ValidationConfig) :
  let out := validate_dataset current_year df dataset_name validations in
  length out.2 = length validations
  ∧ column <$> out.2 = reported_column <$> validations
  ∧ (out.1 = true ↔ Forall (λ r, is_valid r = true) out.2)
  ∧ (∀ more, (validate_dataset current_year df dataset_name
                (validations ++ more)).2
             = out.2 ++ (validate_dataset current_year df dataset_name more).2).
Proof.
  cbv zeta. rewrite validate_dataset_unfold. cbn [fst snd]. split_and!.
  - by rewrite length_fmap.
  - rewrite <- list_fmap_compose. apply list_fmap_ext. intros _ cfg _.
    unfold compose, validate_config, reported_column.
    destruct (cfg_column cfg) as [col|]; [|done].
    destruct (PyStr.is_empty col); [done|]. apply route_validation_column.
  - rewrite forallb_forall, Forall_forall. split; intros Hall r Hr.
    + apply Hall. by apply list_elem_of_In.
    + apply Hall. by apply list_elem_of_In.
  - intros more. rewrite !validate_dataset_unfold. cbn [snd].
    by rewrite fmap_app.
Qed.

(** X14.  One bad configuration fails the whole dataset, whatever the other
    configurations and the data are: a configuration that names no column
    (missing or empty), one whose column the frame lacks, or one whose type
    is none of the five known ones. *)
Theorem validate_dataset_fails_on_bad_configuration `{Pandas}
    (current_year : Z) (df : DataFrame) (dataset_name : string)
    (validations : list ValidationConfig) (cfg : ValidationConfig)
    (Hcfg : cfg ∈ validations)
    (Hbad : cfg_column cfg = None
            ∨ cfg_column cfg = Some ""
            ∨ (∃ col, cfg_column cfg = Some col ∧ col ∉ columns df)
            ∨ (∀ t, cfg_type cfg = Some t → t ∉ known_types)) :
  (validate_dataset current_year df dataset_name validations).1 = false.
Proof.
  rewrite validate_dataset_unfold. cbn [fst]. apply not_true_is_false.
  rewrite forallb_forall. intros Hall.
  specialize (Hall (validate_config current_year df cfg)).
  assert (Hin : In (validate_config current_year df cfg)
                   (validate_config current_year df <$> validations)).
  { apply list_elem_of_In, list_elem_of_fmap. by exists cfg. }
  specialize (Hall Hin). clear Hin Hcfg. revert Hall.
  unfold validate_config.
  destruct (cfg_column cfg) as [col|] eqn:Hcol; [|done].
  destruct (PyStr.is_empty col) eqn:Hempty; [done|].
  destruct Hbad as [?|[Hb|[(col' & Hb & Hlack)|Hb]]]; [done|..].
  - injection Hb as ->. done.
  - injection Hb as <-. by rewrite route_validation_missing_column.
  - unfold route_validation, known_types in *.
    repeat case_bool_decide; try done;
      match goal with Ht : cfg_type cfg = Some ?t |- _ =>
        exfalso; apply (Hb t Ht); set_solver end.
Qed.

Lemma validate_dataset_fails_on_bad_configuration_witness :
  (@validate_dataset decimal_pandas 2024 sample_density_data "Density"
     (density_validations ++ [unknown_type_config])).1 = false.
Proof.
  apply (@validate_dataset_fails_on_bad_configuration decimal_pandas 2024
           sample_density_data "Density"
           (density_validations ++ [unknown_type_config]) unknown_type_config).
  - apply elem_of_app. right. apply list_elem_of_singleton. reflexivity.
  - right. right. right. intros t [= <-].
    apply (bool_decide_unpack _). vm_compute. exact I.
Defined.

Section all_datasets_facts.
Context `{Pandas}.

Lemma validate_all_datasets_dispensaries current_year data_dict :
  validate_all_datasets current_year data_dict !! "dispensaries"
  = (λ df, validate_dataset current_year df "Dispensaries"
             dispensaries_validations) <$> data_dict !! "dispensaries".
Proof.
  unfold validate_all_datasets.
  destruct (data_dict !! "dispensaries"), (data_dict !! "density"),
    (data_dict !! "tweet_sentiment"); cbn;
    by rewrite ?lookup_insert_ne, ?lookup_insert_eq, ?lookup_empty by done.
Qed.

Lemma validate_all_datasets_density current_year data_dict :
  validate_all_datasets current_year data_dict !! "density"
  = (λ df, validate_dataset current_year df "Density" density_validations)
    <$> data_dict !! "density".
Proof.
  unfold validate_all_datasets.
  destruct (data_dict !! "dispensaries"), (data_dict !! "density"),
    (data_dict !! "tweet_sentiment"); cbn;
    by rewrite ?lookup_insert_ne, ?lookup_insert_eq, ?lookup_empty by done.
Qed.

Lemma validate_all_datasets_tweet_sentiment current_year data_dict :
  validate_all_datasets current_year data_dict !! "tweet_sentiment"
  = (λ df, validate_dataset current_year df "Tweet Sentiment"
             sentiment_validations) <$> data_dict !! "tweet_sentiment".
Proof.
  unfold validate_all_datasets.
  destruct (data_dict !! "dispensaries"), (data_dict !! "density"),
    (data_dict !! "tweet_sentiment"); cbn;
    by rewrite ?lookup_insert_ne, ?lookup_insert_eq, ?lookup_empty by done.
Qed.

Lemma validate_all_datasets_other current_year data_dict name :
  name ∉ dataset_names →
  validate_all_datasets current_year data_dict !! name = None.
Proof.
  unfold dataset_names. intros Hname.
  assert (name ≠ "dispensaries") by set_solver.
  assert (name ≠ "density") by set_solver.
  assert (name ≠ "tweet_sentiment") by set_solver.
  unfold validate_all_datasets.
  destruct (data_dict !! "dispensaries"), (data_dict !! "density"),
    (data_dict !! "tweet_sentiment"); cbn;
    by rewrite ?lookup_insert_ne, ?lookup_empty by done.
Qed.

Lemma dispensaries_results current_year df :
  validate_config current_year df <$> dispensaries_validations
  = [validate_range df "Year" (Some (Qc_of_Z 2015))
       (Some (Qc_of_Z (current_year + 1))) (Some "Year")].
Proof. reflexivity. Qed.

Lemma density_results current_year df :
  validate_config current_year df <$> density_validations
  = [validate_positive_numeric df "Population" false (Some "Population");
     validate_positive_numeric df "Dispensary_PerCapita" true
       (Some "Dispensary Density")].
Proof. reflexivity. Qed.

Lemma sentiment_results current_year df :
  validate_config current_year df <$> sentiment_validations
  = [validate_range df "BERT_Sentiment" (Some (Qc_of_Z (-1)))
       (Some (Qc_of_Z 1)) (Some "Sentiment Score");
     validate_range df "Year" (Some (Qc_of_Z 2015))
       (Some (Qc_of_Z (current_year + 1))) (Some "Year")].
Proof. reflexivity. Qed.

Lemma Some_true_iff (b : bool) : Some b = Some true ↔ b = true.
Proof. split; [by intros [= ->]|by intros ->]. Qed.

End all_datasets_facts.

(** X15.  [validate_all_datasets] has an entry exactly for those of the
    names "dispensaries", "density" and "tweet_sentiment" that the
    dictionary of frames has; any other key of the dictionary is ignored,
    and an entry holds one result for the dispensaries and two for each of
    the other datasets. *)
Theorem validate_all_datasets_entries `{Pandas}
    (current_year : Z) (data_dict : gmap string DataFrame) :
  let out := validate_all_datasets current_year data_dict in
  (∀ name, is_Some (out !! name)
           ↔ name ∈ dataset_names ∧ is_Some (data_dict !! name))
  ∧ (∀ name df, name ∉ dataset_names →
       validate_all_datasets current_year (<[name := df]> data_dict) = out)
  ∧ (∀ name entry, out !! name = Some entry →
       length entry.2 = if bool_decide (name = "dispensaries") then 1 else 2).
Proof.
  cbv zeta. split_and!.
  - intros name. destruct (decide (name ∈ dataset_names)) as [Hin|Hout].
    + unfold dataset_names in Hin.
      assert (Hname : name = "dispensaries" ∨ name = "density"
                      ∨ name = "tweet_sentiment") by set_solver.
      destruct Hname as [-> | [-> | ->] ];
        rewrite ?validate_all_datasets_dispensaries,
          ?validate_all_datasets_density,
          ?validate_all_datasets_tweet_sentiment, fmap_is_Some;
        unfold dataset_names; set_solver.
    + rewrite validate_all_datasets_other by done.
      split; [by intros [? ?]|by intros [? _]].
  - intros name df Hname. unfold dataset_names in Hname.
    assert (name ≠ "dispensaries") by set_solver.
    assert (name ≠ "density") by set_solver.
    assert (name ≠ "tweet_sentiment") by set_solver.
    unfold validate_all_datasets. by rewrite !lookup_insert_ne by done.
  - intros name entry.
    destruct (decide (name ∈ dataset_names)) as [Hin|Hout].
    + unfold dataset_names in Hin.
      assert (Hname : name = "dispensaries" ∨ name = "density"
                      ∨ name = "tweet_sentiment") by set_solver.
      destruct Hname as [-> | [-> | ->] ];
        rewrite ?validate_all_datasets_dispensaries,
          ?validate_all_datasets_density,
          ?validate_all_datasets_tweet_sentiment;
        intros (df & _ & ->)%fmap_Some;
        by rewrite validate_dataset_unfold.
    + by rewrite validate_all_datasets_other.
Qed.

(** X16.  What the predefined rules accept.  The dispensaries pass exactly
    when the frame has a [Year] column with no numeric value below 2015 or
    above next year; the density data when [Population] has no numeric
    value at or below zero and [Dispensary_PerCapita] none below zero; the
    tweets when [BERT_Sentiment] has no numeric value outside [-1, 1] and
    [Year] none outside 2015 to next year.  Values that do not read as
    numbers never fail a dataset. *)
Theorem validate_all_datasets_verdicts `{Pandas}
    (current_year : Z) (data_dict : gmap string DataFrame) :
  let out := validate_all_datasets current_year data_dict in
  let years_ok df :=
    "Year" ∈ columns df
    ∧ Forall (λ v, ¬ out_of_range (Some (Qc_of_Z 2015))
                       (Some (Qc_of_Z (current_year + 1))) v)
             (series df "Year") in
  (fst <$> out !! "dispensaries" = Some true
   ↔ ∃ df, data_dict !! "dispensaries" = Some df ∧ years_ok df)
  ∧ (fst <$> out !! "density" = Some true
     ↔ ∃ df, data_dict !! "density" = Some df
             ∧ "Population" ∈ columns df
             ∧ Forall (λ v, ∀ q, to_numeric v = Some q → (0 < q)%Qc)
                      (series df "Population")
             ∧ "Dispensary_PerCapita" ∈ columns df
             ∧ Forall (λ v, ∀ q, to_numeric v = Some q → (0 ≤ q)%Qc)
                      (series df "Dispensary_PerCapita"))
  ∧ (fst <$> out !! "tweet_sentiment" = Some true
     ↔ ∃ df, data_dict !! "tweet_sentiment" = Some df
             ∧ "BERT_Sentiment" ∈ columns df
             ∧ Forall (λ v, ¬ out_of_range (Some (Qc_of_Z (-1)))
                                (Some (Qc_of_Z 1)) v)
                      (series df "BERT_Sentiment")
             ∧ years_ok df).
Proof.
  cbv zeta.
  rewrite validate_all_datasets_dispensaries, validate_all_datasets_density,
    validate_all_datasets_tweet_sentiment.
  split_and!.
  - destruct (data_dict !! "dispensaries") as [df|];
      cbn [fmap option_fmap option_map]; [|naive_solver].
    rewrite validate_dataset_unfold, dispensaries_results. cbn [fst forallb].
    rewrite Some_true_iff, andb_true_r, validate_range_valid_iff.
    naive_solver.
  - destruct (data_dict !! "density") as [df|];
      cbn [fmap option_fmap option_map]; [|naive_solver].
    rewrite validate_dataset_unfold, density_results. cbn [fst forallb].
    rewrite Some_true_iff, andb_true_r, andb_true_iff,
      !validate_positive_numeric_valid_iff.
    naive_solver.
  - destruct (data_dict !! "tweet_sentiment") as [df|];
      cbn [fmap option_fmap option_map]; [|naive_solver].
    rewrite validate_dataset_unfold, sentiment_results. cbn [fst forallb].
    rewrite Some_true_iff, andb_true_r, andb_true_iff,
      !validate_range_valid_iff.
    naive_solver.
Qed.

Example validate_county_names_docstring :
  @validate_county_names decimal_pandas docstring_counties "County"
    (Some ["Los Angeles"; "San Diego"])
  = Some (false, [CStr "Invalid County"]).
Proof. vm_compute. reflexivity. Qed.

(** ** County columns *)

Lemma unique_elem_of (l : list cell) x : x ∈ unique l ↔ x ∈ l.
Proof.
  induction l as [|y l IH]; [done|]. cbn [unique].
  rewrite !elem_of_cons, list_elem_of_In, filter_In, <- list_elem_of_In, IH.
  rewrite negb_true_iff, bool_decide_eq_false.
  destruct (decide (x = y)); naive_solver.
Qed.

Lemma NoDup_filter_list {A} (f : A → bool) (l : list A) :
  NoDup l → NoDup (List.filter f l).
Proof.
  induction 1 as [|x l Hx Hl IH]; cbn [List.filter]; [constructor|].
  destruct (f x); [|done]. constructor; [|done].
  rewrite list_elem_of_In, filter_In, <- list_elem_of_In. naive_solver.
Qed.

Lemma unique_NoDup (l : list cell) : NoDup (unique l).
Proof.
  induction l as [|y l IH]; cbn [unique]; constructor.
  - rewrite list_elem_of_In, filter_In, negb_true_iff, bool_decide_eq_false.
    naive_solver.
  - by apply NoDup_filter_list.
Qed.

Lemma unique_head (l : list cell) x k :
  unique l = x :: k → ∃ l', l = x :: l'.
Proof. destruct l as [|y l]; [done|]. cbn [unique]. intros [= -> _]. by eexists. Qed.

Lemma dropna_elem_of (s : list cell) x : x ∈ dropna s ↔ x ∈ s ∧ x ≠ CNull.
Proof.
  unfold dropna. rewrite list_elem_of_In, filter_In, <- list_elem_of_In.
  destruct x; naive_solver.
Qed.

Section county_column_facts.
Context `{Pandas}.

Lemma foldl_append_filter {A} (f : A → bool) (l acc : list A) :
  foldl (λ invalid x, if f x then invalid ++ [x] else invalid) acc l
  = acc ++ List.filter f l.
Proof.
  revert acc. induction l as [|x l IH]; intros acc; cbn [foldl List.filter].
  - by rewrite app_nil_r.
  - rewrite IH. destruct (f x); [|done]. by rewrite <- app_assoc.
Qed.

Lemma unknown_counties_filter known_normalized values :
  unknown_counties known_normalized values
  = List.filter (λ county, negb (bool_decide
                   (normalize_county_name county ∈ known_normalized))) values.
Proof. unfold unknown_counties. apply (foldl_append_filter _ _ []). Qed.

Lemma validate_county_names_known df column_name known :
  column_name ∈ columns df →
  validate_county_names df column_name (Some known)
  = let invalid :=
      List.filter (λ county, negb (bool_decide
         (normalize_county_name county
          ∈ (λ c, normalize_county_name (CStr c)) <$> known)))
        (unique (dropna (series df column_name))) in
    Some (bool_decide (invalid = []), invalid).
Proof.
  intros Hc. unfold validate_county_names, has_column.
  rewrite bool_decide_eq_true_2 by done. cbn [negb]. cbv zeta.
  rewrite unknown_counties_filter. do 2 f_equal.
  apply bool_decide_ext. apply length_zero_iff_nil.
Qed.

End county_column_facts.

(** X17.  On a frame with the column, [normalize_dataframe_counties]
    returns a new frame object and leaves the store otherwise as it was
    (the input frame included): the copy has the columns of the input and
    its rows, with the county column replaced by its normalized values.
    Without the column it raises and changes nothing. *)
Theorem normalize_dataframe_counties_returns_normalized_copy `{Pandas}
    (s : gmap loc DataFrame) (df : loc) (d : DataFrame) (column_name : string)
    (Hdf : s !! df = Some d) :
  if has_column d column_name then
    ∃ l out,
      normalize_dataframe_counties df column_name s = (Some l, <[l := out]> s)
      ∧ s !! l = None
      ∧ columns out = columns d
      ∧ rows out
        = (λ r, <[column_name :=
                    cell_of_opt (normalize_county_name (row_cell column_name r))]> r)
          <$> rows d
  else normalize_dataframe_counties df column_name s = (None, s).
Proof.
  destruct (has_column d column_name) eqn:Hc.
  2:{ unfold normalize_dataframe_counties, mbind, M_bind, frame.
      by rewrite Hdf, Hc. }
  unfold normalize_dataframe_counties, df_copy, mbind, M_bind, frame.
  rewrite Hdf, Hc. cbn [negb]. rewrite Hdf.
  unfold new_frame. set (l := fresh (dom s)).
  assert (Hl : s !! l = None) by apply not_elem_of_dom, is_fresh.
  rewrite lookup_insert_eq.
  unfold df_setitem, mbind, M_bind, frame. rewrite lookup_insert_eq.
  unfold store_frame, mret, M_ret. rewrite insert_insert_eq.
  eexists l, _. split_and!; [reflexivity|exact Hl|..].
  - unfold set_column. cbn [columns]. by rewrite Hc.
  - unfold normalized_values, series. rewrite <- list_fmap_compose.
    apply (rows_set_column d column_name
             (λ r, cell_of_opt (normalize_county_name (row_cell column_name r)))).
Qed.

Lemma normalize_dataframe_counties_returns_normalized_copy_witness :
  ∃ l out,
    @normalize_dataframe_counties decimal_pandas 1%positive "County"
      density_session = (Some l, <[l := out]> density_session)
    ∧ row_cell "County" <$> rows out
      = CStr <$> ["Los Angeles"; "San Francisco"; "San Diego"; "Los Angeles";
                  "Orange"; "San Diego"].
Proof.
  assert (H1 : density_session !! 1%positive = Some sample_density_data)
    by reflexivity.
  pose proof (@normalize_dataframe_counties_returns_normalized_copy
                decimal_pandas density_session 1%positive sample_density_data
                "County" H1) as Hn.
  change (has_column sample_density_data "County") with true in Hn.
  destruct Hn as (l & out & Hrun & _ & _ & Hrows).
  exists l, out. split; [exact Hrun|]. rewrite Hrows. vm_compute. reflexivity.
Defined.

(** X18.  With a list of known counties, [validate_county_names] reports
    every distinct non-missing value of the column whose normalized name is
    not the normalized name of a known county: each once, as it stands in
    the column and in the order of first appearance of what is reported;
    missing values are never reported, and the flag says that nothing
    was. *)
Theorem validate_county_names_reports_unknown_values `{Pandas}
    (df : DataFrame) (column_name : string) (known_counties : list string)
    (Hcolumn : column_name ∈ columns df) :
  ∃ invalid,
    validate_county_names df column_name (Some known_counties)
    = Some (bool_decide (invalid = []), invalid)
    ∧ NoDup invalid
    ∧ invalid `sublist_of` series df column_name
    ∧ ∀ county,
        county ∈ invalid
        ↔ county ∈ series df column_name
          ∧ county ≠ CNull
          ∧ ∀ known, known ∈ known_counties →
              normalize_county_name county ≠ normalize_county_name (CStr known).
Proof.
  rewrite validate_county_names_known by done. cbv zeta.
  eexists. split; [reflexivity|]. split_and!.
  - apply NoDup_filter_list, unique_NoDup.
  - transitivity (unique (dropna (series df column_name)));
      [|transitivity (dropna (series df column_name))].
    + generalize (unique (dropna (series df column_name))).
      induction l as [|x l IH]; cbn [List.filter]; [done|].
      destruct (negb _); by constructor.
    + generalize (dropna (series df column_name)).
      induction l as [|x l IH]; cbn [unique]; [done|]. constructor.
      etransitivity; [|exact IH].
      generalize (unique l). clear. induction l as [|y l IH];
        cbn [List.filter]; [done|]. destruct (negb _); by constructor.
    + unfold dropna. generalize (series df column_name).
      induction l as [|x l IH]; cbn [List.filter]; [done|].
      destruct (negb _); by constructor.
  - intros county.
    rewrite list_elem_of_In, filter_In, <- list_elem_of_In, unique_elem_of,
      dropna_elem_of, negb_true_iff, bool_decide_eq_false, list_elem_of_fmap.
    naive_solver.
Qed.

Lemma validate_county_names_reports_unknown_values_witness :
  ∃ invalid,
    @validate_county_names decimal_pandas sample_density_data "County"
      (Some ["Los Angeles"; "San Diego County"])
    = Some (false, invalid)
    ∧ invalid = [CStr "San Francisco County"; CStr "Orange County"].
Proof.
  assert (H1 : "County" ∈ columns sample_density_data).
  { apply (bool_decide_unpack _). vm_compute. exact I. }
  destruct (@validate_county_names_reports_unknown_values decimal_pandas
              sample_density_data "County"
              ["Los Angeles"; "San Diego County"] H1)
    as (invalid & Hrun & _).
  exists invalid.
  assert (Hv : @validate_county_names decimal_pandas sample_density_data
                 "County" (Some ["Los Angeles"; "San Diego County"])
               = Some (false, [CStr "San Francisco County";
                               CStr "Orange County"]))
    by (vm_compute; reflexivity).
  rewrite Hv in Hrun. injection Hrun as _ <-. split; [exact Hv|reflexivity].
Defined.

(** X19.  The known counties are compared by their normalized names only:
    two lists with the same normalized names give the same result, so a
    list can be given with or without the " County" suffix, in any order
    and with repetitions. *)
Theorem validate_county_names_known_up_to_normalization `{Pandas}
    (df : DataFrame) (column_name : string) (known known' : list string)
    (Hsame : ∀ name : option string,
        name ∈ (λ c, normalize_county_name (CStr c)) <$> known
        ↔ name ∈ (λ c, normalize_county_name (CStr c)) <$> known') :
  validate_county_names df column_name (Some known)
  = validate_county_names df column_name (Some known')
  ∧ ∀ suffixed,
      Forall2 (λ c c', add_county_suffix (CStr c) = Some c') known suffixed →
      validate_county_names df column_name (Some suffixed)
      = validate_county_names df column_name (Some known).
Proof.
  assert (Hgen : ∀ k k',
    (∀ name : option string,
        name ∈ (λ c, normalize_county_name (CStr c)) <$> k
        ↔ name ∈ (λ c, normalize_county_name (CStr c)) <$> k') →
    validate_county_names df column_name (Some k)
    = validate_county_names df column_name (Some k')).
  { intros k k' Hkk. unfold validate_county_names.
    destruct (negb (has_column df column_name)); [done|]. cbv zeta.
    rewrite !unknown_counties_filter.
    rewrite (List.filter_ext _
      (λ county, negb (bool_decide (normalize_county_name county
         ∈ (λ c, normalize_county_name (CStr c)) <$> k')))); [done|].
    intros county. f_equal. apply bool_decide_ext, Hkk. }
  split; [by apply Hgen|].
  intros suffixed Hsuf. apply Hgen. intros name.
  assert (Hmap : (λ c, normalize_county_name (CStr c)) <$> suffixed
                 = (λ c, normalize_county_name (CStr c)) <$> known);
    [|by rewrite Hmap].
  clear -Hsuf. induction Hsuf as [|c c' k k' Hc _ IH]; [done|].
  rewrite !fmap_cons, IH. f_equal.
  rewrite add_county_suffix_str in Hc. rewrite !normalize_county_name_str.
  by apply normalize_suffix_text.
Qed.

Lemma validate_county_names_known_up_to_normalization_witness :
  @validate_county_names decimal_pandas sample_density_data "County"
    (Some ["San Diego"; "Los Angeles County"; "San Diego"])
  = @validate_county_names decimal_pandas sample_density_data "County"
      (Some ["Los Angeles"; "San Diego County"]).
Proof.
  refine (proj1 (@validate_county_names_known_up_to_normalization
                   decimal_pandas sample_density_data "County"
                   ["San Diego"; "Los Angeles County"; "San Diego"]
                   ["Los Angeles"; "San Diego County"] _)).
  intros name.
  assert (H1 : (λ c, @normalize_county_name decimal_pandas (CStr c))
               <$> ["San Diego"; "Los Angeles County"; "San Diego"]
               = [Some "San Diego"; Some "Los Angeles"; Some "San Diego"])
    by reflexivity.
  assert (H2 : (λ c, @normalize_county_name decimal_pandas (CStr c))
               <$> ["Los Angeles"; "San Diego County"]
               = [Some "Los Angeles"; Some "San Diego"])
    by reflexivity.
  rewrite H1, H2. set_solver.
Defined.

(** X20.  Without a list of known counties, [validate_county_names] reports
    the missing values of the column, one entry per row that lacks a county,
    and accepts the column exactly when there is none; whatever the list,
    it raises when the frame lacks the column.  With a list, even the empty
    one, a column of missing values only is accepted. *)
Theorem validate_county_names_without_known_counts_missing `{Pandas}
    (df : DataFrame) (column_name : string) :
  (column_name ∉ columns df →
   ∀ known_counties, validate_county_names df column_name known_counties = None)
  ∧ (column_name ∈ columns df →
     let missing := length (List.filter isna (series df column_name)) in
     validate_county_names df column_name None
     = Some (bool_decide (missing = 0), replicate missing CNull)
     ∧ (missing = nrows df →
        ∀ known_counties,
          validate_county_names df column_name (Some known_counties)
          = Some (true, []))).
Proof.
  split.
  - intros Hc known_counties. unfold validate_county_names, has_column.
    by rewrite bool_decide_eq_false_2.
  - intros Hc missing. split.
    + unfold validate_county_names, has_column.
      rewrite bool_decide_eq_true_2 by done. cbn [negb]. cbv zeta.
      assert (Hinv : series (select df (isna <$> series df column_name))
                       column_name = replicate missing CNull).
      { unfold series at 2. rewrite <- list_fmap_compose, series_select.
        subst missing. unfold series. generalize (rows df).
        induction l as [|r l IH]; [done|].
        rewrite fmap_cons. cbn [List.filter]. unfold compose at 1.
        destruct (row_cell column_name r) eqn:E; cbn [isna]; [|done..].
        rewrite fmap_cons, E. cbn [length replicate]. by rewrite IH. }
      rewrite Hinv, length_replicate. done.
    + intros Hall known_counties. rewrite validate_county_names_known by done.
      cbv zeta.
      assert (Hnone : dropna (series df column_name) = []); [|by rewrite Hnone].
      subst missing. unfold nrows in Hall. unfold dropna, series in *.
      revert Hall. rewrite <- (length_fmap (row_cell column_name) (rows df)).
      generalize (row_cell column_name <$> rows df). clear.
      induction l as [|c l IH]; [done|]. cbn [List.filter].
      destruct (isna c); cbn [negb length].
      * intros [= Hl]. by apply IH.
      * intros Hl. pose proof (filter_length_le isna l). lia.
Qed.

Example get_region_for_county_tests :
  get_region_for_county "Los Angeles" true = "Southern"
  ∧ get_region_for_county "San Francisco" true = "Bay Area"
  ∧ get_region_for_county "Sacramento" true = "Central"
  ∧ get_region_for_county "Humboldt" true = "Northern"
  ∧ get_region_for_county "Los Angeles" false = "Southern California"
  ∧ get_region_for_county "Marin" false = "Northern California"
  ∧ get_region_for_county "Los Angeles County" true = "Southern"
  ∧ get_region_for_county "Fake County" false = "Unknown".
Proof. vm_compute. repeat split. Qed.

(** ** Regions *)

Lemma first_region_unlisted regions clean_name :
  (∀ region, (clean_name, region) ∉ listed regions) →
  first_region regions clean_name = "Unknown".
Proof.
  induction regions as [|[region counties] regions IH]; intros Hno; [done|].
  cbn [first_region]. rewrite bool_decide_eq_false_2.
  - apply IH. intros r Hr. apply (Hno r). unfold listed.
    rewrite bind_cons. apply elem_of_app. by right.
  - intros Hin. apply (Hno region). unfold listed. rewrite bind_cons.
    apply elem_of_app. left. apply list_elem_of_fmap. by exists clean_name.
Qed.

Lemma first_region_listed regions clean_name :
  (∃ region, (clean_name, region) ∈ listed regions) →
  (clean_name, first_region regions clean_name) ∈ listed regions.
Proof.
  induction regions as [|[region counties] regions IH];
    intros [r Hr]; [by apply elem_of_nil in Hr|].
  unfold listed in *. rewrite bind_cons in *. cbn [first_region].
  apply elem_of_app. case_bool_decide as Hin.
  - left. apply list_elem_of_fmap. by exists clean_name.
  - right. apply IH. exists r. apply elem_of_app in Hr as [Hr|Hr]; [|done].
    apply list_elem_of_fmap in Hr as (c & Heq & Hc). cbn in Heq.
    simplify_eq. done.
Qed.

Lemma listed_functional regions c r r' :
  NoDup (listed regions).*1 →
  (c, r) ∈ listed regions → (c, r') ∈ listed regions → r = r'.
Proof.
  generalize (listed regions). intros l Hnd H1 H2.
  induction l as [|[c0 r0] l IH]; [by apply elem_of_nil in H1|].
  rewrite fmap_cons in Hnd. apply NoDup_cons in Hnd as [Hc0 Hnd].
  apply elem_of_cons in H1 as [E1|H1]; apply elem_of_cons in H2 as [E2|H2].
  - congruence.
  - injection E1 as -> ->. exfalso. apply Hc0. apply list_elem_of_fmap.
    by exists (c0, r').
  - injection E2 as -> ->. exfalso. apply Hc0. apply list_elem_of_fmap.
    by exists (c0, r).
  - by apply IH.
Qed.

Lemma regions_disjoint (use_simple : bool) :
  NoDup (listed (if use_simple then SIMPLE_REGIONS else CALIFORNIA_REGIONS)).*1
  ∧ "Unknown" ∉ (listed (if use_simple then SIMPLE_REGIONS
                          else CALIFORNIA_REGIONS)).*2.
Proof.
  destruct use_simple; split; apply (bool_decide_unpack _); vm_compute; exact I.
Qed.

(** X21.  [get_region_for_county] answers with the region that lists the
    cleaned name (the name without every " County" and without surrounding
    whitespace): a region is the answer exactly when it lists the cleaned
    name, and the answer is "Unknown" exactly when no region does.  No county
    is listed twice in a dictionary, so the order of the regions does not
    matter. *)
Theorem get_region_for_county_is_the_listing_region
    (county_name : string) (use_simple : bool) :
  let regions := if use_simple then SIMPLE_REGIONS else CALIFORNIA_REGIONS in
  let clean_name := clean_county_name county_name in
  (∀ region, (clean_name, region) ∈ listed regions
             ↔ get_region_for_county county_name use_simple = region
               ∧ region ≠ "Unknown")
  ∧ (get_region_for_county county_name use_simple = "Unknown"
     ↔ ∀ region, (clean_name, region) ∉ listed regions).
Proof.
  intros regions clean_name.
  destruct (regions_disjoint use_simple) as [Hnd Hunknown].
  fold regions in Hnd, Hunknown.
  assert (Hget : get_region_for_county county_name use_simple
                 = first_region regions clean_name) by done.
  rewrite Hget. clear Hget.
  assert (Hname : ∀ region, (clean_name, region) ∈ listed regions →
                            region ≠ "Unknown").
  { intros region Hin ->. apply Hunknown. apply list_elem_of_fmap.
    by exists (clean_name, "Unknown"). }
  split.
  - intros region. split.
    + intros Hin. split; [|by apply Hname].
      eapply listed_functional; [exact Hnd| |exact Hin].
      apply first_region_listed. by exists region.
    + intros [<- Hne].
      destruct (decide (clean_name ∈ (listed regions).*1)) as [Hex|Hno].
      * apply first_region_listed.
        apply list_elem_of_fmap in Hex as ([c r] & -> & Hin). by exists r.
      * exfalso. apply Hne. apply first_region_unlisted. intros r Hr.
        apply Hno. apply list_elem_of_fmap. by exists (clean_name, r).
  - split.
    + intros Hun region Hin. apply (Hname _ Hin).
      rewrite <- Hun. symmetry.
      eapply listed_functional; [exact Hnd| |exact Hin].
      apply first_region_listed. by exists region.
    + apply first_region_unlisted.
Qed.

Lemma contains_l_cons old c l :
  contains_l old (c :: l) = starts_with old (c :: l) || contains_l old l.
Proof. done. Qed.

Lemma remove_all_l_absent old l :
  contains_l old l = false → remove_all_l old 0 l = l.
Proof.
  induction l as [|c l IH]; [done|].
  rewrite contains_l_cons. intros [Hs Hc]%orb_false_elim.
  cbn [remove_all_l]. rewrite Hs. f_equal. by apply IH.
Qed.

(** The token " County" does not overlap itself: it cannot start inside a
    text that does not contain it and end inside a following copy. *)
Lemma token_no_border (l q : list ascii) :
  l ≠ [] → starts_with (PyStr.chars " County") l = false →
  starts_with (PyStr.chars " County") (l ++ PyStr.chars " County" ++ q) = false.
Proof.
  intros Hne.
  destruct l as [|c1 [|c2 [|c3 [|c4 [|c5 [|c6 [|c7 l]]]]]]]; [done|..];
    cbn; repeat case_bool_decide; try done; subst; done.
Qed.

Lemma remove_all_l_token (l q : list ascii) :
  contains_l (PyStr.chars " County") l = false →
  remove_all_l (PyStr.chars " County") 0 (l ++ PyStr.chars " County" ++ q)
  = l ++ remove_all_l (PyStr.chars " County") 0 q.
Proof.
  induction l as [|c l IH]; [done|].
  rewrite contains_l_cons. intros [Hs Hc]%orb_false_elim.
  rewrite <- app_comm_cons. cbn [remove_all_l].
  rewrite app_comm_cons, token_no_border by done.
  rewrite <- app_comm_cons. f_equal. by apply IH.
Qed.

Lemma remove_all_token (p q : string) :
  contains " County" p = false →
  remove_all " County" (p +:+ " County" +:+ q) = p +:+ remove_all " County" q.
Proof.
  intros Hp. unfold remove_all. apply PyStrFacts.chars_inj.
  rewrite ?PyStrFacts.chars_app, ?PyStrFacts.chars_str, ?PyStrFacts.chars_app.
  by apply remove_all_l_token.
Qed.

Lemma string_app_empty_r (s : string) : s +:+ "" = s.
Proof.
  apply PyStrFacts.chars_inj. rewrite PyStrFacts.chars_app. apply app_nil_r.
Qed.

(** X22.  A name that does not contain " County" is looked up the same
    with the suffix appended, and with the token standing anywhere else in
    it: the token is taken out wherever it occurs, and what is left is
    trimmed. *)
Theorem get_region_for_county_ignores_county_token
    (county_name rest : string) (use_simple : bool)
    (Hname : contains " County" county_name = false)
    (Hrest : contains " County" rest = false) :
  get_region_for_county (county_name +:+ " County") use_simple
  = get_region_for_county county_name use_simple
  ∧ clean_county_name county_name = PyStr.strip county_name
  ∧ clean_county_name (county_name +:+ " County" +:+ rest)
    = PyStr.strip (county_name +:+ rest).
Proof.
  assert (Hclean : ∀ q, contains " County" q = false →
            clean_county_name (county_name +:+ " County" +:+ q)
            = PyStr.strip (county_name +:+ q)).
  { intros q Hq. unfold clean_county_name. rewrite remove_all_token by done.
    do 2 f_equal. unfold remove_all. rewrite remove_all_l_absent by done.
    apply PyStrFacts.str_chars. }
  assert (Hplain : clean_county_name county_name = PyStr.strip county_name).
  { unfold clean_county_name, remove_all.
    rewrite remove_all_l_absent by done. by rewrite PyStrFacts.str_chars. }
  split_and!; [|done|by apply Hclean].
  unfold get_region_for_county. cbv zeta. f_equal.
  specialize (Hclean "" eq_refl). rewrite !string_app_empty_r in Hclean.
  by rewrite Hclean, Hplain.
Qed.

Lemma get_region_for_county_ignores_county_token_witness :
  get_region_for_county "Los Angeles County" true
  = get_region_for_county "Los Angeles" true.
Proof.
  refine (proj1 (get_region_for_county_ignores_county_token
                   "Los Angeles" "" true _ _)); vm_compute; reflexivity.
Defined.

(** X23.  Every county of either dictionary resolves to the region that
    lists it, with and without the " County" suffix; the suffix is matched
    with its capital letter only, so the same name with " county" is
    unknown.  The detailed dictionary does not cover the simple one: six
    counties of [SIMPLE_REGIONS] are "Unknown" in [CALIFORNIA_REGIONS]. *)
Theorem listed_counties_resolve_to_their_region (use_simple : bool) :
  Forall (λ entry : string * string,
            get_region_for_county entry.1 use_simple = entry.2
            ∧ get_region_for_county (entry.1 +:+ " County") use_simple = entry.2
            ∧ get_region_for_county (entry.1 +:+ " county") use_simple
              = "Unknown")
         (listed (if use_simple then SIMPLE_REGIONS else CALIFORNIA_REGIONS))
  ∧ List.filter (λ c, bool_decide (get_region_for_county c false = "Unknown"))
                (listed SIMPLE_REGIONS).*1
    = ["San Francisco"; "Alameda"; "Contra Costa"; "San Mateo"; "Santa Clara";
       "Kern"].
Proof.
  split; [|vm_compute; reflexivity].
  destruct use_simple; apply (bool_decide_unpack _); vm_compute; exact I.
Qed.

Example load_geojson_tests :
  load_geojson plain_format "f" (Json six_features) = inr six_features
  ∧ load_geojson plain_format "f" NoSuchFile
    = inl (FileNotFoundError "GeoJSON file not found: 'f'")
  ∧ load_geojson plain_format "f" (Json (JList [JStr "not"; JStr "a"; JStr "dict"]))
    = inl (ValueError "GeoJSON must be a dictionary, got list")
  ∧ load_geojson plain_format "f"
      (Json (JDict [("type", JStr "Feature"); ("properties", JDict []);
                    ("geometry", JDict [])]))
    = inl (ValueError "GeoJSON must be a FeatureCollection, got type='Feature'")
  ∧ load_geojson plain_format "f" (Json (JDict [("type", JStr "FeatureCollection")]))
    = inl (ValueError "GeoJSON FeatureCollection must contain 'features' array")
  ∧ load_geojson plain_format "f"
      (Json (JDict [("type", JStr "FeatureCollection");
                    ("features", JStr "not a list")]))
    = inl (ValueError "GeoJSON 'features' must be a list, got str")
  ∧ load_geojson plain_format "f"
      (Json (JDict [("type", JStr "FeatureCollection"); ("features", JList [])]))
    = inl (ValueError "GeoJSON FeatureCollection contains no features")
  ∧ load_geojson plain_format "f"
      (Json (JDict [("type", JStr "FeatureCollection");
                    ("features", JList [JStr "not a dict"])]))
    = inl (ValueError "Feature 0 is not a dictionary, got str")
  ∧ load_geojson plain_format "f"
      (Json (JDict [("type", JStr "FeatureCollection");
                    ("features", JList [bare_feature])]))
    = inl (ValueError "Feature 0 missing 'geometry' field").
Proof. vm_compute. repeat split. Qed.

(** ** GeoJSON loading *)

Section geojson_facts.
Context (format_value : option json → string).

Lemma differs_from_false x text : differs_from x text = false ↔ x = JStr text.
Proof.
  destruct x; cbn; try (split; [done|by intros [=]]).
  rewrite negb_false_iff, bool_decide_eq_true. split; [by intros ->|by intros [=]].
Qed.

Lemma type_check_passes (entries : list (string * json)) text :
  match dict_get "type" entries with
  | None => true
  | Some t => differs_from t text
  end = false
  ↔ dict_get "type" entries = Some (JStr text).
Proof.
  destruct (dict_get "type" entries) as [t|]; [|done].
  rewrite differs_from_false. split; [by intros ->|by intros [=]].
Qed.

Lemma check_feature_None i feature :
  check_feature i feature = None ↔ feature_ok feature.
Proof.
  unfold feature_ok. destruct feature as [| | | | | |entries];
    try (split; [done|by intros (? & [=] & _)]).
  cbn [check_feature].
  pose proof (type_check_passes entries "Feature") as Ht.
  destruct (match dict_get "type" entries with
            | None => true | Some t => differs_from t "Feature" end).
  - split; [done|]. intros (es & [= <-] & Htype & _).
    by apply Ht in Htype.
  - case_bool_decide as Hg; cbn [negb].
    + case_bool_decide as Hp; cbn [negb].
      * split; [|done]. intros _. exists entries. split_and!; [done| |done..].
        by apply Ht.
      * split; [done|]. by intros (es & [= <-] & _ & _ & ?).
    + split; [done|]. by intros (es & [= <-] & _ & ? & _).
Qed.

Lemma check_features_None i features :
  check_features i features = None ↔ Forall feature_ok features.
Proof.
  revert i. induction features as [|f fs IH]; intros i; cbn [check_features].
  - split; [constructor|done].
  - rewrite Forall_cons, <- check_feature_None with (i := i), <- (IH (S i)).
    destruct (check_feature i f); [|naive_solver]. split; [done|by intros [? _]].
Qed.

Lemma check_features_Some i features e :
  check_features i features = Some e →
  ∃ k feature,
    features !! k = Some feature
    ∧ Forall feature_ok (take k features)
    ∧ ¬ feature_ok feature
    ∧ check_feature (i + k) feature = Some e.
Proof.
  revert i. induction features as [|f fs IH]; intros i; cbn [check_features];
    [done|].
  destruct (check_feature i f) as [e'|] eqn:Hf.
  - intros [= ->]. exists 0, f. rewrite Nat.add_0_r. split_and!; try done.
    rewrite <- (check_feature_None i). by rewrite Hf.
  - intros (k & feature & Hk & Hok & Hbad & He)%IH.
    exists (S k), feature. split_and!; try done.
    + cbn [take]. constructor; [|done]. by apply (check_feature_None i).
    + by rewrite <- Nat.add_succ_comm.
Qed.

End geojson_facts.

(** X24.  [load_geojson] returns a value exactly when the file holds JSON
    for a dictionary of type "FeatureCollection" whose "features" is a
    non-empty list in which each of the first five entries is a dictionary
    of type "Feature" with a "geometry" and a "properties" key; it then
    returns the parsed value itself.  Features after the fifth are not looked
    at.  Every failure is a [ValueError], except a missing file, which is a
    [FileNotFoundError]. *)
Theorem load_geojson_accepts_feature_collections
    (format_value : option json → string) (file_path : string)
    (content : file_content) :
  (∀ out, load_geojson format_value file_path content = inr out
          ↔ content = Json out ∧ collection_ok out)
  ∧ ((∃ message, load_geojson format_value file_path content
                 = inl (FileNotFoundError message))
     ↔ content = NoSuchFile).
Proof.
  split.
  - intros out. destruct content as [| |data]; cbn [load_geojson];
      [split; [done|by intros [[=] _]]..|].
    unfold collection_ok.
    destruct data as [| | | | | |entries];
      try (split; [done|by intros [[= <-] (? & ? & [=] & _)]]).
    pose proof (type_check_passes entries "FeatureCollection") as Ht.
    destruct (match dict_get "type" entries with
              | None => true | Some t => differs_from t "FeatureCollection" end).
    { split; [done|]. intros [[= <-] (es & fs & [= <-] & Htype & _)].
      by apply Ht in Htype. }
    destruct (dict_get "features" entries) as [features|] eqn:Hfs.
    2:{ split; [done|]. intros [[= <-] (es & fs & [= <-] & _ & Hf & _)].
        congruence. }
    destruct features as [| | | | |features|];
      try (split; [done|intros [[= <-] (es & fs & [= <-] & _ & Hf & _)];
                   congruence]).
    case_bool_decide as Hlen.
    { split; [done|]. intros [[= <-] (es & fs & [= <-] & _ & Hf & Hne & _)].
      assert (fs = features) as -> by congruence.
      by apply length_zero_iff_nil in Hlen. }
    destruct (check_features 0 (take 5 features)) as [e|] eqn:Hcheck.
    + split; [done|]. intros [[= <-] (es & fs & [= <-] & _ & Hf & _ & Hok)].
      assert (fs = features) as -> by congruence.
      apply (check_features_None 0) in Hok. congruence.
    + split.
      * intros [= <-]. split; [done|]. exists entries, features.
        split_and!; try done.
        -- by apply Ht.
        -- intros ->. done.
        -- by apply (check_features_None 0).
      * by intros [[= <-] _].
  - split.
    + intros [message Hload]. destruct content as [| |data]; [done|done|].
      exfalso. cbn [load_geojson] in Hload.
      destruct data as [| | | | | |entries]; try done.
      destruct (match dict_get "type" entries with
                | None => true | Some t => differs_from t "FeatureCollection" end);
        [done|].
      destruct (dict_get "features" entries) as [features|]; [|done].
      destruct features as [| | | | |features|]; try done.
      case_bool_decide; [done|].
      destruct (check_features 0 (take 5 features)) as [e|] eqn:Hcheck; [|done].
      apply check_features_Some in Hcheck as (k & f & _ & _ & _ & Hf).
      injection Hload as ->. clear -Hf. unfold check_feature in Hf.
      repeat (case_match; try done).
    + intros ->. by eexists.
Qed.

(** X25.  When the collection itself is in order but one of its first five
    features is not, [load_geojson] raises the error of the first such
    feature, which carries that feature's index. *)
Theorem load_geojson_reports_first_bad_feature
    (format_value : option json → string) (file_path : string)
    (entries : list (string * json)) (features : list json)
    (Htype : dict_get "type" entries = Some (JStr "FeatureCollection"))
    (Hfeatures : dict_get "features" entries = Some (JList features))
    (Hbad : ¬ Forall feature_ok (take 5 features)) :
  ∃ k feature e,
    k < 5
    ∧ features !! k = Some feature
    ∧ Forall feature_ok (take k features)
    ∧ ¬ feature_ok feature
    ∧ check_feature k feature = Some e
    ∧ load_geojson format_value file_path (Json (JDict entries)) = inl e.
Proof.
  cbn [load_geojson]. rewrite Htype, Hfeatures. cbn [differs_from].
  rewrite bool_decide_eq_true_2 by done. cbn [negb].
  rewrite bool_decide_eq_false_2.
  2:{ intros Hlen%length_zero_iff_nil. subst. apply Hbad. constructor. }
  destruct (check_features 0 (take 5 features)) as [e|] eqn:Hcheck.
  2:{ by apply check_features_None in Hcheck. }
  apply check_features_Some in Hcheck as (k & f & Hk & Hok & Hf & He).
  exists k, f, e. apply lookup_take_Some in Hk as [Hk Hlt].
  split_and!; try done.
  rewrite take_take in Hok. by rewrite Nat.min_l in Hok by lia.
Qed.

Lemma load_geojson_reports_first_bad_feature_witness :
  ∃ e, load_geojson plain_format "counties.geojson"
         (Json (JDict [("type", JStr "FeatureCollection");
                       ("features", JList [county_feature "Napa"; bare_feature;
                                           JStr "not a dict"])]))
       = inl e
       ∧ e = ValueError "Feature 1 missing 'geometry' field".
Proof.
  destruct (load_geojson_reports_first_bad_feature plain_format
              "counties.geojson"
              [("type", JStr "FeatureCollection");
               ("features", JList [county_feature "Napa"; bare_feature;
                                   JStr "not a dict"])]
              [county_feature "Napa"; bare_feature; JStr "not a dict"]
              eq_refl eq_refl)
    as (k & f & e & _ & _ & _ & _ & _ & Hload).
  - intros Hok. apply Forall_cons in Hok as [_ Hok].
    apply Forall_cons in Hok as [(es & [= <-] & _ & [g Hg] & _) _].
    discriminate Hg.
  - exists e. split; [exact Hload|].
    assert (Hrun : load_geojson plain_format "counties.geojson"
              (Json (JDict [("type", JStr "FeatureCollection");
                            ("features", JList [county_feature "Napa";
                                                bare_feature;
                                                JStr "not a dict"])]))
            = inl (ValueError "Feature 1 missing 'geometry' field"))
      by (vm_compute; reflexivity).
    rewrite Hrun in Hload. by injection Hload as <-.
Defined.

(** ** Data quality *)

Lemma get_data_quality_metrics_Some data_dict ms :
  get_data_quality_metrics data_dict = Some ms →
  ms = omap table_metrics (omap measured data_dict)
  ∧ map_Forall (λ _ d, is_Some (table_metrics d)) (omap measured data_dict).
Proof.
  unfold get_data_quality_metrics. cbv zeta.
  case_bool_decide as Hall; [|done]. by intros [= <-].
Qed.

(** X26.  The quality metrics have an entry exactly for the tables of the
    dictionary that are present and not empty; a missing table ([None]) and
    a table without rows or without columns are left out, and adding one
    changes nothing. *)
Theorem quality_metrics_skip_missing_and_empty_tables
    (data_dict : gmap string (option DataFrame)) (ms : gmap string metrics)
    (Hrun : get_data_quality_metrics data_dict = Some ms) :
  (∀ name, is_Some (ms !! name)
           ↔ ∃ df, data_dict !! name = Some (Some df) ∧ df_empty df = false)
  ∧ (∀ name table, data_dict !! name = None → measured table = None →
       get_data_quality_metrics (<[name := table]> data_dict) = Some ms).
Proof.
  apply get_data_quality_metrics_Some in Hrun as [-> Hall]. split.
  - intros name. split.
    + intros [m Hm]. apply lookup_omap_Some in Hm as (df & _ & Hdf).
      apply lookup_omap_Some in Hdf as (o & Ho & Hdf).
      apply measured_Some in Ho as [-> Hne]. by exists df.
    + intros (df & Hdf & Hne).
      assert (Hlive : omap measured data_dict !! name = Some df).
      { apply lookup_omap_Some. exists (Some df). split; [|done].
        by apply measured_Some. }
      destruct (Hall name df Hlive) as [m Hm]. exists m.
      apply lookup_omap_Some. by exists df.
  - intros name table Hname Hskip. unfold get_data_quality_metrics. cbv zeta.
    assert (Hsame : omap measured (<[name := table]> data_dict)
                    = omap measured data_dict).
    { rewrite omap_insert_None by done. apply delete_id.
      by rewrite lookup_omap, Hname. }
    rewrite Hsame. by rewrite bool_decide_eq_true_2.
Qed.

Lemma quality_metrics_skip_missing_and_empty_tables_witness :
  ∃ ms, get_data_quality_metrics tables_with_gaps = Some ms
        ∧ is_Some (ms !! "density")
        ∧ ms !! "dispensaries" = None
        ∧ ms !! "tweet_sentiment" = None.
Proof.
  destruct (get_data_quality_metrics tables_with_gaps) as [ms|] eqn:Hrun;
    [|by vm_compute in Hrun].
  destruct (quality_metrics_skip_missing_and_empty_tables tables_with_gaps ms
              Hrun) as [Hkeys _].
  exists ms. split; [done|]. split_and!.
  - apply Hkeys. exists sample_density_data. split; reflexivity.
  - apply eq_None_not_Some. intros (df & Hdf & _)%Hkeys.
    by vm_compute in Hdf.
  - apply eq_None_not_Some. intros (df & Hdf & Hne)%Hkeys.
    assert (df = {| columns := ["County"]; rows := [] |}) as ->.
    { assert (Hl : tables_with_gaps !! "tweet_sentiment"
                   = Some (Some {| columns := ["County"]; rows := [] |}))
        by reflexivity.
      rewrite Hl in Hdf. by injection Hdf as <-. }
    by vm_compute in Hne.
Defined.

Lemma remove_dups_length_le {A} `{EqDecision A} (l : list A) :
  length (remove_dups l) ≤ length l.
Proof.
  induction l as [|x l IH]; [done|]. cbn [remove_dups].
  case_match; cbn [length]; lia.
Qed.

Lemma Qc_of_nat_le (n m : nat) : n ≤ m → (Qc_of_nat n ≤ Qc_of_nat m)%Qc.
Proof.
  intros Hnm. unfold Qc_of_nat. apply (proj1 (Z2Qc_inj_le _ _)). lia.
Qed.

Lemma Qc_of_nat_pos (n : nat) : 0 < n → (0 < Qc_of_nat n)%Qc.
Proof.
  intros Hn. unfold Qc_of_nat. rewrite <- Z2Qc_inj_0.
  apply Qcnot_le_lt. intros Hle. apply (proj2 (Z2Qc_inj_le _ _)) in Hle. lia.
Qed.

(** The share [n / t] of a part in a whole. *)
Lemma share_bounds (n t : nat) :
  n ≤ t → 0 < t →
  (0 ≤ Qc_of_nat n / Qc_of_nat t)%Qc ∧ (Qc_of_nat n / Qc_of_nat t ≤ 1)%Qc.
Proof.
  intros Hnt Ht. pose proof (Qc_of_nat_pos t Ht) as Hpos.
  assert (Hne : Qc_of_nat t ≠ 0%Qc).
  { intros E. rewrite E in Hpos. by apply Qclt_not_eq in Hpos. }
  split.
  - unfold Qcdiv. apply Qcmult_nonneg_nonneg.
    + rewrite <- Z2Qc_inj_0. apply (Qc_of_nat_le 0). lia.
    + apply Qclt_le_weak. by apply Qcinv_pos.
  - apply (Qcmult_le_mono_pos_r _ _ (Qc_of_nat t)); [done|].
    rewrite test_field by done. rewrite Qcmult_1_l. by apply Qc_of_nat_le.
Qed.

Lemma share_zero (n t : nat) :
  0 < t → (Qc_of_nat n / Qc_of_nat t)%Qc = 0%Qc ↔ n = 0.
Proof.
  intros Ht. pose proof (Qc_of_nat_pos t Ht) as Hpos.
  assert (Hne : Qc_of_nat t ≠ 0%Qc).
  { intros E. rewrite E in Hpos. by apply Qclt_not_eq in Hpos. }
  split.
  - intros Hx. assert (Hn : Qc_of_nat n = 0%Qc).
    { rewrite <- (test_field (Qc_of_nat n) (Qc_of_nat t)) by done.
      rewrite Hx. ring. }
    rewrite <- Z2Qc_inj_0 in Hn. apply Z2Qc_inj in Hn. lia.
  - intros ->. unfold Qc_of_nat at 1. change (Z.of_nat 0) with 0%Z.
    rewrite Z2Qc_inj_0. unfold Qcdiv. ring.
Qed.

Lemma share_one (n t : nat) :
  0 < t → (Qc_of_nat n / Qc_of_nat t)%Qc = 1%Qc ↔ n = t.
Proof.
  intros Ht. pose proof (Qc_of_nat_pos t Ht) as Hpos.
  assert (Hne : Qc_of_nat t ≠ 0%Qc).
  { intros E. rewrite E in Hpos. by apply Qclt_not_eq in Hpos. }
  split.
  - intros Hx. assert (Hn : Qc_of_nat n = Qc_of_nat t).
    { rewrite <- (test_field (Qc_of_nat n) (Qc_of_nat t)) by done.
      rewrite Hx. ring. }
    apply Z2Qc_inj in Hn. lia.
  - intros ->. unfold Qcdiv. by apply Qcmult_inv_r.
Qed.

(** X27.  For a table that is not empty, the number of missing cells is at
    most the number of cells, the completeness lies between 0 and 100, it
    is 100 exactly when no cell is missing and 0 exactly when every cell is;
    the number of distinct counties is at most the number of records and is
    recorded exactly when the table has a [County] column. *)
Theorem table_metrics_bounds (df : DataFrame) (m : metrics)
    (Hm : table_metrics df = Some m)
    (Hnonempty : df_empty df = false) :
  null_cells m ≤ total_records m * length (columns df)
  ∧ (0 ≤ completeness m)%Qc ∧ (completeness m ≤ Qc_of_Z 100)%Qc
  ∧ (completeness m = Qc_of_Z 100 ↔ null_cells m = 0)
  ∧ (completeness m = 0%Qc
     ↔ null_cells m = total_records m * length (columns df))
  ∧ (is_Some (unique_counties m) ↔ "County" ∈ columns df)
  ∧ (∀ n, unique_counties m = Some n → n ≤ total_records m).
Proof.
  destruct (table_metrics_fields df m Hm) as (Ht & Hn & Hc).
  pose proof (df_size_pos df Hnonempty) as Hsize.
  assert (Hle : df_null_cells df ≤ df_size df).
  { rewrite null_cells_row_major. unfold df_size.
    rewrite <- all_cells_length. apply filter_length_le. }
  rewrite Hc, Hn, Ht, completeness_of_pos by done.
  change (nrows df * length (columns df)) with (df_size df).
  destruct (share_bounds _ _ Hle Hsize) as [H0 H1].
  pose proof (share_zero (df_null_cells df) (df_size df) Hsize) as Hzero.
  pose proof (share_one (df_null_cells df) (df_size df) Hsize) as Hone.
  set (x := (Qc_of_nat (df_null_cells df) / Qc_of_nat (df_size df))%Qc) in *.
  assert (H100 : (0 < Qc_of_Z 100)%Qc) by done.
  split_and!.
  - done.
  - apply Qcmult_nonneg_nonneg; [by apply Qclt_le_weak|].
    unfold Qcminus. by apply Qcle_minus_iff in H1.
  - rewrite <- (Qcmult_1_r (Qc_of_Z 100)) at 2.
    apply Qcmult_le_mono_nonneg_l; [by apply Qclt_le_weak|].
    apply Qcle_minus_iff. replace (1 + - (1 - x))%Qc with x by ring. done.
  - rewrite <- Hzero. split.
    + intros E. replace x with (1 - (Qc_of_Z 100 * (1 - x)) / Qc_of_Z 100)%Qc
        by (field; done).
      rewrite E. field. done.
    + intros ->. ring.
  - rewrite <- Hone. split.
    + intros E. replace x with (1 - (Qc_of_Z 100 * (1 - x)) / Qc_of_Z 100)%Qc
        by (field; done).
      rewrite E. field. done.
    + intros ->. ring.
  - unfold table_metrics in Hm. apply bind_Some in Hm as (yr & _ & [= <-]).
    cbn [unique_counties]. unfold has_column. case_bool_decide as Hcol.
    + split; [done|by eexists].
    + split; [by intros [? ?]|done].
  - intros n. unfold table_metrics in Hm.
    apply bind_Some in Hm as (yr & _ & [= <-]). cbn [unique_counties].
    destruct (has_column df "County"); [|done]. intros [= <-].
    etransitivity; [apply remove_dups_length_le|].
    etransitivity; [apply filter_length_le|].
    unfold series, nrows. by rewrite length_fmap.
Qed.

Lemma table_metrics_bounds_witness :
  ∃ m, table_metrics sample_density_data = Some m
       ∧ (completeness m = Qc_of_Z 100 ↔ null_cells m = 0).
Proof.
  destruct (table_metrics sample_density_data) as [m|] eqn:Hm;
    [|by vm_compute in Hm].
  exists m. split; [done|].
  apply (table_metrics_bounds sample_density_data m Hm eq_refl).
Defined.

(** ** Regional density *)

Lemma endswith_app (s suf : string) : PyStr.endswith (s +:+ suf) suf = true.
Proof.
  apply PyStrFacts.endswith_true. exists (PyStr.chars s).
  apply PyStrFacts.chars_app.
Qed.

Lemma counties_formatted_suffixed (counties : list string) c :
  c ∈ counties_formatted_of counties → PyStr.endswith c " County" = true.
Proof.
  unfold counties_formatted_of. intros (c0 & -> & _)%list_elem_of_fmap.
  destruct (PyStr.endswith c0 " County") eqn:E; cbn [negb]; [done|].
  apply endswith_app.
Qed.

Lemma counties_formatted_idem (counties : list string) :
  counties_formatted_of (counties_formatted_of counties)
  = counties_formatted_of counties.
Proof.
  unfold counties_formatted_of at 1.
  rewrite <- (list_fmap_id (counties_formatted_of counties)) at 2.
  apply list_fmap_ext. intros _ c Hc%list_elem_of_lookup_2.
  by rewrite (counties_formatted_suffixed counties c Hc).
Qed.

Lemma regional_matching (d : DataFrame) (values : list cell) :
  select d (isin values <$> series d "County")
  = filter_rows (λ r, isin values (row_cell "County" r)) d.
Proof. unfold series. rewrite <- list_fmap_compose. apply select_rows. Qed.

Lemma regional_row_suffixed_rows (density_df : DataFrame)
    (entry : string * list string) :
  regional_row (filter_rows has_county_suffix density_df) entry
  = regional_row density_df entry.
Proof.
  destruct entry as [region counties]. unfold regional_row. cbv zeta.
  rewrite !regional_matching, filter_rows_filter_rows.
  change (has_column (filter_rows ?p ?d) ?c) with (has_column d c).
  assert (Hsame : filter_rows
            (λ r, has_county_suffix r
                  && isin (CStr <$> counties_formatted_of counties)
                          (row_cell "County" r)) density_df
          = filter_rows
              (λ r, isin (CStr <$> counties_formatted_of counties)
                         (row_cell "County" r)) density_df);
    [|by rewrite Hsame].
  unfold filter_rows. f_equal. apply List.filter_ext. intros r.
  unfold has_county_suffix, isin.
  case_bool_decide as Hin; [|by rewrite andb_false_r].
  apply list_elem_of_fmap in Hin as (c & -> & Hc).
  by rewrite (counties_formatted_suffixed counties c Hc).
Qed.

(** X28.  The regional averages see a row of the density table only if
    its county is written with the " County" suffix: removing every other
    row changes nothing.  The counties of a region may be given with or
    without the suffix. *)
Theorem regional_density_counts_suffixed_rows_only
    (density_df : DataFrame) (region_mapping : gmap string (list string)) :
  calculate_regional_density (filter_rows has_county_suffix density_df)
    region_mapping
  = calculate_regional_density density_df region_mapping
  ∧ ∀ region counties,
      regional_row density_df (region, counties_formatted_of counties)
      = regional_row density_df (region, counties).
Proof.
  split.
  - unfold calculate_regional_density, regional_density_of_items. f_equal.
    induction (map_to_list region_mapping) as [|e l IH]; [done|].
    cbn [mapM]. rewrite regional_row_suffixed_rows. by rewrite IH.
  - intros region counties. unfold regional_row.
    by rewrite counties_formatted_idem.
Qed.

(** X29.  With no region to report, [calculate_regional_density] returns a
    frame without rows and without columns, whatever the density table is;
    with at least one region, a table without the [County] or the
    [Dispensary_PerCapita] column makes it raise. *)
Theorem regional_density_edges
    (density_df : DataFrame) (region_mapping : gmap string (list string)) :
  calculate_regional_density density_df ∅
  = Some {| columns := []; rows := [] |}
  ∧ (region_mapping ≠ ∅ →
     "County" ∉ columns density_df
     ∨ "Dispensary_PerCapita" ∉ columns density_df →
     calculate_regional_density density_df region_mapping = None).
Proof.
  split.
  - unfold calculate_regional_density, regional_density_of_items. by rewrite map_to_list_empty.
  - intros Hne Hmissing. unfold calculate_regional_density, regional_density_of_items.
    destruct (map_to_list region_mapping) as [|[region counties] l] eqn:Hl.
    { by apply map_to_list_empty_iff in Hl. }
    cbn [mapM].
    assert (Hrow : regional_row density_df (region, counties) = None);
      [|by rewrite Hrow].
    unfold regional_row. cbv zeta.
    change (has_column (select ?d ?m) ?c) with (has_column d c).
    unfold has_column. destruct Hmissing as [Hc|Hc].
    + by rewrite bool_decide_eq_false_2.
    + case_bool_decide; cbn [negb]; [|done].
      by rewrite bool_decide_eq_false_2.
Qed.

(** ** The year range of a table *)

Example year_range_cases :
  year_range_of [CNum (Qc_of_Z 2021); CNull; CNum (Qc_of_Z 2019)]
  = Some (Some "2019-2021")
  ∧ year_range_of [CStr "2021"; CNull; CStr " 2019"] = Some (Some "2019-2021")
  ∧ year_range_of [CNull; CNull] = Some None
  ∧ year_range_of [CStr "2021"; CNum (Qc_of_Z 2019)] = None
  ∧ year_range_of [CStr "2021"; CStr "n/a"] = None.
Proof. vm_compute. repeat split. Qed.

(** ** Regional density: the order of the regions *)

Lemma mapM_Permutation {A B} (f : A → option B) (l l' : list A) (k : list B) :
  l ≡ₚ l' → mapM f l = Some k → ∃ k', mapM f l' = Some k' ∧ k ≡ₚ k'.
Proof.
  intros Hp. revert k.
  induction Hp as [|x l l' _ IH|x y l|l l1 l' _ IH1 _ IH2]; intros k Hk.
  - exists k. by split.
  - cbn [mapM] in *. apply bind_Some in Hk as (v & Hv & Hk).
    apply bind_Some in Hk as (k0 & Hk0 & [= <-]).
    destruct (IH k0 Hk0) as (k' & -> & Hkk).
    exists (v :: k'). rewrite Hv. split; [done|by constructor].
  - cbn [mapM] in *. apply bind_Some in Hk as (v & Hv & Hk).
    apply bind_Some in Hk as (k0 & Hk & [= <-]).
    apply bind_Some in Hk as (w & Hw & Hk).
    apply bind_Some in Hk as (k1 & Hk1 & [= <-]).
    exists (w :: v :: k1). rewrite Hv, Hw, Hk1. split; [done|constructor].
  - destruct (IH1 k Hk) as (k1 & Hk1 & Hp1).
    destruct (IH2 k1 Hk1) as (k2 & Hk2 & Hp2).
    exists k2. split; [done|by etransitivity].
Qed.

(** The rows come in the order of the items. *)
Lemma regional_density_rows_in_order (density_df : DataFrame)
    (items : list (string * list string)) (out : DataFrame) :
  regional_density_of_items density_df items = Some out →
  (λ r, r !! "Region") <$> rows out = (λ e, Some (CStr e.1)) <$> items.
Proof.
  unfold regional_density_of_items. intros Hout.
  apply bind_Some in Hout as (rs & Hrs & [= <-]).
  change (rows (frame_of_records ?c ?r)) with r.
  apply mapM_Some in Hrs. induction Hrs as [|[region counties] r items rs Hr _ IH];
    [done|].
  rewrite !fmap_cons, IH. f_equal. cbn [fst].
  unfold regional_row in Hr. cbv zeta in Hr.
  repeat case_match; try done.
  apply bind_Some in Hr as (avg & _ & [= <-]).
  rewrite lookup_insert_eq. done.
Qed.

(** A dictionary and the finite map of its items give the same rows, up to
    their order: what is stated on the finite map without mention of an
    order holds of the dictionary. *)
Lemma regional_density_up_to_order (density_df : DataFrame)
    (items : list (string * list string)) :
  NoDup items.*1 →
  match regional_density_of_items density_df items,
        calculate_regional_density density_df (list_to_map items) with
  | Some out, Some out' =>
      columns out = columns out' ∧ rows out ≡ₚ rows out'
  | None, None => True
  | _, _ => False
  end.
Proof.
  intros Hnd. unfold calculate_regional_density, regional_density_of_items.
  pose proof (map_to_list_to_map (M := gmap string) items Hnd) as Hp.
  destruct (mapM (regional_row density_df) items) as [rs|] eqn:Hrs.
  - destruct (mapM_Permutation _ _ _ _ (symmetry Hp) Hrs) as (rs' & -> & Hpp).
    cbn. split; [|done]. apply Permutation_length in Hpp.
    by destruct rs, rs'.
  - destruct (mapM (regional_row density_df)
                (map_to_list (list_to_map items : gmap string (list string))))
      as [rs'|] eqn:Hrs'; [|done].
    destruct (mapM_Permutation _ _ _ _ Hp Hrs') as (rs & Hrs2 & _). congruence.
Qed.

(** ** The validators on the store *)

Section store_reads.
Implicit Types (s : gmap loc DataFrame) (d : DataFrame).

Lemma run_df_columns {A} l d s (k : list string → M A) :
  s !! l = Some d → (df_columns l ≫= k) s = k (columns d) s.
Proof. intros Hd. unfold df_columns, mbind, M_bind, frame. by rewrite Hd. Qed.

Lemma run_df_len {A} l d s (k : nat → M A) :
  s !! l = Some d → (df_len l ≫= k) s = k (nrows d) s.
Proof. intros Hd. unfold df_len, mbind, M_bind, frame. by rewrite Hd. Qed.

Lemma run_df_getitem {A} l d s c (k : list cell → M A) :
  s !! l = Some d → has_column d c = true →
  (df_getitem l c ≫= k) s = k (series d c) s.
Proof.
  intros Hd Hc. unfold df_getitem, mbind, M_bind, frame. by rewrite Hd, Hc.
Qed.

(** [df[mask][c]]: the rows are read from a new frame, which stays in the
    store next to the frames that were there. *)
Lemma run_selected_column {A} l d s c mask (k : list cell → M A) :
  s !! l = Some d → has_column d c = true →
  (df_select l mask ≫= λ rows, df_getitem rows c ≫= k) s
  = k (series (select d mask) c) (<[fresh (dom s) := select d mask]> s).
Proof.
  intros Hd Hc. unfold df_select, df_getitem, new_frame, mbind, M_bind, frame.
  rewrite Hd, lookup_insert_eq.
  change (has_column (select d mask) c) with (has_column d c). by rewrite Hc.
Qed.

Lemma store_grows s d : s ⊆ <[fresh (dom s) := d]> s.
Proof. apply insert_subseteq. apply not_elem_of_dom, is_fresh. Qed.

Lemma run_dangling {A B} l s (m : DataFrame → M B) (k : B → M A) :
  s !! l = None → ((frame l ≫= m) ≫= k) s = (None, s).
Proof. intros Hd. unfold mbind, M_bind, frame. by rewrite Hd. Qed.

End store_reads.

Section validators_on_the_store.
Context `{Pandas}.
Implicit Types (s : gmap loc DataFrame) (d : DataFrame).

(** On a frame of the store, the validator returns what it returns on the
    frame's content; the store afterwards holds the frames it held, and at
    most one more. *)
Lemma validate_positive_numeric_at_run l d s column allow_zero name :
  s !! l = Some d →
  ∃ s', validate_positive_numeric_at l column allow_zero name s
        = (Some (validate_positive_numeric d column allow_zero name), s')
        ∧ s ⊆ s'.
Proof.
  intros Hd. unfold validate_positive_numeric_at, validate_positive_numeric.
  cbv zeta. rewrite (run_df_columns l d) by done. fold (has_column d column).
  destruct (has_column d column) eqn:Hc; cbn [negb]; [|by eexists].
  rewrite (run_df_getitem l d) by done.
  destruct allow_zero; cbv zeta; case_bool_decide;
    try (eexists; split; [reflexivity|done]);
    rewrite (run_selected_column l d) by done;
    (eexists; split; [reflexivity|apply store_grows]).
Qed.

Lemma validate_range_at_run l d s column min_value max_value name :
  s !! l = Some d →
  ∃ s', validate_range_at l column min_value max_value name s
        = (Some (validate_range d column min_value max_value name), s')
        ∧ s ⊆ s'.
Proof.
  intros Hd. unfold validate_range_at, validate_range.
  cbv zeta. rewrite (run_df_columns l d) by done. fold (has_column d column).
  destruct (has_column d column) eqn:Hc; cbn [negb]; [|by eexists].
  rewrite (run_df_getitem l d) by done. rewrite (run_df_len l d) by done.
  destruct min_value, max_value; cbv zeta; case_bool_decide;
    try (eexists; split; [reflexivity|done]);
    rewrite (run_selected_column l d) by done;
    (eexists; split; [reflexivity|apply store_grows]).
Qed.

Lemma validate_positive_numeric_at_dangling l s column allow_zero name :
  s !! l = None →
  validate_positive_numeric_at l column allow_zero name s = (None, s).
Proof.
  intros Hd. unfold validate_positive_numeric_at, df_columns, mbind, M_bind, frame.
  by rewrite Hd.
Qed.

Lemma validate_range_at_dangling l s column min_value max_value name :
  s !! l = None →
  validate_range_at l column min_value max_value name s = (None, s).
Proof.
  intros Hd. unfold validate_range_at, df_columns, mbind, M_bind, frame.
  by rewrite Hd.
Qed.

End validators_on_the_store.

Section frames_are_kept.
Implicit Types (s : gmap loc DataFrame) (d : DataFrame).

Lemma kept_bind {A B} (m : M A) (k : A → M B) :
  (∀ s, s ⊆ (m s).2) → (∀ x s, s ⊆ (k x s).2) → ∀ s, s ⊆ ((m ≫= k) s).2.
Proof.
  intros Hm Hk s. specialize (Hm s). unfold mbind, M_bind.
  destruct (m s) as [[x|] s1]; cbn [snd] in *; [|done].
  etransitivity; [exact Hm|apply Hk].
Qed.

End frames_are_kept.

Section batch_on_the_store.
Context `{Pandas}.
Implicit Types (s : gmap loc DataFrame) (d : DataFrame).

Lemma validate_positive_numeric_at_kept l column allow_zero name s :
  s ⊆ (validate_positive_numeric_at l column allow_zero name s).2.
Proof.
  destruct (s !! l) as [d|] eqn:Hd.
  - destruct (validate_positive_numeric_at_run l d s column allow_zero name Hd)
      as (s' & -> & Hs). done.
  - by rewrite validate_positive_numeric_at_dangling.
Qed.

Lemma validate_range_at_kept l column min_value max_value name s :
  s ⊆ (validate_range_at l column min_value max_value name s).2.
Proof.
  destruct (s !! l) as [d|] eqn:Hd.
  - destruct (validate_range_at_run l d s column min_value max_value name Hd)
      as (s' & -> & Hs). done.
  - by rewrite validate_range_at_dangling.
Qed.

Lemma route_validation_at_run current_year l d s cfg column :
  s !! l = Some d →
  ∃ s', route_validation_at current_year l cfg column s
        = (Some (route_validation current_year d cfg column), s')
        ∧ s ⊆ s'.
Proof.
  intros Hd. unfold route_validation_at, route_validation,
    validate_year_column_at, validate_year_column,
    validate_sentiment_score_at, validate_sentiment_score,
    validate_percentage_at, validate_percentage. cbv zeta.
  repeat case_bool_decide;
    first [by apply validate_positive_numeric_at_run
          |by apply validate_range_at_run
          |by eexists].
Qed.

Lemma route_validation_at_kept current_year l cfg column s :
  s ⊆ (route_validation_at current_year l cfg column s).2.
Proof.
  unfold route_validation_at, validate_year_column_at,
    validate_sentiment_score_at, validate_percentage_at. cbv zeta.
  repeat case_bool_decide;
    first [apply validate_positive_numeric_at_kept
          |apply validate_range_at_kept
          |done].
Qed.

Lemma validate_dataset_step_at_run current_year l d s state cfg :
  s !! l = Some d →
  ∃ s', validate_dataset_step_at current_year l state cfg s
        = (Some (validate_dataset_step current_year d state cfg), s')
        ∧ s ⊆ s'.
Proof.
  intros Hd. destruct state as [all_valid results].
  unfold validate_dataset_step_at, validate_dataset_step.
  destruct (cfg_column cfg) as [column|]; [|by eexists].
  destruct (PyStr.is_empty column); [by eexists|].
  destruct (route_validation_at_run current_year l d s cfg column Hd)
    as (s' & Hrun & Hs).
  exists s'. split; [|done]. unfold mbind, M_bind. by rewrite Hrun.
Qed.

Lemma validate_dataset_step_at_kept current_year l state cfg s :
  s ⊆ (validate_dataset_step_at current_year l state cfg s).2.
Proof.
  destruct state as [all_valid results]. unfold validate_dataset_step_at.
  destruct (cfg_column cfg) as [column|]; [|done].
  destruct (PyStr.is_empty column); [done|].
  apply kept_bind; [intros s0; apply route_validation_at_kept|done].
Qed.

Lemma validate_dataset_loop_run current_year l d validations :
  ∀ s state,
    s !! l = Some d →
    ∃ s', validate_dataset_loop current_year l validations state s
          = (Some (fold_left (validate_dataset_step current_year d)
                             validations state), s')
          ∧ s ⊆ s'.
Proof.
  induction validations as [|cfg validations IH]; intros s state Hd.
  - by eexists.
  - cbn [validate_dataset_loop fold_left].
    destruct (validate_dataset_step_at_run current_year l d s state cfg Hd)
      as (s1 & Hrun & Hs1).
    destruct (IH s1 (validate_dataset_step current_year d state cfg))
      as (s' & Hloop & Hs'); [by eapply lookup_weaken|].
    exists s'. split; [|by etransitivity].
    unfold mbind, M_bind. by rewrite Hrun.
Qed.

Lemma validate_dataset_loop_kept current_year l validations :
  ∀ state s, s ⊆ (validate_dataset_loop current_year l validations state s).2.
Proof.
  induction validations as [|cfg validations IH]; intros state s; [done|].
  cbn [validate_dataset_loop].
  apply kept_bind; [intros s0; apply validate_dataset_step_at_kept|].
  intros state' s0. apply IH.
Qed.

Lemma validate_dataset_at_run current_year l d s dataset_name validations :
  s !! l = Some d →
  ∃ s', validate_dataset_at current_year l dataset_name validations s
        = (Some (validate_dataset current_year d dataset_name validations), s')
        ∧ s ⊆ s'.
Proof. apply validate_dataset_loop_run. Qed.

Lemma validate_dataset_at_kept current_year l dataset_name validations s :
  s ⊆ (validate_dataset_at current_year l dataset_name validations s).2.
Proof. apply validate_dataset_loop_kept. Qed.

(** One of the three blocks of [validate_all_datasets]. *)
Lemma dataset_block_kept current_year (o : option loc) dataset_name validations
    (key : string) (validation_results : gmap string (bool * list ValidationResult))
    s :
  s ⊆ (match o with
       | Some df =>
           entry ← validate_dataset_at current_year df dataset_name validations;
           mret (<[key := entry]> validation_results)
       | None => mret validation_results
       end s).2.
Proof.
  destruct o as [df|]; [|done].
  apply kept_bind; [intros s0; apply validate_dataset_at_kept|done].
Qed.

Lemma dataset_block_run current_year (data_dict : gmap string loc)
    dataset_name validations (key : string)
    (validation_results : gmap string (bool * list ValidationResult))
    (s0 s : gmap loc DataFrame) :
  s0 ⊆ s →
  (∀ name l, data_dict !! name = Some l → is_Some (s0 !! l)) →
  ∃ s',
    match data_dict !! key with
    | Some df =>
        entry ← validate_dataset_at current_year df dataset_name validations;
        mret (<[key := entry]> validation_results)
    | None => mret validation_results
    end s
    = (Some match omap (λ l, s0 !! l) data_dict !! key with
            | Some d => <[key := validate_dataset current_year d dataset_name
                                   validations]> validation_results
            | None => validation_results
            end, s')
    ∧ s ⊆ s'.
Proof.
  intros Hs Hlive. rewrite lookup_omap.
  destruct (data_dict !! key) as [l|] eqn:Hl; cbn; [|by eexists].
  destruct (Hlive key l Hl) as [d Hd]. rewrite Hd.
  destruct (validate_dataset_at_run current_year l d s dataset_name validations)
    as (s' & Hrun & Hs'); [by eapply lookup_weaken|].
  exists s'. split; [|done]. unfold mbind, M_bind. by rewrite Hrun.
Qed.

Lemma validate_all_datasets_at_kept current_year data_dict s :
  s ⊆ (validate_all_datasets_at current_year data_dict s).2.
Proof.
  unfold validate_all_datasets_at. cbv zeta.
  apply kept_bind; [intros s0; apply dataset_block_kept|]. intros r1 s1.
  apply kept_bind; [intros s0; apply dataset_block_kept|]. intros r2 s2.
  apply dataset_block_kept.
Qed.

Lemma validate_all_datasets_at_run current_year data_dict s :
  (∀ name l, data_dict !! name = Some l → is_Some (s !! l)) →
  (validate_all_datasets_at current_year data_dict s).1
  = Some (validate_all_datasets current_year (omap (λ l, s !! l) data_dict)).
Proof.
  intros Hlive. unfold validate_all_datasets_at, validate_all_datasets.
  cbv zeta.
  destruct (dataset_block_run current_year data_dict "Dispensaries"
              dispensaries_validations "dispensaries" ∅ s s) as (s1 & H1 & Hs1);
    [done..|].
  unfold mbind at 1, M_bind at 1. rewrite H1.
  set (r1 := match omap (λ l, s !! l) data_dict !! "dispensaries" with
             | Some d => _ | None => _ end) in *.
  destruct (dataset_block_run current_year data_dict "Density"
              density_validations "density" r1 s s1) as (s2 & H2 & Hs2);
    [done..|].
  unfold mbind at 1, M_bind at 1. rewrite H2.
  set (r2 := match omap (λ l, s !! l) data_dict !! "density" with
             | Some d => _ | None => _ end) in *.
  destruct (dataset_block_run current_year data_dict "Tweet Sentiment"
              sentiment_validations "tweet_sentiment" r2 s s2)
    as (s3 & H3 & Hs3); [by etransitivity|done|].
  rewrite H3. done.
Qed.

End batch_on_the_store.

(** The range check on the density fixture flags four years: the rows are
    read from a new frame, and the fixture is still what it was. *)
Example validate_range_at_density_session :
  ∃ s', @validate_range_at decimal_pandas 1%positive "Year"
          (Some (Qc_of_Z 2021)) (Some (Qc_of_Z 2021)) None density_session
        = (Some (@validate_range decimal_pandas sample_density_data "Year"
                   (Some (Qc_of_Z 2021)) (Some (Qc_of_Z 2021)) None), s')
        ∧ s' !! 1%positive = Some sample_density_data
        ∧ nrows <$> s' !! 2%positive = Some 4.
Proof. eexists. split_and!; [vm_compute; reflexivity|reflexivity|reflexivity]. Qed.

(** Claim C10.  Calling any of the three appliers on a frame of the store
    leaves every frame the caller knows as it was (also when the call
    raises); the returned frame is a new object, and it has the columns of
    the input, the temporary "_normalized_county" column being gone.  Each of
    the seven validation functions, called on a frame of the store (the
    dictionary of [validate_all_datasets] holding references to frames),
    leaves every frame of the store as it was, whether it returns or raises,
    and what it returns is the report on the content of the frame: reading
    the columns and the rows does not write, and the invalid rows are
    sampled from a new frame. *)
Theorem appliers_and_validators_keep_inputs `{Pandas}
    (s : gmap loc DataFrame) (l : loc) (filters : Filters) :
  keeps_inputs (apply_dispensary_filters l filters) l s
  ∧ keeps_inputs (apply_sentiment_filters l filters) l s
  ∧ keeps_inputs (apply_density_filters l filters) l s
  ∧ (∀ column allow_zero name,
       only_reports (validate_positive_numeric_at l column allow_zero name) l s
         (λ d, validate_positive_numeric d column allow_zero name))
  ∧ (∀ column min_value max_value name,
       only_reports (validate_range_at l column min_value max_value name) l s
         (λ d, validate_range d column min_value max_value name))
  ∧ (∀ current_year column min_year max_year,
       only_reports
         (validate_year_column_at current_year l column min_year max_year) l s
         (λ d, validate_year_column current_year d column min_year max_year))
  ∧ (∀ column min_score max_score,
       only_reports (validate_sentiment_score_at l column min_score max_score)
         l s (λ d, validate_sentiment_score d column min_score max_score))
  ∧ (∀ column name,
       only_reports (validate_percentage_at l column name) l s
         (λ d, validate_percentage d column name))
  ∧ (∀ current_year dataset_name validations,
       only_reports
         (validate_dataset_at current_year l dataset_name validations) l s
         (λ d, validate_dataset current_year d dataset_name validations))
  ∧ (∀ current_year (data_dict : gmap string loc),
       s ⊆ (validate_all_datasets_at current_year data_dict s).2
       ∧ ((∀ name l', data_dict !! name = Some l' → is_Some (s !! l')) →
          (validate_all_datasets_at current_year data_dict s).1
          = Some (validate_all_datasets current_year
                    (omap (λ l', s !! l') data_dict)))).
Proof.
  assert (Hk : ∀ apply, applier_spec apply → keeps_inputs (apply l filters) l s).
  { intros apply Hspec. specialize (Hspec s l filters s eq_refl).
    unfold keeps_inputs. destruct (apply l filters s) as [[l'|] s']; simpl.
    - destruct Hspec as (Hs & Hn & d & d' & Hd & Hd' & Hc).
      split; [done|]. intros ? [= <-]. eauto 10.
    - split; [done|]. by intros ?. }
  assert (Hrange : ∀ column min_value max_value name,
    only_reports (validate_range_at l column min_value max_value name) l s
      (λ d, validate_range d column min_value max_value name)).
  { intros column min_value max_value name.
    split; [apply validate_range_at_kept|]. intros d Hd.
    by destruct (validate_range_at_run l d s column min_value max_value name Hd)
      as (s' & -> & _). }
  split_and!.
  - apply Hk, apply_dispensary_filters_spec.
  - apply Hk, apply_sentiment_filters_spec.
  - apply Hk, apply_density_filters_spec.
  - intros column allow_zero name.
    split; [apply validate_positive_numeric_at_kept|]. intros d Hd.
    by destruct (validate_positive_numeric_at_run l d s column allow_zero name Hd)
      as (s' & -> & _).
  - exact Hrange.
  - intros current_year column min_year max_year. apply Hrange.
  - intros column min_score max_score. apply Hrange.
  - intros column name. apply Hrange.
  - intros current_year dataset_name validations.
    split; [apply validate_dataset_at_kept|]. intros d Hd.
    by destruct (validate_dataset_at_run current_year l d s dataset_name
                   validations Hd) as (s' & -> & _).
  - intros current_year data_dict.
    split; [apply validate_all_datasets_at_kept|].
    apply validate_all_datasets_at_run.
Qed.
